(** * SU2: multicomponent fluid model (CFluidCantera) and the driver's
      scripting accessors (python_wrapper_structure)

    A shallow embedding of

    - [SU2_CFD/src/fluid/CFluidCantera.cpp]: the constructor, the
      mass-to-mole-fraction conversion, the Wilke and Davidson mixing rules
      and [SetTDState_T];
    - [SU2_CFD/src/python_wrapper_structure.cpp]: the per-point, per-vertex
      and whole-marker accessors of [CDriver].

    Conventions.

    - [su2double] and [passivedouble] are read as exact real numbers ([R]):
      the formulas are those of the source, the rounding of IEEE doubles is
      not modelled.  [sqrt] is the real square root and [pow] the real power
      function on a positive base.
    - [std::array<su2double, ARRAYSIZE>] and [std::vector] are lists, read
      with [!!] and updated with [<[i:=v]>].  The source does no bounds
      checking of its own on [operator[]]: in the fluid model an access past
      the end is shown as reading [0] / writing nothing and the theorems
      carry the size invariant that excludes it; in the driver, where the
      index itself is at stake, the access is checked and reported as
      [OutOfBounds].
    - [SU2_MPI::Error] prints its message and aborts the run: a call that
      reaches it yields [Error msg] and nothing after it is executed.
    - a counted loop [for (i = 0; i < n; i++) body] is [for_upto n body]. *)

From stdpp Require Import base list strings.
From Stdlib Require Import Reals Lra.

Open Scope R_scope.

(** ** Outcomes of a call *)

Inductive outcome (A : Type) : Type :=
| Ok (a : A)
| Error (msg : string)
| OutOfBounds (index size : nat).

Arguments Ok {A} a.
Arguments Error {A} msg.
Arguments OutOfBounds {A} index size.

#[global] Instance outcome_ret : MRet outcome := fun A a => Ok a.

#[global] Instance outcome_bind : MBind outcome := fun A B k m =>
  match m with
  | Ok a => k a
  | Error msg => Error msg
  | OutOfBounds i n => OutOfBounds i n
  end.

(** [if (cond) SU2_MPI::Error(msg, CURRENT_FUNCTION);] *)
Definition error_if (cond : bool) (msg : string) : outcome unit :=
  if cond then Error msg else Ok tt.

(** ** Counted loops *)

Fixpoint for_upto {S : Type} (n : nat) (body : nat -> S -> S) (s : S) : S :=
  match n with
  | O => s
  | Datatypes.S k => body k (for_upto k body s)
  end.

(** The value an accumulator [acc += f(i)] started at [0] holds after the
    iterations [0 .. n-1]. *)
Fixpoint sum_upto (n : nat) (f : nat -> R) : R :=
  match n with
  | O => 0
  | Datatypes.S k => sum_upto k f + f k
  end.

(** The loop [for (i = 0; i < n; i++) a[i] = g(i);] on one array. *)
Definition fill {A : Type} (n : nat) (g : nat -> A) (a : list A) : list A :=
  for_upto n (fun i a => <[i := g i]> a) a.

(** Array read [a[i]]. *)
Definition get (a : list R) (i : nat) : R := default 0 (a !! i).

Module FluidCantera.

(** [std::pow] on a positive base. *)
Definition pow (x y : R) : R := Rpower x y.

(** The per-species property models are reached through the abstract
    interfaces [CViscosityModel], [CConductivityModel] and
    [CDiffusivityModel], whose declarations are outside this excerpt.  A
    model is represented by the value its getter returns after its setter was
    called with the given arguments. *)
Definition CViscosityModel : Type := R -> R -> R.
Definition CConductivityModel : Type := R -> R -> R -> R -> R -> R -> R -> R.
Definition CDiffusivityModel : Type := R -> R -> R -> R -> R.

(** The base class: the mixture state [CFluidModel] holds. *)
Record CFluidModel : Type := {
  Temperature : R;
  Density : R;
  Cp : R;
  Cv : R;
  Mu : R;
  Kt : R
}.

Definition set_Temperature (v : R) (b : CFluidModel) : CFluidModel :=
  {| Temperature := v; Density := Density b; Cp := Cp b; Cv := Cv b; Mu := Mu b; Kt := Kt b |}.
Definition set_Density (v : R) (b : CFluidModel) : CFluidModel :=
  {| Temperature := Temperature b; Density := v; Cp := Cp b; Cv := Cv b; Mu := Mu b; Kt := Kt b |}.
Definition set_Cp (v : R) (b : CFluidModel) : CFluidModel :=
  {| Temperature := Temperature b; Density := Density b; Cp := v; Cv := Cv b; Mu := Mu b; Kt := Kt b |}.
Definition set_Cv (v : R) (b : CFluidModel) : CFluidModel :=
  {| Temperature := Temperature b; Density := Density b; Cp := Cp b; Cv := v; Mu := Mu b; Kt := Kt b |}.
Definition set_Mu (v : R) (b : CFluidModel) : CFluidModel :=
  {| Temperature := Temperature b; Density := Density b; Cp := Cp b; Cv := Cv b; Mu := v; Kt := Kt b |}.
Definition set_Kt (v : R) (b : CFluidModel) : CFluidModel :=
  {| Temperature := Temperature b; Density := Density b; Cp := Cp b; Cv := Cv b; Mu := Mu b; Kt := v |}.

(** The members of [CFluidCantera]. *)
Record CFluidCantera : Type := {
  base : CFluidModel;
  n_species_mixture : nat;
  Gas_Constant : R;
  Gamma : R;
  Pressure_Thermodynamic : R;
  GasConstant_Ref : R;
  Prandtl_Number : R;
  wilke : bool;
  davidson : bool;
  molarMasses : list R;
  specificHeat : list R;
  massFractions : list R;
  moleFractions : list R;
  laminarViscosity : list R;
  laminarThermalConductivity : list R;
  massDiffusivity : list R;
  LaminarViscosityPointers : list (option CViscosityModel);
  ThermalConductivityPointers : list (option CConductivityModel);
  MassDiffusivityPointers : list (option CDiffusivityModel)
}.

Definition with_base (f : CFluidModel -> CFluidModel) (s : CFluidCantera) : CFluidCantera :=
  {| base := f (base s); n_species_mixture := n_species_mixture s;
     Gas_Constant := Gas_Constant s; Gamma := Gamma s;
     Pressure_Thermodynamic := Pressure_Thermodynamic s;
     GasConstant_Ref := GasConstant_Ref s; Prandtl_Number := Prandtl_Number s;
     wilke := wilke s; davidson := davidson s;
     molarMasses := molarMasses s; specificHeat := specificHeat s;
     massFractions := massFractions s; moleFractions := moleFractions s;
     laminarViscosity := laminarViscosity s;
     laminarThermalConductivity := laminarThermalConductivity s;
     massDiffusivity := massDiffusivity s;
     LaminarViscosityPointers := LaminarViscosityPointers s;
     ThermalConductivityPointers := ThermalConductivityPointers s;
     MassDiffusivityPointers := MassDiffusivityPointers s |}.

Definition set_Gas_Constant (v : R) (s : CFluidCantera) : CFluidCantera :=
  {| base := base s; n_species_mixture := n_species_mixture s;
     Gas_Constant := v; Gamma := Gamma s;
     Pressure_Thermodynamic := Pressure_Thermodynamic s;
     GasConstant_Ref := GasConstant_Ref s; Prandtl_Number := Prandtl_Number s;
     wilke := wilke s; davidson := davidson s;
     molarMasses := molarMasses s; specificHeat := specificHeat s;
     massFractions := massFractions s; moleFractions := moleFractions s;
     laminarViscosity := laminarViscosity s;
     laminarThermalConductivity := laminarThermalConductivity s;
     massDiffusivity := massDiffusivity s;
     LaminarViscosityPointers := LaminarViscosityPointers s;
     ThermalConductivityPointers := ThermalConductivityPointers s;
     MassDiffusivityPointers := MassDiffusivityPointers s |}.

Definition set_molarMasses (v : list R) (s : CFluidCantera) : CFluidCantera :=
  {| base := base s; n_species_mixture := n_species_mixture s;
     Gas_Constant := Gas_Constant s; Gamma := Gamma s;
     Pressure_Thermodynamic := Pressure_Thermodynamic s;
     GasConstant_Ref := GasConstant_Ref s; Prandtl_Number := Prandtl_Number s;
     wilke := wilke s; davidson := davidson s;
     molarMasses := v; specificHeat := specificHeat s;
     massFractions := massFractions s; moleFractions := moleFractions s;
     laminarViscosity := laminarViscosity s;
     laminarThermalConductivity := laminarThermalConductivity s;
     massDiffusivity := massDiffusivity s;
     LaminarViscosityPointers := LaminarViscosityPointers s;
     ThermalConductivityPointers := ThermalConductivityPointers s;
     MassDiffusivityPointers := MassDiffusivityPointers s |}.

Definition set_specificHeat (v : list R) (s : CFluidCantera) : CFluidCantera :=
  {| base := base s; n_species_mixture := n_species_mixture s;
     Gas_Constant := Gas_Constant s; Gamma := Gamma s;
     Pressure_Thermodynamic := Pressure_Thermodynamic s;
     GasConstant_Ref := GasConstant_Ref s; Prandtl_Number := Prandtl_Number s;
     wilke := wilke s; davidson := davidson s;
     molarMasses := molarMasses s; specificHeat := v;
     massFractions := massFractions s; moleFractions := moleFractions s;
     laminarViscosity := laminarViscosity s;
     laminarThermalConductivity := laminarThermalConductivity s;
     massDiffusivity := massDiffusivity s;
     LaminarViscosityPointers := LaminarViscosityPointers s;
     ThermalConductivityPointers := ThermalConductivityPointers s;
     MassDiffusivityPointers := MassDiffusivityPointers s |}.

Definition set_massFractions (v : list R) (s : CFluidCantera) : CFluidCantera :=
  {| base := base s; n_species_mixture := n_species_mixture s;
     Gas_Constant := Gas_Constant s; Gamma := Gamma s;
     Pressure_Thermodynamic := Pressure_Thermodynamic s;
     GasConstant_Ref := GasConstant_Ref s; Prandtl_Number := Prandtl_Number s;
     wilke := wilke s; davidson := davidson s;
     molarMasses := molarMasses s; specificHeat := specificHeat s;
     massFractions := v; moleFractions := moleFractions s;
     laminarViscosity := laminarViscosity s;
     laminarThermalConductivity := laminarThermalConductivity s;
     massDiffusivity := massDiffusivity s;
     LaminarViscosityPointers := LaminarViscosityPointers s;
     ThermalConductivityPointers := ThermalConductivityPointers s;
     MassDiffusivityPointers := MassDiffusivityPointers s |}.

Definition set_moleFractions (v : list R) (s : CFluidCantera) : CFluidCantera :=
  {| base := base s; n_species_mixture := n_species_mixture s;
     Gas_Constant := Gas_Constant s; Gamma := Gamma s;
     Pressure_Thermodynamic := Pressure_Thermodynamic s;
     GasConstant_Ref := GasConstant_Ref s; Prandtl_Number := Prandtl_Number s;
     wilke := wilke s; davidson := davidson s;
     molarMasses := molarMasses s; specificHeat := specificHeat s;
     massFractions := massFractions s; moleFractions := v;
     laminarViscosity := laminarViscosity s;
     laminarThermalConductivity := laminarThermalConductivity s;
     massDiffusivity := massDiffusivity s;
     LaminarViscosityPointers := LaminarViscosityPointers s;
     ThermalConductivityPointers := ThermalConductivityPointers s;
     MassDiffusivityPointers := MassDiffusivityPointers s |}.

Definition set_laminarViscosity (v : list R) (s : CFluidCantera) : CFluidCantera :=
  {| base := base s; n_species_mixture := n_species_mixture s;
     Gas_Constant := Gas_Constant s; Gamma := Gamma s;
     Pressure_Thermodynamic := Pressure_Thermodynamic s;
     GasConstant_Ref := GasConstant_Ref s; Prandtl_Number := Prandtl_Number s;
     wilke := wilke s; davidson := davidson s;
     molarMasses := molarMasses s; specificHeat := specificHeat s;
     massFractions := massFractions s; moleFractions := moleFractions s;
     laminarViscosity := v;
     laminarThermalConductivity := laminarThermalConductivity s;
     massDiffusivity := massDiffusivity s;
     LaminarViscosityPointers := LaminarViscosityPointers s;
     ThermalConductivityPointers := ThermalConductivityPointers s;
     MassDiffusivityPointers := MassDiffusivityPointers s |}.

Definition set_laminarThermalConductivity (v : list R) (s : CFluidCantera) : CFluidCantera :=
  {| base := base s; n_species_mixture := n_species_mixture s;
     Gas_Constant := Gas_Constant s; Gamma := Gamma s;
     Pressure_Thermodynamic := Pressure_Thermodynamic s;
     GasConstant_Ref := GasConstant_Ref s; Prandtl_Number := Prandtl_Number s;
     wilke := wilke s; davidson := davidson s;
     molarMasses := molarMasses s; specificHeat := specificHeat s;
     massFractions := massFractions s; moleFractions := moleFractions s;
     laminarViscosity := laminarViscosity s;
     laminarThermalConductivity := v;
     massDiffusivity := massDiffusivity s;
     LaminarViscosityPointers := LaminarViscosityPointers s;
     ThermalConductivityPointers := ThermalConductivityPointers s;
     MassDiffusivityPointers := MassDiffusivityPointers s |}.

Definition set_massDiffusivity (v : list R) (s : CFluidCantera) : CFluidCantera :=
  {| base := base s; n_species_mixture := n_species_mixture s;
     Gas_Constant := Gas_Constant s; Gamma := Gamma s;
     Pressure_Thermodynamic := Pressure_Thermodynamic s;
     GasConstant_Ref := GasConstant_Ref s; Prandtl_Number := Prandtl_Number s;
     wilke := wilke s; davidson := davidson s;
     molarMasses := molarMasses s; specificHeat := specificHeat s;
     massFractions := massFractions s; moleFractions := moleFractions s;
     laminarViscosity := laminarViscosity s;
     laminarThermalConductivity := laminarThermalConductivity s;
     massDiffusivity := v;
     LaminarViscosityPointers := LaminarViscosityPointers s;
     ThermalConductivityPointers := ThermalConductivityPointers s;
     MassDiffusivityPointers := MassDiffusivityPointers s |}.

Definition set_LaminarViscosityPointers (v : list (option CViscosityModel))
    (s : CFluidCantera) : CFluidCantera :=
  {| base := base s; n_species_mixture := n_species_mixture s;
     Gas_Constant := Gas_Constant s; Gamma := Gamma s;
     Pressure_Thermodynamic := Pressure_Thermodynamic s;
     GasConstant_Ref := GasConstant_Ref s; Prandtl_Number := Prandtl_Number s;
     wilke := wilke s; davidson := davidson s;
     molarMasses := molarMasses s; specificHeat := specificHeat s;
     massFractions := massFractions s; moleFractions := moleFractions s;
     laminarViscosity := laminarViscosity s;
     laminarThermalConductivity := laminarThermalConductivity s;
     massDiffusivity := massDiffusivity s;
     LaminarViscosityPointers := v;
     ThermalConductivityPointers := ThermalConductivityPointers s;
     MassDiffusivityPointers := MassDiffusivityPointers s |}.

Definition set_ThermalConductivityPointers (v : list (option CConductivityModel))
    (s : CFluidCantera) : CFluidCantera :=
  {| base := base s; n_species_mixture := n_species_mixture s;
     Gas_Constant := Gas_Constant s; Gamma := Gamma s;
     Pressure_Thermodynamic := Pressure_Thermodynamic s;
     GasConstant_Ref := GasConstant_Ref s; Prandtl_Number := Prandtl_Number s;
     wilke := wilke s; davidson := davidson s;
     molarMasses := molarMasses s; specificHeat := specificHeat s;
     massFractions := massFractions s; moleFractions := moleFractions s;
     laminarViscosity := laminarViscosity s;
     laminarThermalConductivity := laminarThermalConductivity s;
     massDiffusivity := massDiffusivity s;
     LaminarViscosityPointers := LaminarViscosityPointers s;
     ThermalConductivityPointers := v;
     MassDiffusivityPointers := MassDiffusivityPointers s |}.

Definition set_MassDiffusivityPointers (v : list (option CDiffusivityModel))
    (s : CFluidCantera) : CFluidCantera :=
  {| base := base s; n_species_mixture := n_species_mixture s;
     Gas_Constant := Gas_Constant s; Gamma := Gamma s;
     Pressure_Thermodynamic := Pressure_Thermodynamic s;
     GasConstant_Ref := GasConstant_Ref s; Prandtl_Number := Prandtl_Number s;
     wilke := wilke s; davidson := davidson s;
     molarMasses := molarMasses s; specificHeat := specificHeat s;
     massFractions := massFractions s; moleFractions := moleFractions s;
     laminarViscosity := laminarViscosity s;
     laminarThermalConductivity := laminarThermalConductivity s;
     massDiffusivity := massDiffusivity s;
     LaminarViscosityPointers := LaminarViscosityPointers s;
     ThermalConductivityPointers := ThermalConductivityPointers s;
     MassDiffusivityPointers := v |}.

(** [ptrs[i]->SetViscosity(T, rho); ptrs[i]->GetViscosity()] and its
    siblings.  Dereferencing an empty slot is not defined by the source. *)
Definition viscosity_of (ptrs : list (option CViscosityModel)) (i : nat) (T rho : R) : R :=
  match ptrs !! i with
  | Some (Some m) => m T rho
  | _ => 0
  end.

Definition conductivity_of (ptrs : list (option CConductivityModel)) (i : nat)
    (T rho mu_lam mu_turb cp a b : R) : R :=
  match ptrs !! i with
  | Some (Some m) => m T rho mu_lam mu_turb cp a b
  | _ => 0
  end.

Definition diffusivity_of (ptrs : list (option CDiffusivityModel)) (i : nat)
    (rho mu cp kt : R) : R :=
  match ptrs !! i with
  | Some (Some m) => m rho mu cp kt
  | _ => 0
  end.

(** Calls made to the chemistry library. *)
Inductive CanteraCall : Type :=
| newSolution (infile : string)
| setState_TPX (T P : R) (X : string).

(** [MIXINGVISCOSITYMODEL]: the source names the enumerators [WILKE] and
    [DAVIDSON]; the declaration of the enum is outside this excerpt, so any
    further enumerator it may have is shown as [OTHER_MIXING k]. *)
Inductive MIXINGVISCOSITYMODEL : Type :=
| WILKE
| DAVIDSON
| OTHER_MIXING (k : nat).

#[global] Instance MIXINGVISCOSITYMODEL_eq_dec : EqDecision MIXINGVISCOSITYMODEL.
Proof. solve_decision. Defined.

(** What the constructor reads from [CConfig]. *)
Record CConfig : Type := {
  GetnSpecies : nat;
  GetGamma : R;
  GetGas_Constant_Ref : R;
  GetPrandtl_Turb : R;
  GetKind_MixingViscosityModel : MIXINGVISCOSITYMODEL;
  GetMolecular_Weight : nat -> R;
  GetSpecific_Heat_CpND : nat -> R
}.

Section Model.

(** Constants and factory functions declared outside this excerpt. *)
Variable ARRAYSIZE : nat.
Variable UNIVERSAL_GAS_CONSTANT : R.
Variable MakeLaminarViscosityModel : CConfig -> nat -> CViscosityModel.
Variable MakeThermalConductivityModel : CConfig -> nat -> CConductivityModel.
Variable MakeMassDiffusivityModel : CConfig -> nat -> CDiffusivityModel.

Definition SetLaminarViscosityModel (config : CConfig) (s : CFluidCantera) : CFluidCantera :=
  for_upto (n_species_mixture s)
    (fun iVar s =>
       set_LaminarViscosityPointers
         (<[iVar := Some (MakeLaminarViscosityModel config iVar)]> (LaminarViscosityPointers s)) s)
    s.

Definition SetThermalConductivityModel (config : CConfig) (s : CFluidCantera) : CFluidCantera :=
  for_upto (n_species_mixture s)
    (fun iVar s =>
       set_ThermalConductivityPointers
         (<[iVar := Some (MakeThermalConductivityModel config iVar)]> (ThermalConductivityPointers s)) s)
    s.

Definition SetMassDiffusivityModel (config : CConfig) (s : CFluidCantera) : CFluidCantera :=
  for_upto (n_species_mixture s)
    (fun iVar s =>
       set_MassDiffusivityPointers
         (<[iVar := Some (MakeMassDiffusivityModel config iVar)]> (MassDiffusivityPointers s)) s)
    s.

(** The object as the member initialisers leave it.  Storage the
    initialisers do not mention is shown zero-filled (empty slots for the
    model pointers); no theorem below depends on that content. *)
Definition initialised (val_gas_constant value_pressure_operating : R)
    (config : CConfig) : CFluidCantera :=
  {| base := {| Temperature := 0; Density := 0; Cp := 0; Cv := 0; Mu := 0; Kt := 0 |};
     n_species_mixture := GetnSpecies config + 1;
     Gas_Constant := val_gas_constant;
     Gamma := GetGamma config;
     Pressure_Thermodynamic := value_pressure_operating;
     GasConstant_Ref := GetGas_Constant_Ref config;
     Prandtl_Number := GetPrandtl_Turb config;
     wilke := bool_decide (GetKind_MixingViscosityModel config = WILKE);
     davidson := bool_decide (GetKind_MixingViscosityModel config = DAVIDSON);
     molarMasses := replicate ARRAYSIZE 0;
     specificHeat := replicate ARRAYSIZE 0;
     massFractions := replicate ARRAYSIZE 0;
     moleFractions := replicate ARRAYSIZE 0;
     laminarViscosity := replicate ARRAYSIZE 0;
     laminarThermalConductivity := replicate ARRAYSIZE 0;
     massDiffusivity := replicate ARRAYSIZE 0;
     LaminarViscosityPointers := replicate ARRAYSIZE None;
     ThermalConductivityPointers := replicate ARRAYSIZE None;
     MassDiffusivityPointers := replicate ARRAYSIZE None |}.

(** [CFluidCantera::CFluidCantera] *)
Definition CFluidCantera_ctor (val_Cp val_gas_constant value_pressure_operating : R)
    (config : CConfig) : outcome CFluidCantera :=
  let s := initialised val_gas_constant value_pressure_operating config in
  _ ← error_if (ARRAYSIZE <? n_species_mixture s)%nat "Too many species, increase ARRAYSIZE";
  let s :=
    for_upto (n_species_mixture s)
      (fun iVar s =>
         let s := set_molarMasses (<[iVar := GetMolecular_Weight config iVar]> (molarMasses s)) s in
         set_specificHeat (<[iVar := GetSpecific_Heat_CpND config iVar]> (specificHeat s)) s)
      s in
  let s := SetLaminarViscosityModel config s in
  let s := SetThermalConductivityModel config s in
  let s := SetMassDiffusivityModel config s in
  Ok s.

(** [CFluidCantera::ComputeMassDiffusivity] *)
Definition ComputeMassDiffusivity (s : CFluidCantera) : CFluidCantera :=
  for_upto (n_species_mixture s)
    (fun iVar s =>
       set_massDiffusivity
         (<[iVar := diffusivity_of (MassDiffusivityPointers s) iVar
                      (Density (base s)) (Mu (base s)) (Cp (base s)) (Kt (base s))]>
            (massDiffusivity s)) s)
    s.

(** [CFluidCantera::MassToMoleFractions] *)
Definition MassToMoleFractions (val_scalars : list R) (s : CFluidCantera) : CFluidCantera :=
  let '(s, val_scalars_sum) :=
    for_upto (n_species_mixture s - 1)%nat
      (fun i_scalar '(s, val_scalars_sum) =>
         (set_massFractions (<[i_scalar := get val_scalars i_scalar]> (massFractions s)) s,
          val_scalars_sum + get val_scalars i_scalar))
      (s, 0) in
  let s := set_massFractions
             (<[(n_species_mixture s - 1)%nat := 1 - val_scalars_sum]> (massFractions s)) s in
  let mixtureMolarMass :=
    for_upto (n_species_mixture s)
      (fun iVar mixtureMolarMass =>
         mixtureMolarMass + get (massFractions s) iVar / get (molarMasses s) iVar)
      0 in
  for_upto (n_species_mixture s)
    (fun iVar s =>
       set_moleFractions
         (<[iVar := (get (massFractions s) iVar / get (molarMasses s) iVar) / mixtureMolarMass]>
            (moleFractions s)) s)
    s.

(** [CFluidCantera::WilkeViscosity]: the state with [laminarViscosity]
    refreshed, and the returned mixture viscosity. *)
Definition WilkeViscosity (val_scalars : list R) (s : CFluidCantera) : CFluidCantera * R :=
  let s :=
    for_upto (n_species_mixture s)
      (fun iVar s =>
         set_laminarViscosity
           (<[iVar := viscosity_of (LaminarViscosityPointers s) iVar
                        (Temperature (base s)) (Density (base s))]>
              (laminarViscosity s)) s)
      s in
  let viscosityMixture :=
    for_upto (n_species_mixture s)
      (fun i viscosityMixture =>
         let wilkeDenumerator :=
           for_upto (n_species_mixture s)
             (fun j wilkeDenumerator =>
                if bool_decide (j ≠ i) then
                  let phi :=
                    pow (1 + sqrt (get (laminarViscosity s) i / get (laminarViscosity s) j)
                               * pow (get (molarMasses s) j / get (molarMasses s) i) 0.25) 2
                    / sqrt (8 * (1 + get (molarMasses s) i / get (molarMasses s) j)) in
                  wilkeDenumerator + get (moleFractions s) j * phi
                else
                  wilkeDenumerator + get (moleFractions s) j)
             0 in
         let wilkeNumerator := get (moleFractions s) i * get (laminarViscosity s) i in
         viscosityMixture + wilkeNumerator / wilkeDenumerator)
      0 in
  (s, viscosityMixture).

(** [CFluidCantera::DavidsonViscosity] *)
Definition DavidsonViscosity (val_scalars : list R) (s : CFluidCantera) : CFluidCantera * R :=
  let A := 0.375 in
  let s :=
    for_upto (n_species_mixture s)
      (fun iVar s =>
         set_laminarViscosity
           (<[iVar := viscosity_of (LaminarViscosityPointers s) iVar
                        (Temperature (base s)) (Density (base s))]>
              (laminarViscosity s)) s)
      s in
  let mixtureFractionDenumerator :=
    for_upto (n_species_mixture s)
      (fun i mixtureFractionDenumerator =>
         mixtureFractionDenumerator + get (moleFractions s) i * sqrt (get (molarMasses s) i))
      0 in
  let mixtureFractions :=
    for_upto (n_species_mixture s)
      (fun j mixtureFractions =>
         <[j := (get (moleFractions s) j * sqrt (get (molarMasses s) j))
                / mixtureFractionDenumerator]> mixtureFractions)
      (replicate ARRAYSIZE 0) in
  let fluidity :=
    for_upto (n_species_mixture s)
      (fun i fluidity =>
         for_upto (n_species_mixture s)
           (fun j fluidity =>
              let E := (2 * sqrt (get (molarMasses s) i) * sqrt (get (molarMasses s) j))
                       / (get (molarMasses s) i + get (molarMasses s) j) in
              fluidity
              + ((get mixtureFractions i * get mixtureFractions j)
                 / (sqrt (get (laminarViscosity s) i) * sqrt (get (laminarViscosity s) j)))
                * pow E A)
           fluidity)
      0 in
  (s, 1.0 / fluidity).

(** [CFluidCantera::WilkeConductivity]: the interaction factor [phi] is
    built, as in the source, from the stored [laminarViscosity]. *)
Definition WilkeConductivity (val_scalars : list R) (s : CFluidCantera) : CFluidCantera * R :=
  let s :=
    for_upto (n_species_mixture s)
      (fun iVar s =>
         set_laminarThermalConductivity
           (<[iVar := conductivity_of (ThermalConductivityPointers s) iVar
                        (Temperature (base s)) (Density (base s)) (Mu (base s)) 0.0 0.0 0.0 0.0]>
              (laminarThermalConductivity s)) s)
      s in
  let conductivityMixture :=
    for_upto (n_species_mixture s)
      (fun i conductivityMixture =>
         let wilkeDenumerator :=
           for_upto (n_species_mixture s)
             (fun j wilkeDenumerator =>
                if bool_decide (j ≠ i) then
                  let phi :=
                    pow (1 + sqrt (get (laminarViscosity s) i / get (laminarViscosity s) j)
                               * pow (get (molarMasses s) j / get (molarMasses s) i) 0.25) 2
                    / sqrt (8 * (1 + get (molarMasses s) i / get (molarMasses s) j)) in
                  wilkeDenumerator + get (moleFractions s) j * phi
                else
                  wilkeDenumerator + get (moleFractions s) j)
             0 in
         let wilkeNumerator := get (moleFractions s) i * get (laminarThermalConductivity s) i in
         conductivityMixture + wilkeNumerator / wilkeDenumerator)
      0 in
  (s, conductivityMixture).

(** [CFluidCantera::ComputeGasConstant] *)
Definition ComputeGasConstant (s : CFluidCantera) : CFluidCantera * R :=
  let MeanMolecularWeight :=
    for_upto (n_species_mixture s)
      (fun i MeanMolecularWeight =>
         MeanMolecularWeight + get (moleFractions s) i * get (molarMasses s) i / 1000)
      0 in
  let s := set_Gas_Constant
             (UNIVERSAL_GAS_CONSTANT / (GasConstant_Ref s * MeanMolecularWeight)) s in
  (s, Gas_Constant s).

(** [CFluidCantera::ComputeMeanSpecificHeatCp] *)
Definition ComputeMeanSpecificHeatCp (val_scalars : list R) (s : CFluidCantera) : R :=
  for_upto (n_species_mixture s)
    (fun i_scalar mean_cp =>
       mean_cp + get (specificHeat s) i_scalar * get (massFractions s) i_scalar)
    0.

(** [CFluidCantera::SetTDState_T] is given in three parts.  Lines 238-243:
    composition, gas constant, temperature, density and specific heats. *)
Definition SetTDState_T_thermo (val_temperature : R) (val_scalars : list R)
    (s : CFluidCantera) : CFluidCantera :=
  let s := MassToMoleFractions val_scalars s in
  let s := fst (ComputeGasConstant s) in
  let s := with_base (set_Temperature val_temperature) s in
  let s := with_base
             (set_Density (Pressure_Thermodynamic s / (Temperature (base s) * Gas_Constant s))) s in
  let s := with_base (set_Cp (ComputeMeanSpecificHeatCp val_scalars s)) s in
  with_base (set_Cv (Cp (base s) - Gas_Constant s)) s.

(** Lines 245-249: the mixture viscosity. *)
Definition SetTDState_T_viscosity (val_scalars : list R) (s : CFluidCantera) : CFluidCantera :=
  if wilke s then
    let '(s, mu) := WilkeViscosity val_scalars s in with_base (set_Mu mu) s
  else if davidson s then
    let '(s, mu) := DavidsonViscosity val_scalars s in with_base (set_Mu mu) s
  else s.

(** The whole of [CFluidCantera::SetTDState_T]: the new state of the object
    and the calls made to the chemistry library, in order.  The [gas] object
    those calls act on is local to the call and nothing is read back from
    it. *)
Definition SetTDState_T (val_temperature : R) (val_scalars : list R)
    (s : CFluidCantera) : CFluidCantera * list CanteraCall :=
  let calls :=
    [ newSolution "h2o2.yaml";
      setState_TPX (Temperature (base s)) (Pressure_Thermodynamic s)
        "H2O:1.0, H2:8.0, AR:1.0" ] in
  let s := SetTDState_T_thermo val_temperature val_scalars s in
  let s := SetTDState_T_viscosity val_scalars s in
  let s := let '(s, kt) := WilkeConductivity val_scalars s in with_base (set_Kt kt) s in
  let s := ComputeMassDiffusivity s in
  (s, calls).

End Model.

(** A two-species mixture used to exercise the statements below: equal molar
    masses, constant per-species property models, mole fractions 1/4 and
    3/4, the mixture at 300 K. *)
Definition sample_fluid (is_wilke is_davidson : bool) : CFluidCantera :=
  {| base := {| Temperature := 300; Density := 1; Cp := 0; Cv := 0; Mu := 7; Kt := 0 |};
     n_species_mixture := 2;
     Gas_Constant := 1;
     Gamma := 1.4;
     Pressure_Thermodynamic := 101325;
     GasConstant_Ref := 1;
     Prandtl_Number := 0.9;
     wilke := is_wilke;
     davidson := is_davidson;
     molarMasses := [2; 2];
     specificHeat := [1; 1];
     massFractions := [0; 0];
     moleFractions := [1 / 4; 3 / 4];
     laminarViscosity := [0; 0];
     laminarThermalConductivity := [0; 0];
     massDiffusivity := [0; 0];
     LaminarViscosityPointers := [Some (fun _ _ => 3); Some (fun _ _ => 3)];
     ThermalConductivityPointers :=
       [Some (fun _ _ _ _ _ _ _ => 5); Some (fun _ _ _ _ _ _ _ => 5)];
     MassDiffusivityPointers := [Some (fun _ _ _ _ => 11); Some (fun _ _ _ _ => 11)] |}.

(** The same mixture with neither mixing rule selected and the per-species
    viscosities 1 and 4 of an earlier state still stored in
    [laminarViscosity]. *)
Definition stale_fluid : CFluidCantera :=
  set_laminarViscosity [1; 4] (sample_fluid false false).

(** A configuration that selects the Wilke rule for two species. *)
Definition sample_config : CConfig :=
  {| GetnSpecies := 1;
     GetGamma := 1.4;
     GetGas_Constant_Ref := 1;
     GetPrandtl_Turb := 0.9;
     GetKind_MixingViscosityModel := WILKE;
     GetMolecular_Weight := fun _ => 2;
     GetSpecific_Heat_CpND := fun _ => 1 |}.

End FluidCantera.

Module PythonWrapper.

(** Monadic counted loop: the body may stop the run. *)
Fixpoint for_upto_m {S : Type} (n : nat) (body : nat -> S -> outcome S) (s : S) : outcome S :=
  match n with
  | O => Ok s
  | Datatypes.S k => s' ← for_upto_m k body s; body k s'
  end.

(** [values[i]] on a [std::vector]: past the end the source's behaviour is
    undefined, which is reported as [OutOfBounds]. *)
Definition read (values : list R) (i : nat) : outcome R :=
  match values !! i with
  | Some v => Ok v
  | None => OutOfBounds i (length values)
  end.

(** Arithmetic on [unsigned long] is modulo 2^64. *)
Definition wrap64 (x : nat) : nat := N.to_nat (N.of_nat x mod 2 ^ 64)%N.

(** The kinds of discrete adjoint and the flow regimes the source names;
    the enums are declared outside this excerpt, other enumerators are shown
    as [OTHER_ADJOINT k] and [OTHER_REGIME k]. *)
Inductive DISCRETE_ADJOINT_KIND : Type :=
| RESIDUALS
| FIXED_POINT
| OTHER_ADJOINT (k : nat).

Inductive ENUM_REGIME : Type :=
| COMPRESSIBLE
| OTHER_REGIME (k : nat).

#[global] Instance DISCRETE_ADJOINT_KIND_eq_dec : EqDecision DISCRETE_ADJOINT_KIND.
Proof. solve_decision. Defined.

#[global] Instance ENUM_REGIME_eq_dec : EqDecision ENUM_REGIME.
Proof. solve_decision. Defined.

(** What the accessors read from [main_config]. *)
Record CConfig : Type := {
  GetFluidProblem : bool;
  GetDiscrete_Adjoint : bool;
  GetKind_DiscreteAdjoint : DISCRETE_ADJOINT_KIND;
  GetKind_Regime : ENUM_REGIME;
  GetPrandtl_Lam : R;
  GetGas_ConstantND : R;
  GetGamma : R
}.

(** [solver_container[ZONE_0][INST_0][MESH_0][FLOW_SOL]] and its nodes. *)
Record FlowSolver : Type := {
  GetnVar : nat;
  GetSoundSpeed : nat -> R;
  GetLaminarViscosity : nat -> R;
  GetEddyViscosity : nat -> R;
  GetGradient_Primitive : nat -> nat -> nat -> R;
  GetAdjointVertexTractions : nat -> nat -> nat -> R
}.

(** [solver_container[ZONE_0][INST_0][MESH_0][ADJFLOW_SOL]]. *)
Record AdjFlowSolver : Type := {
  GetProd_dCoordinates_dCoordinates : nat -> nat -> R;
  GetSens_dObjective_dStates : nat -> nat -> R;
  GetProd_dResiduals_dStates : nat -> nat -> R;
  GetProd_dTractions_dStates : nat -> nat -> R;
  GetSens_dObjective_dCoordinates : nat -> nat -> R;
  GetProd_dResiduals_dCoordinates : nat -> nat -> R;
  GetProd_dTractions_dCoordinates : nat -> nat -> R
}.

(** The driver.  [GetNumberVertices], [GetNumberMarkerVertices] and
    [GetMarkerVertexIndices] are members of the base driver, defined outside
    this excerpt; they are taken as given, and may themselves stop the run. *)
Record CDriver : Type := {
  main_config : CConfig;
  nDim : nat;
  GetNumberVertices : nat;
  GetNumberMarkerVertices : nat -> outcome nat;
  GetMarkerVertexIndices : nat -> nat -> outcome nat;
  FLOW_SOL : FlowSolver;
  ADJFLOW_SOL : AdjFlowSolver
}.

(** A call [StoreVertexTractionsAdjoint(iMarker, iVertex, iDim, val)]
    received by the flow solver. *)
Record TractionStore : Type := {
  store_iMarker : nat;
  store_iVertex : nat;
  store_iDim : nat;
  store_val : R
}.

(** The pattern [vector<passivedouble> values(n, 0.0);
    for (i = 0; i < n; i++) values[i] = f(i); return values;] *)
Definition fill_values (n : nat) (f : nat -> R) : list R :=
  for_upto n (fun i values => <[i := f i]> values) (replicate n 0.0).

(** The pattern [vector<T> values;
    for (i = 0; i < n; i++) values.push_back(f(i)); return values;] *)
Definition push_back_all {T : Type} (n : nat) (f : nat -> outcome T) : outcome (list T) :=
  for_upto_m n (fun i values => v ← f i; Ok (values ++ [v])) [].

Section Accessors.

Variable d : CDriver.

(** [CDriver::GetNumberStateVariables] *)
Definition GetNumberStateVariables : outcome nat :=
  _ ← error_if (negb (GetFluidProblem (main_config d))) "Flow solver is not defined!";
  Ok (GetnVar (FLOW_SOL d)).

(** [CDriver::GetSpeedOfSound(unsigned long iPoint)] *)
Definition GetSpeedOfSound (iPoint : nat) : outcome R :=
  _ ← error_if (GetFluidProblem (main_config d)) "Flow solver is not defined!";
  _ ← error_if (GetNumberVertices d <=? iPoint)%nat "Vertex index exceeds mesh size.";
  Ok (GetSoundSpeed (FLOW_SOL d) iPoint).

(** [CDriver::GetSpeedOfSound()] *)
Definition GetSpeedOfSound_all : outcome (list R) :=
  let nPoint := GetNumberVertices d in
  push_back_all nPoint (fun iPoint => GetSpeedOfSound iPoint).

(** [CDriver::GetMarkerSpeedOfSound(unsigned short iMarker)] *)
Definition GetMarkerSpeedOfSound_all (iMarker : nat) : outcome (list R) :=
  nVertex ← GetNumberMarkerVertices d iMarker;
  push_back_all nVertex (fun iVertex => GetSpeedOfSound iVertex).

(** [CDriver::GetMarkerSpeedOfSound(unsigned short iMarker, unsigned long iVertex)] *)
Definition GetMarkerSpeedOfSound (iMarker iVertex : nat) : outcome R :=
  _ ← error_if (GetFluidProblem (main_config d)) "Flow solver is not defined!";
  iPoint ← GetMarkerVertexIndices d iMarker iVertex;
  Ok (GetSoundSpeed (FLOW_SOL d) iPoint).

(** [CDriver::GetMarkerAdjointForces(unsigned short iMarker, unsigned long iVertex)] *)
Definition GetMarkerAdjointForces (iMarker iVertex : nat) : outcome (list R) :=
  _ ← error_if (negb (GetFluidProblem (main_config d)) || negb (GetDiscrete_Adjoint (main_config d)))
        "Discrete adjoint flow solver is not defined!";
  nVertex ← GetNumberMarkerVertices d iMarker;
  _ ← error_if (nVertex <=? iVertex)%nat "Vertex index exceeds marker size.";
  Ok (fill_values (nDim d) (fun iDim => GetAdjointVertexTractions (FLOW_SOL d) iMarker iVertex iDim)).

(** [CDriver::GetMarkerAdjointForces(unsigned short iMarker)] *)
Definition GetMarkerAdjointForces_all (iMarker : nat) : outcome (list (list R)) :=
  nVertex ← GetNumberMarkerVertices d iMarker;
  push_back_all nVertex (fun iVertex => GetMarkerAdjointForces iMarker iVertex).

(** [CDriver::SetMarkerAdjointForces(unsigned short iMarker, unsigned long iVertex,
    vector<passivedouble> values)]: the stores the flow solver receives, in
    order. *)
Definition SetMarkerAdjointForces (iMarker iVertex : nat) (values : list R)
    : outcome (list TractionStore) :=
  _ ← error_if (negb (GetFluidProblem (main_config d)) || negb (GetDiscrete_Adjoint (main_config d)))
        "Discrete adjoint flow solver is not defined!";
  nVertex ← GetNumberMarkerVertices d iMarker;
  _ ← error_if (nVertex <=? iVertex)%nat "Vertex index exceeds marker size.";
  _ ← error_if (negb (length values =? nDim d)%nat) "Invalid number of dimensions!";
  for_upto_m (nDim d)
    (fun iDim stores =>
       v ← read values (wrap64 (iVertex * nDim d + iDim));
       Ok (stores ++ [ {| store_iMarker := iMarker; store_iVertex := iVertex;
                          store_iDim := iDim; store_val := v |} ]))
    [].

(** [CDriver::SetMarkerAdjointForces(unsigned short iMarker,
    vector<vector<passivedouble>> values)] *)
Definition SetMarkerAdjointForces_all (iMarker : nat) (values : list (list R))
    : outcome (list TractionStore) :=
  nVertex ← GetNumberMarkerVertices d iMarker;
  _ ← error_if (negb (length values =? nVertex)%nat) "Invalid number of marker vertices!";
  for_upto_m nVertex
    (fun iVertex stores =>
       match values !! iVertex with
       | Some row => more ← SetMarkerAdjointForces iMarker iVertex row; Ok (stores ++ more)
       | None => OutOfBounds iVertex (length values)
       end)
    [].

(** The guards shared by the residual-based adjoint getters. *)
Definition adjoint_residuals_guard : outcome unit :=
  _ ← error_if (negb (GetFluidProblem (main_config d)) || negb (GetDiscrete_Adjoint (main_config d)))
        "Discrete adjoint flow solver is not defined!";
  error_if (negb (bool_decide (GetKind_DiscreteAdjoint (main_config d) = RESIDUALS)))
    "Discrete adjoint flow solver does not use residual-based formulation!".

(** [CDriver::GetCoordinatesCoordinatesSensitivities(unsigned long iPoint)] *)
Definition GetCoordinatesCoordinatesSensitivities (iPoint : nat) : outcome (list R) :=
  _ ← adjoint_residuals_guard;
  _ ← error_if (GetNumberVertices d <=? iPoint)%nat "Vertex index exceeds mesh size.";
  Ok (fill_values (nDim d) (fun iDim => GetProd_dCoordinates_dCoordinates (ADJFLOW_SOL d) iPoint iDim)).

(** [CDriver::GetObjectiveStatesSensitivities(unsigned long iPoint)] *)
Definition GetObjectiveStatesSensitivities (iPoint : nat) : outcome (list R) :=
  _ ← adjoint_residuals_guard;
  _ ← error_if (GetNumberVertices d <=? iPoint)%nat "Vertex index exceeds mesh size.";
  nVar ← GetNumberStateVariables;
  Ok (fill_values nVar (fun iVar => GetSens_dObjective_dStates (ADJFLOW_SOL d) iPoint iVar)).

(** [CDriver::GetResidualsStatesSensitivities(unsigned long iPoint)] *)
Definition GetResidualsStatesSensitivities (iPoint : nat) : outcome (list R) :=
  _ ← adjoint_residuals_guard;
  _ ← error_if (GetNumberVertices d <=? iPoint)%nat "Vertex index exceeds mesh size.";
  nVar ← GetNumberStateVariables;
  Ok (fill_values nVar (fun iVar => GetProd_dResiduals_dStates (ADJFLOW_SOL d) iPoint iVar)).

(** [CDriver::GetForcesStatesSensitivities(unsigned long iPoint)] *)
Definition GetForcesStatesSensitivities (iPoint : nat) : outcome (list R) :=
  _ ← adjoint_residuals_guard;
  _ ← error_if (GetNumberVertices d <=? iPoint)%nat "Vertex index exceeds mesh size.";
  nVar ← GetNumberStateVariables;
  Ok (fill_values nVar (fun iVar => GetProd_dTractions_dStates (ADJFLOW_SOL d) iPoint iVar)).

(** [CDriver::GetObjectiveCoordinatesSensitivities(unsigned long iPoint)] *)
Definition GetObjectiveCoordinatesSensitivities (iPoint : nat) : outcome (list R) :=
  _ ← adjoint_residuals_guard;
  _ ← error_if (GetNumberVertices d <=? iPoint)%nat "Vertex index exceeds mesh size.";
  Ok (fill_values (nDim d) (fun iDim => GetSens_dObjective_dCoordinates (ADJFLOW_SOL d) iPoint iDim)).

(** [CDriver::GetResidualsCoordinatesSensitivities(unsigned long iPoint)] *)
Definition GetResidualsCoordinatesSensitivities (iPoint : nat) : outcome (list R) :=
  _ ← adjoint_residuals_guard;
  _ ← error_if (GetNumberVertices d <=? iPoint)%nat "Vertex index exceeds mesh size.";
  Ok (fill_values (nDim d) (fun iDim => GetProd_dResiduals_dCoordinates (ADJFLOW_SOL d) iPoint iDim)).

(** [CDriver::GetForcesCoordinatesSensitivities(unsigned long iPoint)] *)
Definition GetForcesCoordinatesSensitivities (iPoint : nat) : outcome (list R) :=
  _ ← adjoint_residuals_guard;
  _ ← error_if (GetNumberVertices d <=? iPoint)%nat "Vertex index exceeds mesh size.";
  Ok (fill_values (nDim d) (fun iDim => GetProd_dTractions_dCoordinates (ADJFLOW_SOL d) iPoint iDim)).

(** [CDriver::GetHeatFluxes(unsigned long iPoint)] *)
Definition GetHeatFluxes (iPoint : nat) : outcome (list R) :=
  _ ← error_if (negb (GetFluidProblem (main_config d))) "Flow solver is not defined!";
  _ ← error_if (GetNumberVertices d <=? iPoint)%nat "Vertex index exceeds mesh size.";
  let values := replicate (nDim d) 0.0 in
  if negb (bool_decide (GetKind_Regime (main_config d) = COMPRESSIBLE)) then Ok values
  else
    let Prandtl_Lam := GetPrandtl_Lam (main_config d) in
    let Gas_Constant := GetGas_ConstantND (main_config d) in
    let Gamma := GetGamma (main_config d) in
    let Cp := (Gamma / (Gamma - 1.0)) * Gas_Constant in
    let laminar_viscosity := GetLaminarViscosity (FLOW_SOL d) iPoint in
    let thermal_conductivity := Cp * (laminar_viscosity / Prandtl_Lam) in
    Ok (for_upto (nDim d)
          (fun iDim values =>
             let GradT := GetGradient_Primitive (FLOW_SOL d) iPoint 0 iDim in
             <[iDim := - thermal_conductivity * GradT]> values)
          values).

(** [CDriver::GetThermalConductivities(unsigned long iPoint)] *)
Definition GetThermalConductivities (iPoint : nat) : outcome R :=
  _ ← error_if (negb (GetFluidProblem (main_config d))) "Flow solver is not defined!";
  _ ← error_if (GetNumberVertices d <=? iPoint)%nat "Vertex index exceeds mesh size.";
  let Prandtl_Lam := GetPrandtl_Lam (main_config d) in
  let Gas_Constant := GetGas_ConstantND (main_config d) in
  let Gamma := GetGamma (main_config d) in
  let Cp := (Gamma / (Gamma - 1.0)) * Gas_Constant in
  let laminar_viscosity := GetLaminarViscosity (FLOW_SOL d) iPoint in
  Ok (Cp * (laminar_viscosity / Prandtl_Lam)).

(** [CDriver::GetLaminarViscosities(unsigned long iPoint)] *)
Definition GetLaminarViscosities (iPoint : nat) : outcome R :=
  _ ← error_if (negb (GetFluidProblem (main_config d))) "Flow solver is not defined!";
  _ ← error_if (GetNumberVertices d <=? iPoint)%nat "Vertex index exceeds mesh size.";
  Ok (GetLaminarViscosity (FLOW_SOL d) iPoint).

(** [CDriver::GetMarkerLaminarViscosities(unsigned short iMarker, unsigned long iVertex)] *)
Definition GetMarkerLaminarViscosities (iMarker iVertex : nat) : outcome R :=
  _ ← error_if (negb (GetFluidProblem (main_config d))) "Flow solver is not defined!";
  iPoint ← GetMarkerVertexIndices d iMarker iVertex;
  Ok (GetLaminarViscosity (FLOW_SOL d) iPoint).

(** [CDriver::GetMarkerLaminarViscosities(unsigned short iMarker)] *)
Definition GetMarkerLaminarViscosities_all (iMarker : nat) : outcome (list R) :=
  nVertex ← GetNumberMarkerVertices d iMarker;
  push_back_all nVertex (fun iVertex => GetMarkerLaminarViscosities iMarker iVertex).

(** [CDriver::GetEddyViscosities(unsigned long iPoint)] *)
Definition GetEddyViscosities (iPoint : nat) : outcome R :=
  _ ← error_if (negb (GetFluidProblem (main_config d))) "Flow solver is not defined!";
  _ ← error_if (GetNumberVertices d <=? iPoint)%nat "Vertex index exceeds mesh size.";
  Ok (GetEddyViscosity (FLOW_SOL d) iPoint).

(** [CDriver::GetMarkerEddyViscosities(unsigned short iMarker)] *)
Definition GetMarkerEddyViscosities_all (iMarker : nat) : outcome (list R) :=
  nVertex ← GetNumberMarkerVertices d iMarker;
  push_back_all nVertex (fun iVertex => GetMarkerLaminarViscosities iMarker iVertex).

(** [CDriver::GetMarkerEddyViscosities(unsigned short iMarker, unsigned long iVertex)] *)
Definition GetMarkerEddyViscosities (iMarker iVertex : nat) : outcome R :=
  _ ← error_if (negb (GetFluidProblem (main_config d))) "Flow solver is not defined!";
  iPoint ← GetMarkerVertexIndices d iMarker iVertex;
  Ok (GetEddyViscosity (FLOW_SOL d) iPoint).

End Accessors.

(** The values of a per-element getter over the indices [l], in order; the
    first failing call stops the run. *)
Fixpoint collect {T : Type} (f : nat -> outcome T) (l : list nat) : outcome (list T) :=
  match l with
  | [] => Ok []
  | i :: l => v ← f i; vs ← collect f l; Ok (v :: vs)
  end.

(** What a whole-marker getter is expected to return, in the words of the
    specification: the list of its own per-element getter's values over the
    marker's vertices, in order. *)
Definition marker_values_spec (d : CDriver) (per_element : nat -> nat -> outcome R)
    (iMarker : nat) : outcome (list R) :=
  nVertex ← GetNumberMarkerVertices d iMarker;
  collect (per_element iMarker) (seq 0 nVertex).

(** A small driver used to exercise the statements below: two dimensions,
    three mesh points, one marker whose two vertices sit on the points 1
    and 2; laminar viscosity 1 and eddy viscosity 2 everywhere. *)
Definition sample_driver (fluid adjoint : bool) : CDriver :=
  {| main_config :=
       {| GetFluidProblem := fluid;
          GetDiscrete_Adjoint := adjoint;
          GetKind_DiscreteAdjoint := RESIDUALS;
          GetKind_Regime := COMPRESSIBLE;
          GetPrandtl_Lam := 1;
          GetGas_ConstantND := 1;
          GetGamma := 2 |};
     nDim := 2;
     GetNumberVertices := 3;
     GetNumberMarkerVertices :=
       (fun iMarker => match iMarker with
                       | O => Ok 2%nat
                       | _ => Error "Marker index exceeds size."
                       end);
     GetMarkerVertexIndices :=
       (fun iMarker iVertex => match iMarker, iVertex with
                               | O, O => Ok 1%nat
                               | O, 1%nat => Ok 2%nat
                               | _, _ => Error "Vertex index exceeds marker size."
                               end);
     FLOW_SOL :=
       {| GetnVar := 4;
          GetSoundSpeed := (fun iPoint => match iPoint with
                                          | O => 340
                                          | 1%nat => 341
                                          | _ => 342
                                          end);
          GetLaminarViscosity := (fun _ => 1);
          GetEddyViscosity := (fun _ => 2);
          GetGradient_Primitive := (fun _ _ _ => 3);
          GetAdjointVertexTractions := (fun _ _ _ => 0) |};
     ADJFLOW_SOL :=
       {| GetProd_dCoordinates_dCoordinates := (fun _ _ => 1);
          GetSens_dObjective_dStates := (fun _ _ => 2);
          GetProd_dResiduals_dStates := (fun _ _ => 3);
          GetProd_dTractions_dStates := (fun _ _ => 4);
          GetSens_dObjective_dCoordinates := (fun _ _ => 5);
          GetProd_dResiduals_dCoordinates := (fun _ _ => 6);
          GetProd_dTractions_dCoordinates := (fun _ _ => 7) |} |}.

End PythonWrapper.

Module FluidCanteraInvariant.
Import FluidCantera.

(** The size invariant of a constructed object: between one and [ARRAYSIZE]
    species, every member array of [ARRAYSIZE] entries, and a property model
    in each of the first [n_species_mixture] slots. *)
Definition well_formed (ARRAYSIZE : nat) (s : CFluidCantera) : Prop :=
  (1 <= n_species_mixture s <= ARRAYSIZE)%nat /\
  length (molarMasses s) = ARRAYSIZE /\
  length (specificHeat s) = ARRAYSIZE /\
  length (massFractions s) = ARRAYSIZE /\
  length (moleFractions s) = ARRAYSIZE /\
  length (laminarViscosity s) = ARRAYSIZE /\
  length (laminarThermalConductivity s) = ARRAYSIZE /\
  length (massDiffusivity s) = ARRAYSIZE /\
  (forall i, (i < n_species_mixture s)%nat ->
     (exists m, LaminarViscosityPointers s !! i = Some (Some m)) /\
     (exists m, ThermalConductivityPointers s !! i = Some (Some m)) /\
     (exists m, MassDiffusivityPointers s !! i = Some (Some m))).

(** An array is kept outside its first [n] entries: same size, same content
    from index [n] on. *)
Definition array_kept (n : nat) (a a' : list R) : Prop :=
  length a' = length a /\ forall i, (n <= i)%nat -> a' !! i = a !! i.

(** What a call on the object may not touch: the species count, the
    constants and flags the constructor set, the molar masses, specific
    heats and property models, and every array entry at or beyond
    [n_species_mixture]. *)
Definition kept (s s' : CFluidCantera) : Prop :=
  n_species_mixture s' = n_species_mixture s /\
  Gamma s' = Gamma s /\
  Pressure_Thermodynamic s' = Pressure_Thermodynamic s /\
  GasConstant_Ref s' = GasConstant_Ref s /\
  Prandtl_Number s' = Prandtl_Number s /\
  wilke s' = wilke s /\
  davidson s' = davidson s /\
  molarMasses s' = molarMasses s /\
  specificHeat s' = specificHeat s /\
  LaminarViscosityPointers s' = LaminarViscosityPointers s /\
  ThermalConductivityPointers s' = ThermalConductivityPointers s /\
  MassDiffusivityPointers s' = MassDiffusivityPointers s /\
  array_kept (n_species_mixture s) (massFractions s) (massFractions s') /\
  array_kept (n_species_mixture s) (moleFractions s) (moleFractions s') /\
  array_kept (n_species_mixture s) (laminarViscosity s) (laminarViscosity s') /\
  array_kept (n_species_mixture s) (laminarThermalConductivity s)
    (laminarThermalConductivity s') /\
  array_kept (n_species_mixture s) (massDiffusivity s) (massDiffusivity s').

(** A run of successive [SetTDState_T] calls on one object, each with its
    own temperature and scalars. *)
Fixpoint SetTDState_T_calls (ARRAYSIZE : nat) (UNIVERSAL_GAS_CONSTANT : R)
    (s : CFluidCantera) (calls : list (R * list R)) : CFluidCantera :=
  match calls with
  | [] => s
  | (val_temperature, val_scalars) :: calls =>
      SetTDState_T_calls ARRAYSIZE UNIVERSAL_GAS_CONSTANT
        (fst (SetTDState_T ARRAYSIZE UNIVERSAL_GAS_CONSTANT val_temperature val_scalars s))
        calls
  end.

End FluidCanteraInvariant.

Module PythonWrapperRest.
Import PythonWrapper.

(** A call [SetCustomBoundaryHeatFlux(iMarker, iVertex, value)] received by
    the geometry. *)
Record HeatFluxStore : Type := {
  flux_iMarker : nat;
  flux_iVertex : nat;
  flux_val : R
}.

(** A call [SetAdjoint_SourceTerm(iPoint, iVar, value)] received by the
    adjoint flow solver. *)
Record SourceTermStore : Type := {
  source_iPoint : nat;
  source_iVar : nat;
  source_val : R
}.

(** A call [SetInlet_FlowDir(iMarker, iVertex, iDim, value)] received by the
    flow solver. *)
Record InletFlowDir : Type := {
  dir_iMarker : nat;
  dir_iVertex : nat;
  dir_iDim : nat;
  dir_val : R
}.

(** What the nonequilibrium accessors read from [main_config] and from the
    nodes of the flow solver. *)
Record NEMOData : Type := {
  GetNEMOProblem : bool;
  GetnSpecies : nat;
  GetSolution : nat -> nat -> R;
  GetDensity : nat -> R;
  GetTemperature_ve : nat -> R
}.

(** What [UpdateFarfield] reads from [main_config], besides [GetGamma]. *)
Record FarfieldConfig : Type := {
  GetVelocity_Ref : R;
  GetAoA : R;
  GetAoS : R;
  GetMach : R;
  GetTemperature_FreeStream : R;
  GetGas_Constant : R
}.

Section Accessors.

Variable d : CDriver.

(** [CDriver::GetLaminarViscosities()] *)
Definition GetLaminarViscosities_all : outcome (list R) :=
  let nPoint := GetNumberVertices d in
  push_back_all nPoint (fun iPoint => GetLaminarViscosities d iPoint).

(** [CDriver::GetEddyViscosities()] *)
Definition GetEddyViscosities_all : outcome (list R) :=
  let nPoint := GetNumberVertices d in
  push_back_all nPoint (fun iPoint => GetEddyViscosities d iPoint).

(** [CDriver::GetThermalConductivities()] *)
Definition GetThermalConductivities_all : outcome (list R) :=
  let nPoint := GetNumberVertices d in
  push_back_all nPoint (fun iPoint => GetThermalConductivities d iPoint).

(** [CDriver::GetHeatFluxes()] *)
Definition GetHeatFluxes_all : outcome (list (list R)) :=
  let nPoint := GetNumberVertices d in
  push_back_all nPoint (fun iPoint => GetHeatFluxes d iPoint).

(** [CDriver::GetObjectiveStatesSensitivities()] *)
Definition GetObjectiveStatesSensitivities_all : outcome (list (list R)) :=
  let nPoint := GetNumberVertices d in
  push_back_all nPoint (fun iPoint => GetObjectiveStatesSensitivities d iPoint).

(** [CDriver::GetResidualsCoordinatesSensitivities()] *)
Definition GetResidualsCoordinatesSensitivities_all : outcome (list (list R)) :=
  let nPoint := GetNumberVertices d in
  push_back_all nPoint (fun iPoint => GetResidualsCoordinatesSensitivities d iPoint).

(** [CDriver::GetMarkerThermalConductivities(unsigned short iMarker,
    unsigned long iVertex)] *)
Definition GetMarkerThermalConductivities (iMarker iVertex : nat) : outcome R :=
  _ ← error_if (negb (GetFluidProblem (main_config d))) "Flow solver is not defined!";
  iPoint ← GetMarkerVertexIndices d iMarker iVertex;
  let Prandtl_Lam := GetPrandtl_Lam (main_config d) in
  let Gas_Constant := GetGas_ConstantND (main_config d) in
  let Gamma := GetGamma (main_config d) in
  let Cp := (Gamma / (Gamma - 1.0)) * Gas_Constant in
  let laminar_viscosity := GetLaminarViscosity (FLOW_SOL d) iPoint in
  Ok (Cp * (laminar_viscosity / Prandtl_Lam)).

(** [CDriver::GetMarkerThermalConductivities(unsigned short iMarker)] *)
Definition GetMarkerThermalConductivities_all (iMarker : nat) : outcome (list R) :=
  nVertex ← GetNumberMarkerVertices d iMarker;
  push_back_all nVertex (fun iVertex => GetMarkerThermalConductivities iMarker iVertex).

(** [CDriver::GetMarkerHeatFluxes(unsigned short iMarker, unsigned long iVertex)] *)
Definition GetMarkerHeatFluxes (iMarker iVertex : nat) : outcome (list R) :=
  _ ← error_if (negb (GetFluidProblem (main_config d))) "Flow solver is not defined!";
  iPoint ← GetMarkerVertexIndices d iMarker iVertex;
  let values := replicate (nDim d) 0.0 in
  if negb (bool_decide (GetKind_Regime (main_config d) = COMPRESSIBLE)) then Ok values
  else
    let Prandtl_Lam := GetPrandtl_Lam (main_config d) in
    let Gas_Constant := GetGas_ConstantND (main_config d) in
    let Gamma := GetGamma (main_config d) in
    let Cp := (Gamma / (Gamma - 1.0)) * Gas_Constant in
    let laminar_viscosity := GetLaminarViscosity (FLOW_SOL d) iPoint in
    let thermal_conductivity := Cp * (laminar_viscosity / Prandtl_Lam) in
    Ok (for_upto (nDim d)
          (fun iDim values =>
             let GradT := GetGradient_Primitive (FLOW_SOL d) iPoint 0 iDim in
             <[iDim := - thermal_conductivity * GradT]> values)
          values).

Section NormalHeatFlux.

(** [main_geometry->vertex[iMarker][iVertex]->GetNormal()[iDim]] and
    [GeometryToolbox::Norm], both defined outside this excerpt. *)
Variable GetNormal : nat -> nat -> nat -> R.
Variable Norm : nat -> (nat -> R) -> R.

(** [CDriver::GetMarkerNormalHeatFluxes(unsigned short iMarker,
    unsigned long iVertex)] *)
Definition GetMarkerNormalHeatFluxes (iMarker iVertex : nat) : outcome R :=
  values ← GetMarkerHeatFluxes iMarker iVertex;
  let Normal := GetNormal iMarker iVertex in
  let Area := Norm (nDim d) Normal in
  for_upto_m (nDim d)
    (fun iDim projected =>
       v ← read values iDim;
       Ok (projected + v * (Normal iDim / Area)))
    0.0.

(** [CDriver::GetMarkerNormalHeatFluxes(unsigned short iMarker)] *)
Definition GetMarkerNormalHeatFluxes_all (iMarker : nat) : outcome (list R) :=
  nVertex ← GetNumberMarkerVertices d iMarker;
  push_back_all nVertex (fun iVertex => GetMarkerNormalHeatFluxes iMarker iVertex).

End NormalHeatFlux.

(** [CDriver::SetMarkerNormalHeatFluxes(unsigned short iMarker,
    unsigned long iVertex, passivedouble value)]: the store the geometry
    receives. *)
Definition SetMarkerNormalHeatFluxes (iMarker iVertex : nat) (value : R)
    : outcome HeatFluxStore :=
  _ ← error_if (negb (GetFluidProblem (main_config d))) "Flow solver is not defined!";
  nVertex ← GetNumberMarkerVertices d iMarker;
  _ ← error_if (nVertex <=? iVertex)%nat "Vertex index exceeds marker size.";
  Ok {| flux_iMarker := iMarker; flux_iVertex := iVertex; flux_val := value |}.

(** [CDriver::SetMarkerNormalHeatFluxes(unsigned short iMarker,
    vector<passivedouble> values)]: the stores, in order. *)
Definition SetMarkerNormalHeatFluxes_all (iMarker : nat) (values : list R)
    : outcome (list HeatFluxStore) :=
  nVertex ← GetNumberMarkerVertices d iMarker;
  _ ← error_if (negb (length values =? nVertex)%nat) "Invalid number of marker vertices!";
  for_upto_m nVertex
    (fun iVertex stores =>
       v ← read values iVertex;
       st ← SetMarkerNormalHeatFluxes iMarker iVertex v;
       Ok (stores ++ [st]))
    [].

(** [CDriver::SetAdjointSourceTerm]: the stores the adjoint solver receives,
    in order.  The products [nPoint * nVar] and [iPoint * nVar + iVar] are
    computed in [unsigned long]. *)
Definition SetAdjointSourceTerm (values : list R) : outcome (list SourceTermStore) :=
  _ ← error_if (negb (GetFluidProblem (main_config d)) || negb (GetDiscrete_Adjoint (main_config d)))
        "Discrete adjoint flow solver is not defined!";
  _ ← error_if (negb (bool_decide (GetKind_DiscreteAdjoint (main_config d) = RESIDUALS)))
        "Discrete adjoint flow solver does not use residual-based formulation!";
  let nPoint := GetNumberVertices d in
  nVar ← GetNumberStateVariables d;
  _ ← error_if (negb (length values =? wrap64 (nPoint * nVar))%nat)
        "Size does not match nPoint * nVar!";
  for_upto_m nPoint
    (fun iPoint stores =>
       for_upto_m nVar
         (fun iVar stores =>
            v ← read values (wrap64 (iPoint * nVar + iVar));
            Ok (stores ++ [ {| source_iPoint := iPoint; source_iVar := iVar;
                               source_val := v |} ]))
         stores)
    [].

Section Nonequilibrium.

Variable nemo : NEMOData.

(** [CDriver::GetNumberNonequilibriumSpecies] *)
Definition GetNumberNonequilibriumSpecies : nat := GetnSpecies nemo.

(** [CDriver::GetNonequilibriumMassFractions(unsigned long iPoint)] *)
Definition GetNonequilibriumMassFractions (iPoint : nat) : outcome (list R) :=
  _ ← error_if (negb (GetNEMOProblem nemo)) "Nonequilibrium flow solver is not defined!";
  _ ← error_if (GetNumberVertices d <=? iPoint)%nat "Vertex index exceeds size.";
  let nSpecies := GetNumberNonequilibriumSpecies in
  Ok (for_upto nSpecies
        (fun iSpecies values =>
           let rho_s := GetSolution nemo iPoint iSpecies in
           let rho_t := GetDensity nemo iPoint in
           values ++ [rho_s / rho_t])
        []).

(** [CDriver::GetNonequilibriumMassFractions()] *)
Definition GetNonequilibriumMassFractions_all : outcome (list (list R)) :=
  _ ← error_if (negb (GetNEMOProblem nemo)) "Nonequilibrium flow solver is not defined!";
  let nPoint := GetNumberVertices d in
  push_back_all nPoint (fun iPoint => GetNonequilibriumMassFractions iPoint).

(** [CDriver::GetVibrationalTemperatures] *)
Definition GetVibrationalTemperatures : outcome (list R) :=
  _ ← error_if (negb (GetNEMOProblem nemo)) "Nonequilibrium flow solver is not defined!";
  let nPoint := GetNumberVertices d in
  Ok (fill_values nPoint (fun iPoint => GetTemperature_ve nemo iPoint)).

End Nonequilibrium.

Section Farfield.

(** [PI_NUMBER], a constant defined outside this excerpt. *)
Variable PI_NUMBER : R.

(** [CDriver::SetInletAngle]: the flow directions the solver receives, in
    order.  [nVertex] is the array
    [geometry_container[ZONE_0][INST_0][MESH_0]->nVertex], read without a
    check of the marker index. *)
Definition SetInletAngle (nVertex : list nat) (iMarker : nat) (alpha : R)
    : outcome (list InletFlowDir) :=
  let alpha_rad := alpha * PI_NUMBER / 180.0 in
  match nVertex !! iMarker with
  | None => OutOfBounds iMarker (length nVertex)
  | Some n =>
      Ok (for_upto n
            (fun iVertex stores =>
               stores
               ++ [ {| dir_iMarker := iMarker; dir_iVertex := iVertex; dir_iDim := 0;
                       dir_val := cos alpha_rad |};
                    {| dir_iMarker := iMarker; dir_iVertex := iVertex; dir_iDim := 1;
                       dir_val := sin alpha_rad |} ])
            [])
  end.

(** [CDriver::UpdateFarfield]: the array [GetVelocity_FreeStreamND()] points
    to, before and after.  A write past its end is not defined by the
    source and is shown as writing nothing. *)
Definition UpdateFarfield (far : FarfieldConfig) (Velocity_FreeStreamND : list R) : list R :=
  let Velocity_Ref := GetVelocity_Ref far in
  let Alpha := GetAoA far * PI_NUMBER / 180.0 in
  let Beta := GetAoS far * PI_NUMBER / 180.0 in
  let Mach := GetMach far in
  let Temperature := GetTemperature_FreeStream far in
  let Gas_Constant := GetGas_Constant far in
  let Gamma := GetGamma (main_config d) in
  let SoundSpeed := sqrt (Gamma * Gas_Constant * Temperature) in
  let vel := Velocity_FreeStreamND in
  let vel :=
    if (nDim d =? 2)%nat then
      let vel := <[0%nat := cos Alpha * Mach * SoundSpeed / Velocity_Ref]> vel in
      <[1%nat := sin Alpha * Mach * SoundSpeed / Velocity_Ref]> vel
    else vel in
  if (nDim d =? 3)%nat then
    let vel := <[0%nat := cos Alpha * cos Beta * Mach * SoundSpeed / Velocity_Ref]> vel in
    let vel := <[1%nat := sin Beta * Mach * SoundSpeed / Velocity_Ref]> vel in
    <[2%nat := sin Alpha * Mach * SoundSpeed / Velocity_Ref]> vel
  else vel.

End Farfield.

End Accessors.

(** A three-species nonequilibrium state and a far field, used to
    exercise the statements below. *)
Definition sample_nemo : NEMOData :=
  {| GetNEMOProblem := true;
     GetnSpecies := 3;
     GetSolution := (fun _ iSpecies => match iSpecies with
                                       | O => 1
                                       | 1%nat => 2
                                       | _ => 5
                                       end);
     GetDensity := (fun _ => 8);
     GetTemperature_ve := (fun _ => 300) |}.

Definition sample_farfield : FarfieldConfig :=
  {| GetVelocity_Ref := 1;
     GetAoA := 30;
     GetAoS := 0;
     GetMach := 2;
     GetTemperature_FreeStream := 8;
     GetGas_Constant := 1 |}.

End PythonWrapperRest.

(** * Properties *)

(** ** Loops, sums and array updates *)

Section LoopFacts.

Lemma sum_upto_acc (n : nat) (f : nat -> R) :
  for_upto n (fun i acc => acc + f i) 0 = sum_upto n f.
Proof. induction n as [|n IH]; simpl; [reflexivity | now rewrite IH]. Qed.

Lemma sum_upto_ext (n : nat) (f g : nat -> R) :
  (forall i, (i < n)%nat -> f i = g i) -> sum_upto n f = sum_upto n g.
Proof.
  induction n as [|n IH]; intros Hfg; simpl; [reflexivity|].
  rewrite IH by (intros i Hi; apply Hfg; lia).
  rewrite (Hfg n) by lia. reflexivity.
Qed.

Lemma sum_upto_nonneg (n : nat) (f : nat -> R) :
  (forall i, (i < n)%nat -> 0 <= f i) -> 0 <= sum_upto n f.
Proof.
  induction n as [|n IH]; intros Hf; simpl; [lra|].
  assert (0 <= sum_upto n f) by (apply IH; intros i Hi; apply Hf; lia).
  assert (0 <= f n) by (apply Hf; lia). lra.
Qed.

Lemma sum_upto_zero_inv (n : nat) (f : nat -> R) :
  (forall i, (i < n)%nat -> 0 <= f i) -> sum_upto n f = 0 ->
  forall i, (i < n)%nat -> f i = 0.
Proof.
  induction n as [|n IH]; intros Hf Hsum i Hi; [lia|].
  simpl in Hsum.
  assert (0 <= sum_upto n f) by (apply sum_upto_nonneg; intros j Hj; apply Hf; lia).
  assert (0 <= f n) by (apply Hf; lia).
  destruct (decide (i = n)) as [->|Hne]; [lra|].
  apply IH; [intros j Hj; apply Hf; lia | lra | lia].
Qed.

Lemma sum_upto_scale (n : nat) (f : nat -> R) (c : R) :
  sum_upto n (fun i => f i * c) = sum_upto n f * c.
Proof. induction n as [|n IH]; simpl; [lra | rewrite IH; lra]. Qed.

Lemma sum_upto_const_zero (n : nat) : sum_upto n (fun _ => 0) = 0.
Proof. induction n as [|n IH]; simpl; [reflexivity | rewrite IH; lra]. Qed.

Lemma get_insert_eq (a : list R) (i : nat) (v : R) :
  (i < length a)%nat -> get (<[i := v]> a) i = v.
Proof. intros Hi. unfold get. now rewrite list_lookup_insert_eq. Qed.

Lemma get_insert_ne (a : list R) (i j : nat) (v : R) :
  i ≠ j -> get (<[i := v]> a) j = get a j.
Proof. intros Hne. unfold get. now rewrite list_lookup_insert_ne. Qed.

Lemma length_fill {A : Type} (n : nat) (g : nat -> A) (a : list A) :
  length (fill n g a) = length a.
Proof.
  induction n as [|n IH]; simpl; [reflexivity|].
  unfold fill in *. simpl. now rewrite length_insert.
Qed.

Lemma lookup_fill_lt {A : Type} (n : nat) (g : nat -> A) (a : list A) (i : nat) :
  (i < n)%nat -> (n <= length a)%nat -> fill n g a !! i = Some (g i).
Proof.
  induction n as [|n IH]; intros Hi Hn; [lia|].
  unfold fill in *. simpl.
  destruct (decide (i = n)) as [->|Hne].
  - apply list_lookup_insert_eq. fold (fill n g a). rewrite length_fill. lia.
  - rewrite list_lookup_insert_ne by congruence. apply IH; lia.
Qed.

Lemma lookup_fill_ge {A : Type} (n : nat) (g : nat -> A) (a : list A) (i : nat) :
  (n <= i)%nat -> fill n g a !! i = a !! i.
Proof.
  induction n as [|n IH]; intros Hi; [reflexivity|].
  unfold fill in *. simpl.
  rewrite list_lookup_insert_ne by lia. apply IH. lia.
Qed.

Lemma get_fill_lt (n : nat) (g : nat -> R) (a : list R) (i : nat) :
  (i < n)%nat -> (n <= length a)%nat -> get (fill n g a) i = g i.
Proof. intros Hi Hn. unfold get. now rewrite lookup_fill_lt. Qed.

Lemma fill_replicate (n : nat) (g : nat -> R) (v : R) :
  fill n g (replicate n v) = map g (seq 0 n).
Proof.
  apply list_eq. intros i.
  destruct (decide (i < n)%nat) as [Hi|Hi].
  - rewrite lookup_fill_lt by (rewrite ?length_replicate; lia).
    rewrite list_lookup_fmap, lookup_seq_lt by lia. reflexivity.
  - rewrite lookup_fill_ge by lia.
    rewrite (proj1 (lookup_replicate_None n v i)) by lia.
    rewrite list_lookup_fmap, lookup_seq_ge by lia. reflexivity.
Qed.

End LoopFacts.

Lemma for_upto_ind {S : Type} (P : nat -> S -> Prop) (n : nat) (body : nat -> S -> S) (s : S) :
  P O s ->
  (forall k s', (k < n)%nat -> P k s' -> P (Datatypes.S k) (body k s')) ->
  P n (for_upto n body s).
Proof.
  intros H0 Hstep. induction n as [|n IH]; simpl; [exact H0|].
  apply Hstep; [lia|]. apply IH. intros k s' Hk. apply Hstep. lia.
Qed.

(** ** The fluid model *)

Module FluidCanteraTheory.
Import FluidCantera.

Section Properties.

Variable ARRAYSIZE : nat.
Variable UNIVERSAL_GAS_CONSTANT : R.
Variable MakeLaminarViscosityModel : CConfig -> nat -> CViscosityModel.
Variable MakeThermalConductivityModel : CConfig -> nat -> CConductivityModel.
Variable MakeMassDiffusivityModel : CConfig -> nat -> CDiffusivityModel.

Lemma MassToMoleFractions_eq (val_scalars : list R) (s : CFluidCantera) :
  let n := n_species_mixture s in
  let mf := <[(n - 1)%nat := 1 - sum_upto (n - 1) (get val_scalars)]>
              (fill (n - 1) (get val_scalars) (massFractions s)) in
  let S := sum_upto n (fun j => get mf j / get (molarMasses s) j) in
  MassToMoleFractions val_scalars s =
  set_moleFractions
    (fill n (fun i => get mf i / get (molarMasses s) i / S) (moleFractions s))
    (set_massFractions mf s).
Proof.
  intros n mf S. unfold MassToMoleFractions.
  match goal with
  | |- context [for_upto (n_species_mixture s - 1) ?body (s, 0)] =>
      assert (Hloop : for_upto (n_species_mixture s - 1) body (s, 0) =
                      (set_massFractions (fill (n - 1) (get val_scalars) (massFractions s)) s,
                       sum_upto (n - 1) (get val_scalars)))
  end.
  { subst n. generalize (n_species_mixture s - 1)%nat as m. intros m.
    apply (for_upto_ind (fun k st =>
             st = (set_massFractions (fill k (get val_scalars) (massFractions s)) s,
                   sum_upto k (get val_scalars)))).
    - destruct s; reflexivity.
    - intros k st _ ->. reflexivity. }
  rewrite Hloop. cbn [n_species_mixture set_massFractions massFractions molarMasses].
  rewrite sum_upto_acc.
  fold n. fold mf. fold S.
  apply (for_upto_ind (fun k st =>
           st = set_moleFractions
                  (fill k (fun i => get mf i / get (molarMasses s) i / S) (moleFractions s))
                  (set_massFractions mf s))).
  - destruct s; reflexivity.
  - intros k st _ ->. reflexivity.
Qed.

(** C1.  Given the first [n-1] mass fractions (each non-negative, their sum
    at most 1) and positive molar masses, [MassToMoleFractions] stores mass
    fractions that sum to 1, the last one being 1 minus the sum of the
    inputs, and mole fractions [(Y_i / M_i) / sum_j (Y_j / M_j)] that sum
    to 1 as well. *)
Theorem MassToMoleFractions_normalised (val_scalars : list R) (s : CFluidCantera) :
  let n := n_species_mixture s in
  (1 <= n)%nat ->
  (n <= length (massFractions s))%nat ->
  (n <= length (moleFractions s))%nat ->
  length val_scalars = (n - 1)%nat ->
  (forall i, (i < n - 1)%nat -> 0 <= get val_scalars i) ->
  sum_upto (n - 1) (get val_scalars) <= 1 ->
  (forall i, (i < n)%nat -> 0 < get (molarMasses s) i) ->
  let s' := MassToMoleFractions val_scalars s in
  (forall i, (i < n - 1)%nat -> get (massFractions s') i = get val_scalars i) /\
  get (massFractions s') (n - 1) = 1 - sum_upto (n - 1) (get val_scalars) /\
  sum_upto n (get (massFractions s')) = 1 /\
  (forall i, (i < n)%nat ->
     get (moleFractions s') i =
     (get (massFractions s') i / get (molarMasses s') i)
     / sum_upto n (fun j => get (massFractions s') j / get (molarMasses s') j)) /\
  sum_upto n (get (moleFractions s')) = 1.
Proof.
  intros n Hn Hmf Hxf Hlen Hpos Hle HM s'.
  subst s'. rewrite MassToMoleFractions_eq.
  cbn [massFractions moleFractions molarMasses set_moleFractions set_massFractions].
  fold n.
  set (mf := <[(n - 1)%nat := 1 - sum_upto (n - 1) (get val_scalars)]>
               (fill (n - 1) (get val_scalars) (massFractions s))).
  set (S := sum_upto n (fun j => get mf j / get (molarMasses s) j)).
  assert (Hhead : forall i, (i < n - 1)%nat -> get mf i = get val_scalars i).
  { intros i Hi. unfold mf. rewrite get_insert_ne by lia.
    apply get_fill_lt; lia. }
  assert (Hlast : get mf (n - 1) = 1 - sum_upto (n - 1) (get val_scalars)).
  { unfold mf. apply get_insert_eq. rewrite length_fill. lia. }
  assert (Hsum : sum_upto n (get mf) = 1).
  { replace n with (Datatypes.S (n - 1)) at 1 by lia. simpl.
    rewrite (sum_upto_ext _ _ (get val_scalars)) by exact Hhead.
    rewrite Hlast. lra. }
  assert (Hmfpos : forall i, (i < n)%nat -> 0 <= get mf i).
  { intros i Hi. destruct (decide (i = n - 1)%nat) as [->|Hne].
    - rewrite Hlast. lra.
    - rewrite Hhead by lia. apply Hpos. lia. }
  assert (Htermpos : forall i, (i < n)%nat -> 0 <= get mf i / get (molarMasses s) i).
  { intros i Hi. apply Rle_mult_inv_pos; auto. }
  assert (HS : S <> 0).
  { intros HS0.
    assert (Hall : forall i, (i < n)%nat -> get mf i = 0).
    { intros i Hi.
      pose proof (sum_upto_zero_inv n _ Htermpos HS0 i Hi) as Hz.
      pose proof (HM i Hi) as HMi.
      apply (Rmult_eq_compat_r (get (molarMasses s) i)) in Hz.
      unfold Rdiv in Hz. rewrite Rmult_assoc, Rinv_l, Rmult_1_r, Rmult_0_l in Hz by lra.
      exact Hz. }
    rewrite (sum_upto_ext _ _ (fun _ => 0)) in Hsum by exact Hall.
    rewrite sum_upto_const_zero in Hsum. lra. }
  assert (Hmole : forall i, (i < n)%nat ->
            get (fill n (fun i => get mf i / get (molarMasses s) i / S) (moleFractions s)) i =
            get mf i / get (molarMasses s) i / S).
  { intros i Hi. apply get_fill_lt; lia. }
  repeat split; auto.
  rewrite (sum_upto_ext _ _ (fun i => (get mf i / get (molarMasses s) i) * / S)) by exact Hmole.
  rewrite sum_upto_scale. fold S. now apply Rinv_r.
Qed.

(** *** The Wilke rule on identical species *)

Lemma pow_one (y : R) : pow 1 y = 1.
Proof. unfold pow, Rpower. rewrite ln_1, Rmult_0_r. apply exp_0. Qed.

Lemma pow_two (x : R) : 0 < x -> pow x 2 = x * x.
Proof.
  intros Hx. unfold pow. replace 2 with (1 + 1) by lra.
  rewrite Rpower_plus, Rpower_1 by assumption. reflexivity.
Qed.

Lemma wilke_phi_identical (mu M : R) :
  mu <> 0 -> M <> 0 ->
  pow (1 + sqrt (mu / mu) * pow (M / M) 0.25) 2 / sqrt (8 * (1 + M / M)) = 1.
Proof.
  intros Hmu HM.
  replace (mu / mu) with 1 by (field; assumption).
  replace (M / M) with 1 by (field; assumption).
  rewrite sqrt_1, pow_one, pow_two by lra.
  replace (8 * (1 + 1)) with (4 * 4) by lra.
  rewrite sqrt_square by lra. lra.
Qed.

(** The double loop shared by [WilkeViscosity] and [WilkeConductivity], on
    arrays whose first [n] viscosities and molar masses are all alike. *)
Lemma wilke_mixture_identical (n : nat) (x lv MM p : list R) (mu M c : R) :
  mu <> 0 -> M <> 0 ->
  (forall i, (i < n)%nat -> get lv i = mu) ->
  (forall i, (i < n)%nat -> get MM i = M) ->
  (forall i, (i < n)%nat -> get p i = c) ->
  sum_upto n (get x) = 1 ->
  for_upto n
    (fun i acc =>
       acc + get x i * get p i
             / for_upto n
                 (fun j wd =>
                    if bool_decide (j ≠ i) then
                      wd + get x j
                           * (pow (1 + sqrt (get lv i / get lv j) * pow (get MM j / get MM i) 0.25) 2
                              / sqrt (8 * (1 + get MM i / get MM j)))
                    else wd + get x j)
                 0)
    0 = c.
Proof.
  intros Hmu HM Hlv HMM Hp Hx.
  assert (Hden : forall i, (i < n)%nat ->
            for_upto n
              (fun j wd =>
                 if bool_decide (j ≠ i) then
                   wd + get x j
                        * (pow (1 + sqrt (get lv i / get lv j) * pow (get MM j / get MM i) 0.25) 2
                           / sqrt (8 * (1 + get MM i / get MM j)))
                 else wd + get x j)
              0 = 1).
  { intros i Hi. transitivity (sum_upto n (get x)); [|exact Hx].
    apply (for_upto_ind (fun k wd => wd = sum_upto k (get x))); [reflexivity|].
    intros k wd Hk ->. simpl.
    case_bool_decide; [|reflexivity].
    rewrite (Hlv i), (Hlv k), (HMM i), (HMM k) by assumption.
    rewrite wilke_phi_identical by assumption. lra. }
  transitivity (sum_upto n (fun i => get x i * c)).
  - apply (for_upto_ind (fun k acc =>
             (k <= n)%nat -> acc = sum_upto k (fun i => get x i * c))); [reflexivity | | lia].
    intros k acc Hk IH _. rewrite IH by lia. simpl.
    rewrite Hden, Hp by assumption. lra.
  - rewrite sum_upto_scale, Hx. lra.
Qed.

Lemma WilkeViscosity_state (val_scalars : list R) (s : CFluidCantera) :
  fst (WilkeViscosity val_scalars s) =
  set_laminarViscosity
    (fill (n_species_mixture s)
       (fun i => viscosity_of (LaminarViscosityPointers s) i
                   (Temperature (base s)) (Density (base s)))
       (laminarViscosity s)) s.
Proof.
  unfold WilkeViscosity. cbn [fst].
  apply (for_upto_ind (fun k st =>
           st = set_laminarViscosity
                  (fill k (fun i => viscosity_of (LaminarViscosityPointers s) i
                                      (Temperature (base s)) (Density (base s)))
                     (laminarViscosity s)) s)).
  - destruct s; reflexivity.
  - intros k st _ ->. reflexivity.
Qed.

Lemma WilkeConductivity_state (val_scalars : list R) (s : CFluidCantera) :
  fst (WilkeConductivity val_scalars s) =
  set_laminarThermalConductivity
    (fill (n_species_mixture s)
       (fun i => conductivity_of (ThermalConductivityPointers s) i
                   (Temperature (base s)) (Density (base s)) (Mu (base s)) 0.0 0.0 0.0 0.0)
       (laminarThermalConductivity s)) s.
Proof.
  unfold WilkeConductivity. cbn [fst].
  apply (for_upto_ind (fun k st =>
           st = set_laminarThermalConductivity
                  (fill k (fun i => conductivity_of (ThermalConductivityPointers s) i
                                      (Temperature (base s)) (Density (base s)) (Mu (base s))
                                      0.0 0.0 0.0 0.0)
                     (laminarThermalConductivity s)) s)).
  - destruct s; reflexivity.
  - intros k st _ ->. reflexivity.
Qed.

Lemma WilkeViscosity_identical (val_scalars : list R) (s : CFluidCantera) (mu M : R) :
  let n := n_species_mixture s in
  mu <> 0 -> M <> 0 ->
  (n <= length (laminarViscosity s))%nat ->
  (forall i, (i < n)%nat -> get (molarMasses s) i = M) ->
  (forall i, (i < n)%nat ->
     viscosity_of (LaminarViscosityPointers s) i (Temperature (base s)) (Density (base s)) = mu) ->
  sum_upto n (get (moleFractions s)) = 1 ->
  snd (WilkeViscosity val_scalars s) = mu.
Proof.
  intros n Hmu HM Hlen HMM Hvisc Hx.
  pose proof (WilkeViscosity_state val_scalars s) as Hst.
  unfold WilkeViscosity in *. cbn [fst snd] in *. rewrite Hst.
  cbn [n_species_mixture moleFractions laminarViscosity molarMasses set_laminarViscosity].
  apply wilke_mixture_identical with (mu := mu) (M := M); auto.
  - intros i Hi. rewrite get_fill_lt by (fold n; lia). apply Hvisc. exact Hi.
  - intros i Hi. rewrite get_fill_lt by (fold n; lia). apply Hvisc. exact Hi.
Qed.

Lemma WilkeConductivity_identical (val_scalars : list R) (s : CFluidCantera) (mu M k : R) :
  let n := n_species_mixture s in
  mu <> 0 -> M <> 0 ->
  (n <= length (laminarThermalConductivity s))%nat ->
  (forall i, (i < n)%nat -> get (molarMasses s) i = M) ->
  (forall i, (i < n)%nat -> get (laminarViscosity s) i = mu) ->
  (forall i, (i < n)%nat ->
     conductivity_of (ThermalConductivityPointers s) i
       (Temperature (base s)) (Density (base s)) (Mu (base s)) 0 0 0 0 = k) ->
  sum_upto n (get (moleFractions s)) = 1 ->
  snd (WilkeConductivity val_scalars s) = k.
Proof.
  intros n Hmu HM Hlen HMM Hlv Hcond Hx.
  pose proof (WilkeConductivity_state val_scalars s) as Hst.
  unfold WilkeConductivity in *. cbn [fst snd] in *. rewrite Hst.
  cbn [n_species_mixture moleFractions laminarViscosity molarMasses
       laminarThermalConductivity set_laminarThermalConductivity].
  apply wilke_mixture_identical with (mu := mu) (M := M); auto.
  intros i Hi. rewrite get_fill_lt by (fold n; lia).
  replace 0.0 with 0 by lra. apply Hcond. exact Hi.
Qed.

(** C8.  When all species have the same molar mass, every viscosity model
    yields the same viscosity and every conductivity model the same
    conductivity, and the stored mole fractions sum to 1, [WilkeViscosity]
    returns the common viscosity and [WilkeConductivity], run as in
    [SetTDState_T] on the state [WilkeViscosity] leaves, returns the common
    conductivity.  The quotients [mu_i / mu_j] and [M_i / M_j] have to be
    defined: the common viscosity and molar mass are not zero. *)
Theorem Wilke_identical_species (val_scalars : list R) (s : CFluidCantera) (mu M k : R) :
  let n := n_species_mixture s in
  mu <> 0 -> M <> 0 ->
  (n <= length (laminarViscosity s))%nat ->
  (n <= length (laminarThermalConductivity s))%nat ->
  (forall i, (i < n)%nat -> get (molarMasses s) i = M) ->
  (forall i, (i < n)%nat ->
     exists m, LaminarViscosityPointers s !! i = Some (Some m) /\
               m (Temperature (base s)) (Density (base s)) = mu) ->
  (forall i, (i < n)%nat ->
     exists m, ThermalConductivityPointers s !! i = Some (Some m) /\
               m (Temperature (base s)) (Density (base s)) mu 0 0 0 0 = k) ->
  sum_upto n (get (moleFractions s)) = 1 ->
  snd (WilkeViscosity val_scalars s) = mu /\
  snd (WilkeConductivity val_scalars
         (with_base (set_Mu (snd (WilkeViscosity val_scalars s)))
            (fst (WilkeViscosity val_scalars s)))) = k.
Proof.
  intros n Hmu HM Hlv Hlk HMM Hvisc Hcond Hx.
  assert (Hvisc' : forall i, (i < n)%nat ->
            viscosity_of (LaminarViscosityPointers s) i
              (Temperature (base s)) (Density (base s)) = mu).
  { intros i Hi. destruct (Hvisc i Hi) as (m & Hm & Hval).
    unfold viscosity_of. now rewrite Hm. }
  assert (Hmix : snd (WilkeViscosity val_scalars s) = mu)
    by (apply WilkeViscosity_identical with (M := M); assumption).
  split; [exact Hmix|].
  rewrite Hmix, WilkeViscosity_state.
  apply WilkeConductivity_identical with (mu := mu) (M := M); cbn; auto.
  - intros i Hi. rewrite get_fill_lt by (fold n; lia). apply Hvisc'. exact Hi.
  - intros i Hi. destruct (Hcond i Hi) as (m & Hm & Hval).
    unfold conductivity_of. now rewrite Hm.
Qed.

(** *** [SetTDState_T] *)

Lemma ComputeMassDiffusivity_eq (s : CFluidCantera) :
  ComputeMassDiffusivity s =
  set_massDiffusivity
    (fill (n_species_mixture s)
       (fun i => diffusivity_of (MassDiffusivityPointers s) i
                   (Density (base s)) (Mu (base s)) (Cp (base s)) (Kt (base s)))
       (massDiffusivity s)) s.
Proof.
  unfold ComputeMassDiffusivity.
  apply (for_upto_ind (fun k st =>
           st = set_massDiffusivity
                  (fill k (fun i => diffusivity_of (MassDiffusivityPointers s) i
                                      (Density (base s)) (Mu (base s)) (Cp (base s)) (Kt (base s)))
                     (massDiffusivity s)) s)).
  - destruct s; reflexivity.
  - intros k st _ ->. reflexivity.
Qed.

Lemma DavidsonViscosity_state (val_scalars : list R) (s : CFluidCantera) :
  fst (DavidsonViscosity ARRAYSIZE val_scalars s) =
  set_laminarViscosity
    (fill (n_species_mixture s)
       (fun i => viscosity_of (LaminarViscosityPointers s) i
                   (Temperature (base s)) (Density (base s)))
       (laminarViscosity s)) s.
Proof.
  unfold DavidsonViscosity. cbn [fst].
  apply (for_upto_ind (fun k st =>
           st = set_laminarViscosity
                  (fill k (fun i => viscosity_of (LaminarViscosityPointers s) i
                                      (Temperature (base s)) (Density (base s)))
                     (laminarViscosity s)) s)).
  - destruct s; reflexivity.
  - intros k st _ ->. reflexivity.
Qed.

Lemma SetTDState_T_thermo_eq (val_temperature : R) (val_scalars : list R) (s : CFluidCantera) :
  let s0 := MassToMoleFractions val_scalars s in
  let Rgas := snd (ComputeGasConstant UNIVERSAL_GAS_CONSTANT s0) in
  SetTDState_T_thermo UNIVERSAL_GAS_CONSTANT val_temperature val_scalars s =
  with_base
    (fun b => {| Temperature := val_temperature;
                 Density := Pressure_Thermodynamic s / (val_temperature * Rgas);
                 Cp := ComputeMeanSpecificHeatCp val_scalars s0;
                 Cv := ComputeMeanSpecificHeatCp val_scalars s0 - Rgas;
                 Mu := Mu b; Kt := Kt b |})
    (set_Gas_Constant Rgas s0).
Proof.
  intros s0 Rgas. subst Rgas s0. unfold SetTDState_T_thermo.
  rewrite MassToMoleFractions_eq. reflexivity.
Qed.

(** What the first part leaves untouched. *)
Lemma SetTDState_T_thermo_frame (val_temperature : R) (val_scalars : list R) (s : CFluidCantera) :
  let s0 := SetTDState_T_thermo UNIVERSAL_GAS_CONSTANT val_temperature val_scalars s in
  wilke s0 = wilke s /\ davidson s0 = davidson s /\
  n_species_mixture s0 = n_species_mixture s /\
  Mu (base s0) = Mu (base s) /\
  massDiffusivity s0 = massDiffusivity s /\
  MassDiffusivityPointers s0 = MassDiffusivityPointers s.
Proof.
  cbv zeta. rewrite SetTDState_T_thermo_eq, MassToMoleFractions_eq. cbn. tauto.
Qed.



Lemma SetTDState_T_fst (val_temperature : R) (val_scalars : list R) (s : CFluidCantera) :
  let s1 := SetTDState_T_viscosity ARRAYSIZE val_scalars
              (SetTDState_T_thermo UNIVERSAL_GAS_CONSTANT val_temperature val_scalars s) in
  fst (SetTDState_T ARRAYSIZE UNIVERSAL_GAS_CONSTANT val_temperature val_scalars s) =
  ComputeMassDiffusivity
    (with_base (set_Kt (snd (WilkeConductivity val_scalars s1)))
       (fst (WilkeConductivity val_scalars s1))).
Proof.
  cbv zeta. unfold SetTDState_T. cbn [fst].
  destruct (WilkeConductivity _ _). reflexivity.
Qed.

Lemma base_after_transport (val_scalars : list R) (s1 : CFluidCantera) :
  base (ComputeMassDiffusivity
          (with_base (set_Kt (snd (WilkeConductivity val_scalars s1)))
             (fst (WilkeConductivity val_scalars s1))))
  = set_Kt (snd (WilkeConductivity val_scalars s1)) (base s1).
Proof.
  rewrite ComputeMassDiffusivity_eq, WilkeConductivity_state.
  generalize (snd (WilkeConductivity val_scalars s1)). intros kt.
  reflexivity.
Qed.

Lemma SetTDState_T_base (val_temperature : R) (val_scalars : list R) (s : CFluidCantera) :
  let s1 := SetTDState_T_viscosity ARRAYSIZE val_scalars
              (SetTDState_T_thermo UNIVERSAL_GAS_CONSTANT val_temperature val_scalars s) in
  base (fst (SetTDState_T ARRAYSIZE UNIVERSAL_GAS_CONSTANT val_temperature val_scalars s)) =
  set_Kt (snd (WilkeConductivity val_scalars s1)) (base s1).
Proof.
  cbv zeta. rewrite SetTDState_T_fst. apply base_after_transport.
Qed.


(** C10.  When neither flag is set, [SetTDState_T] leaves [Mu] as it was and
    still assigns [Temperature], [Density], [Cp], [Cv], [Kt] and the mass
    diffusivities of the [n] species. *)
Theorem SetTDState_T_no_mixing_model (val_temperature : R) (val_scalars : list R)
    (s : CFluidCantera) :
  wilke s = false ->
  davidson s = false ->
  (n_species_mixture s <= length (massDiffusivity s))%nat ->
  let s0 := MassToMoleFractions val_scalars s in
  let Rgas := snd (ComputeGasConstant UNIVERSAL_GAS_CONSTANT s0) in
  let s' := fst (SetTDState_T ARRAYSIZE UNIVERSAL_GAS_CONSTANT val_temperature val_scalars s) in
  Mu (base s') = Mu (base s) /\
  Temperature (base s') = val_temperature /\
  Density (base s') = Pressure_Thermodynamic s / (val_temperature * Rgas) /\
  Cp (base s') = ComputeMeanSpecificHeatCp val_scalars s0 /\
  Cv (base s') = Cp (base s') - Rgas /\
  Kt (base s') =
    snd (WilkeConductivity val_scalars
           (SetTDState_T_thermo UNIVERSAL_GAS_CONSTANT val_temperature val_scalars s)) /\
  (forall i, (i < n_species_mixture s)%nat ->
     get (massDiffusivity s') i =
     diffusivity_of (MassDiffusivityPointers s) i
       (Density (base s')) (Mu (base s)) (Cp (base s')) (Kt (base s'))).
Proof.
  intros Hw Hd Hlen s0 Rgas s'.
  set (st := SetTDState_T_thermo UNIVERSAL_GAS_CONSTANT val_temperature val_scalars s).
  destruct (SetTDState_T_thermo_frame val_temperature val_scalars s)
    as (Hw0 & Hd0 & Hn0 & Hmu0 & Hmd0 & Hptr0).
  fold st in Hw0, Hd0, Hn0, Hmu0, Hmd0, Hptr0.
  assert (Hvisc : SetTDState_T_viscosity ARRAYSIZE val_scalars st = st).
  { unfold SetTDState_T_viscosity. now rewrite Hw0, Hw, Hd0, Hd. }
  assert (Hbase : base s' = set_Kt (snd (WilkeConductivity val_scalars st)) (base st)).
  { subst s'. rewrite SetTDState_T_base. fold st. now rewrite Hvisc. }
  assert (Hst : base st =
                {| Temperature := val_temperature;
                   Density := Pressure_Thermodynamic s / (val_temperature * Rgas);
                   Cp := ComputeMeanSpecificHeatCp val_scalars s0;
                   Cv := ComputeMeanSpecificHeatCp val_scalars s0 - Rgas;
                   Mu := Mu (base s); Kt := Kt (base s) |}).
  { unfold st. rewrite SetTDState_T_thermo_eq. fold s0. fold Rgas.
    subst s0. rewrite MassToMoleFractions_eq. reflexivity. }
  rewrite Hbase, Hst. cbn [Mu Temperature Density Cp Cv Kt set_Kt].
  repeat split.
  intros i Hi. subst s'.
  rewrite SetTDState_T_fst. fold st. rewrite Hvisc.
  rewrite ComputeMassDiffusivity_eq, WilkeConductivity_state.
  cbn [massDiffusivity set_massDiffusivity n_species_mixture with_base
       set_laminarThermalConductivity MassDiffusivityPointers base
       Mu Temperature Density Cp Cv Kt set_Kt].
  rewrite get_fill_lt by (rewrite ?Hmd0, ?Hn0; lia).
  rewrite Hptr0, Hst. reflexivity.
Qed.

(** C2, as the source has it.  Every call of [SetTDState_T] opens the
    mechanism file and sets the state of the chemistry library once, with
    the operating thermodynamic pressure and the fixed composition
    [H2O:1.0, H2:8.0, AR:1.0], whatever the scalars. *)
Theorem SetTDState_T_backend_calls (val_temperature : R) (val_scalars : list R)
    (s : CFluidCantera) :
  exists T0,
    snd (SetTDState_T ARRAYSIZE UNIVERSAL_GAS_CONSTANT val_temperature val_scalars s) =
    [ newSolution "h2o2.yaml";
      setState_TPX T0 (Pressure_Thermodynamic s) "H2O:1.0, H2:8.0, AR:1.0" ].
Proof. eexists. reflexivity. Qed.

(** *** The constructor *)

Lemma SetLaminarViscosityModel_eq (config : CConfig) (s : CFluidCantera) :
  SetLaminarViscosityModel MakeLaminarViscosityModel config s =
  set_LaminarViscosityPointers
    (fill (n_species_mixture s) (fun i => Some (MakeLaminarViscosityModel config i))
       (LaminarViscosityPointers s)) s.
Proof.
  unfold SetLaminarViscosityModel.
  apply (for_upto_ind (fun k st =>
           st = set_LaminarViscosityPointers
                  (fill k (fun i => Some (MakeLaminarViscosityModel config i))
                     (LaminarViscosityPointers s)) s)).
  - destruct s; reflexivity.
  - intros k st _ ->. reflexivity.
Qed.

Lemma SetThermalConductivityModel_eq (config : CConfig) (s : CFluidCantera) :
  SetThermalConductivityModel MakeThermalConductivityModel config s =
  set_ThermalConductivityPointers
    (fill (n_species_mixture s) (fun i => Some (MakeThermalConductivityModel config i))
       (ThermalConductivityPointers s)) s.
Proof.
  unfold SetThermalConductivityModel.
  apply (for_upto_ind (fun k st =>
           st = set_ThermalConductivityPointers
                  (fill k (fun i => Some (MakeThermalConductivityModel config i))
                     (ThermalConductivityPointers s)) s)).
  - destruct s; reflexivity.
  - intros k st _ ->. reflexivity.
Qed.

Lemma SetMassDiffusivityModel_eq (config : CConfig) (s : CFluidCantera) :
  SetMassDiffusivityModel MakeMassDiffusivityModel config s =
  set_MassDiffusivityPointers
    (fill (n_species_mixture s) (fun i => Some (MakeMassDiffusivityModel config i))
       (MassDiffusivityPointers s)) s.
Proof.
  unfold SetMassDiffusivityModel.
  apply (for_upto_ind (fun k st =>
           st = set_MassDiffusivityPointers
                  (fill k (fun i => Some (MakeMassDiffusivityModel config i))
                     (MassDiffusivityPointers s)) s)).
  - destruct s; reflexivity.
  - intros k st _ ->. reflexivity.
Qed.

Lemma CFluidCantera_ctor_too_many (val_Cp val_gas_constant value_pressure_operating : R)
    (config : CConfig) :
  (ARRAYSIZE < GetnSpecies config + 1)%nat ->
  CFluidCantera_ctor ARRAYSIZE MakeLaminarViscosityModel MakeThermalConductivityModel
    MakeMassDiffusivityModel val_Cp val_gas_constant value_pressure_operating config =
  Error "Too many species, increase ARRAYSIZE".
Proof.
  intros Hn. unfold CFluidCantera_ctor. cbn [n_species_mixture initialised].
  now rewrite (proj2 (Nat.ltb_lt _ _) Hn).
Qed.

Lemma CFluidCantera_ctor_fits (val_Cp val_gas_constant value_pressure_operating : R)
    (config : CConfig) :
  let n := (GetnSpecies config + 1)%nat in
  let s0 := initialised ARRAYSIZE val_gas_constant value_pressure_operating config in
  (n <= ARRAYSIZE)%nat ->
  CFluidCantera_ctor ARRAYSIZE MakeLaminarViscosityModel MakeThermalConductivityModel
    MakeMassDiffusivityModel val_Cp val_gas_constant value_pressure_operating config =
  Ok (set_MassDiffusivityPointers
        (fill n (fun i => Some (MakeMassDiffusivityModel config i)) (replicate ARRAYSIZE None))
        (set_ThermalConductivityPointers
           (fill n (fun i => Some (MakeThermalConductivityModel config i)) (replicate ARRAYSIZE None))
           (set_LaminarViscosityPointers
              (fill n (fun i => Some (MakeLaminarViscosityModel config i)) (replicate ARRAYSIZE None))
              (set_specificHeat (fill n (GetSpecific_Heat_CpND config) (replicate ARRAYSIZE 0))
                 (set_molarMasses (fill n (GetMolecular_Weight config) (replicate ARRAYSIZE 0))
                    s0))))).
Proof.
  intros n s0 Hn. unfold CFluidCantera_ctor. fold s0.
  replace (n_species_mixture s0) with n by reflexivity.
  rewrite (proj2 (Nat.ltb_ge _ _) Hn). cbn [error_if mbind outcome_bind].
  assert (Hloop :
    for_upto n
      (fun iVar s =>
         let s := set_molarMasses (<[iVar := GetMolecular_Weight config iVar]> (molarMasses s)) s in
         set_specificHeat (<[iVar := GetSpecific_Heat_CpND config iVar]> (specificHeat s)) s)
      s0 =
    set_specificHeat (fill n (GetSpecific_Heat_CpND config) (replicate ARRAYSIZE 0))
      (set_molarMasses (fill n (GetMolecular_Weight config) (replicate ARRAYSIZE 0)) s0)).
  { apply (for_upto_ind (fun k st =>
             st = set_specificHeat (fill k (GetSpecific_Heat_CpND config) (replicate ARRAYSIZE 0))
                    (set_molarMasses (fill k (GetMolecular_Weight config) (replicate ARRAYSIZE 0))
                       s0))).
    - reflexivity.
    - intros k st _ ->. reflexivity. }
  cbv zeta in Hloop. rewrite Hloop.
  rewrite SetLaminarViscosityModel_eq, SetThermalConductivityModel_eq, SetMassDiffusivityModel_eq.
  reflexivity.
Qed.

(** The flags of a constructed object are those of the configuration. *)
Lemma CFluidCantera_ctor_flags (val_Cp val_gas_constant value_pressure_operating : R)
    (config : CConfig) (s : CFluidCantera) :
  CFluidCantera_ctor ARRAYSIZE MakeLaminarViscosityModel MakeThermalConductivityModel
    MakeMassDiffusivityModel val_Cp val_gas_constant value_pressure_operating config = Ok s ->
  wilke s = bool_decide (GetKind_MixingViscosityModel config = WILKE) /\
  davidson s = bool_decide (GetKind_MixingViscosityModel config = DAVIDSON).
Proof.
  intros Hs.
  destruct (decide (ARRAYSIZE < GetnSpecies config + 1)%nat) as [Hbig|Hfit].
  - rewrite CFluidCantera_ctor_too_many in Hs by exact Hbig. discriminate.
  - rewrite CFluidCantera_ctor_fits in Hs by lia. injection Hs as <-. split; reflexivity.
Qed.

(** C7.  The constructor stops with an error exactly when the number of
    mixture species (configured species plus one) exceeds [ARRAYSIZE], and
    that is its only failure.  Otherwise it yields an object whose first [n]
    molar masses and specific heats are those of the configuration, whose
    arrays all have [ARRAYSIZE >= n] entries and whose first [n] model slots
    are filled: every index the mixing-rule routines use, all below [n],
    is in range, and those routines contain no error exit of their own. *)
Theorem CFluidCantera_ctor_error_iff (val_Cp val_gas_constant value_pressure_operating : R)
    (config : CConfig) :
  let n := (GetnSpecies config + 1)%nat in
  let r := CFluidCantera_ctor ARRAYSIZE MakeLaminarViscosityModel MakeThermalConductivityModel
             MakeMassDiffusivityModel val_Cp val_gas_constant value_pressure_operating config in
  (r = Error "Too many species, increase ARRAYSIZE" <-> (ARRAYSIZE < n)%nat) /\
  ((exists s, r = Ok s) <-> (n <= ARRAYSIZE)%nat) /\
  (forall s, r = Ok s ->
     n_species_mixture s = n /\
     (forall i, (i < n)%nat ->
        get (molarMasses s) i = GetMolecular_Weight config i /\
        get (specificHeat s) i = GetSpecific_Heat_CpND config i /\
        LaminarViscosityPointers s !! i = Some (Some (MakeLaminarViscosityModel config i)) /\
        ThermalConductivityPointers s !! i = Some (Some (MakeThermalConductivityModel config i)) /\
        MassDiffusivityPointers s !! i = Some (Some (MakeMassDiffusivityModel config i))) /\
     length (molarMasses s) = ARRAYSIZE /\ length (specificHeat s) = ARRAYSIZE /\
     length (massFractions s) = ARRAYSIZE /\ length (moleFractions s) = ARRAYSIZE /\
     length (laminarViscosity s) = ARRAYSIZE /\
     length (laminarThermalConductivity s) = ARRAYSIZE /\
     length (massDiffusivity s) = ARRAYSIZE).
Proof.
  intros n r.
  destruct (decide (ARRAYSIZE < n)%nat) as [Hbig|Hfit].
  - assert (Hr : r = Error "Too many species, increase ARRAYSIZE")
      by (apply CFluidCantera_ctor_too_many; exact Hbig).
    rewrite Hr. split; [tauto|]. split.
    + split; [intros [s Hs]; discriminate | lia].
    + intros s Hs. discriminate.
  - assert (Hn : (n <= ARRAYSIZE)%nat) by lia.
    pose proof (CFluidCantera_ctor_fits val_Cp val_gas_constant value_pressure_operating
                  config Hn) as Hr.
    fold r in Hr. fold n in Hr. rewrite Hr. split; [|split].
    + split; [discriminate | lia].
    + split; [lia | eauto].
    + intros s [= <-].
      cbn [n_species_mixture molarMasses specificHeat massFractions moleFractions
           laminarViscosity laminarThermalConductivity massDiffusivity
           LaminarViscosityPointers ThermalConductivityPointers MassDiffusivityPointers
           set_MassDiffusivityPointers set_ThermalConductivityPointers
           set_LaminarViscosityPointers set_specificHeat set_molarMasses initialised].
      rewrite !length_fill, !length_replicate.
      split; [reflexivity|]. split; [|tauto].
      intros i Hi.
      rewrite !get_fill_lt by (rewrite ?length_replicate; lia).
      rewrite !lookup_fill_lt by (rewrite ?length_replicate; lia).
      tauto.
Qed.

End Properties.

Lemma MassToMoleFractions_normalised_witness :
  sum_upto 2 (get (massFractions (MassToMoleFractions [1 / 4] (sample_fluid true false)))) = 1 /\
  sum_upto 2 (get (moleFractions (MassToMoleFractions [1 / 4] (sample_fluid true false)))) = 1.
Proof.
  assert (H : forall i, (i < 2)%nat -> i = 0%nat \/ i = 1%nat) by (intros; lia).
  destruct (MassToMoleFractions_normalised [1 / 4] (sample_fluid true false))
    as (_ & _ & Hmass & _ & Hmole).
  - simpl. lia.
  - simpl. lia.
  - simpl. lia.
  - reflexivity.
  - intros i Hi. assert (i = 0%nat) as -> by (simpl in Hi; lia). unfold get; simpl. lra.
  - unfold get; simpl. lra.
  - intros i Hi. destruct (H i Hi) as [-> | ->]; unfold get; simpl; lra.
  - split; [exact Hmass | exact Hmole].
Defined.

Lemma Wilke_identical_species_witness :
  snd (WilkeViscosity [1 / 4] (sample_fluid true false)) = 3 /\
  snd (WilkeConductivity [1 / 4]
         (with_base (set_Mu (snd (WilkeViscosity [1 / 4] (sample_fluid true false))))
            (fst (WilkeViscosity [1 / 4] (sample_fluid true false))))) = 5.
Proof.
  assert (H : forall i, (i < 2)%nat -> i = 0%nat \/ i = 1%nat) by (intros; lia).
  apply (Wilke_identical_species [1 / 4] (sample_fluid true false) 3 2 5).
  - lra.
  - lra.
  - simpl. lia.
  - simpl. lia.
  - intros i Hi. destruct (H i Hi) as [-> | ->]; reflexivity.
  - intros i Hi. destruct (H i Hi) as [-> | ->]; eexists; split; reflexivity.
  - intros i Hi. destruct (H i Hi) as [-> | ->]; eexists; split; reflexivity.
  - unfold get; simpl. lra.
Defined.

(** C8, as stated, fails for [WilkeConductivity] on its own: its interaction
    factor reads the stored [laminarViscosity] array, not the viscosity
    models.  On a mixture with equal molar masses (2 and 2), viscosity models
    that all yield 3, conductivity models that all yield 5 and mole fractions
    1/4 and 3/4, but with the viscosities 1 and 4 stored, it returns
    1420/301, not 5. *)
Lemma WilkeConductivity_stale_viscosity_counterexample :
  get (molarMasses stale_fluid) 0 = 2 /\ get (molarMasses stale_fluid) 1 = 2 /\
  viscosity_of (LaminarViscosityPointers stale_fluid) 0
    (Temperature (base stale_fluid)) (Density (base stale_fluid)) = 3 /\
  viscosity_of (LaminarViscosityPointers stale_fluid) 1
    (Temperature (base stale_fluid)) (Density (base stale_fluid)) = 3 /\
  conductivity_of (ThermalConductivityPointers stale_fluid) 0
    (Temperature (base stale_fluid)) (Density (base stale_fluid)) (Mu (base stale_fluid))
    0 0 0 0 = 5 /\
  conductivity_of (ThermalConductivityPointers stale_fluid) 1
    (Temperature (base stale_fluid)) (Density (base stale_fluid)) (Mu (base stale_fluid))
    0 0 0 0 = 5 /\
  sum_upto 2 (get (moleFractions stale_fluid)) = 1 /\
  snd (WilkeConductivity [1 / 4] stale_fluid) = 1420 / 301 /\
  snd (WilkeConductivity [1 / 4] stale_fluid) <> 5.
Proof.
  assert (Hval : snd (WilkeConductivity [1 / 4] stale_fluid) = 1420 / 301).
  { assert (Hq : sqrt (1 / 4) = 1 / 2)
      by (replace (1 / 4) with (1 / 2 * (1 / 2)) by lra; apply sqrt_square; lra).
    assert (Hf : sqrt (4 / 1) = 2)
      by (replace (4 / 1) with (2 * 2) by lra; apply sqrt_square; lra).
    assert (Hd : sqrt (8 * (1 + 1)) = 4)
      by (replace (8 * (1 + 1)) with (4 * 4) by lra; apply sqrt_square; lra).
    unfold WilkeConductivity, stale_fluid. simpl. unfold get. simpl.
    replace (2 / 2) with 1 by lra.
    rewrite Hq, Hf, Hd, pow_one, !pow_two by lra.
    unfold conductivity_of. simpl. lra. }
  repeat match goal with |- _ /\ _ => split end;
    try reflexivity; try (unfold get; simpl; lra).
  - exact Hval.
  - rewrite Hval. lra.
Qed.


Lemma SetTDState_T_no_mixing_model_witness :
  Mu (base (fst (SetTDState_T 16 8.3144598 500 [1 / 4] (sample_fluid false false)))) = 7 /\
  Temperature (base (fst (SetTDState_T 16 8.3144598 500 [1 / 4] (sample_fluid false false))))
  = 500.
Proof.
  destruct (SetTDState_T_no_mixing_model 16 8.3144598 500 [1 / 4] (sample_fluid false false))
    as (HMu & HT & _).
  - reflexivity.
  - reflexivity.
  - simpl. lia.
  - split; [exact HMu | exact HT].
Defined.

(** C2, as stated, fails: on a mixture held at 300 K, a call with the
    temperature argument 500 hands no state with temperature 500 to the
    chemistry library, whatever the composition; and the calls made for two
    different scalar compositions are the same. *)
Lemma SetTDState_T_backend_state_counterexample :
  ~ (exists X,
       In (setState_TPX 500 (Pressure_Thermodynamic (sample_fluid true false)) X)
          (snd (SetTDState_T 16 8.3144598 500 [1 / 4] (sample_fluid true false)))) /\
  snd (SetTDState_T 16 8.3144598 500 [1 / 4] (sample_fluid true false))
  = snd (SetTDState_T 16 8.3144598 500 [3 / 4] (sample_fluid true false)).
Proof.
  split; [|reflexivity].
  intros [X HX]. simpl in HX.
  destruct HX as [HX | [HX | []]]; [discriminate|].
  injection HX as HT _. lra.
Qed.

Lemma CFluidCantera_ctor_error_iff_witness :
  exists s,
    CFluidCantera_ctor 16 (fun _ _ _ _ => 3) (fun _ _ _ _ _ _ _ _ _ => 5)
      (fun _ _ _ _ _ _ => 11) 1 1 101325 sample_config = Ok s.
Proof.
  apply (CFluidCantera_ctor_error_iff 16 (fun _ _ _ _ => 3) (fun _ _ _ _ _ _ _ _ _ => 5)
           (fun _ _ _ _ _ _ => 11) 1 1 101325 sample_config).
  simpl. lia.
Defined.

End FluidCanteraTheory.

(** ** The driver's accessors *)

Module PythonWrapperTheory.
Import PythonWrapper.

Lemma fill_values_map (n : nat) (f : nat -> R) : fill_values n f = map f (seq 0 n).
Proof. unfold fill_values. apply (fill_replicate n f 0.0). Qed.

Lemma collect_app {T : Type} (f : nat -> outcome T) (l1 l2 : list nat) :
  collect f (l1 ++ l2) = v1 ← collect f l1; v2 ← collect f l2; Ok (v1 ++ v2).
Proof.
  induction l1 as [|i l1 IH]; simpl.
  - destruct (collect f l2); reflexivity.
  - destruct (f i) as [v| |]; simpl; [|reflexivity|reflexivity].
    rewrite IH. destruct (collect f l1) as [v1| |]; simpl; [|reflexivity|reflexivity].
    destruct (collect f l2); reflexivity.
Qed.

(** The [push_back] loop of the source collects the values in order. *)
Lemma push_back_all_collect {T : Type} (n : nat) (f : nat -> outcome T) :
  push_back_all n f = collect f (seq 0 n).
Proof.
  unfold push_back_all. induction n as [|n IH]; [reflexivity|].
  rewrite seq_S, collect_app. cbn [for_upto_m]. rewrite IH. simpl.
  destruct (collect f (seq 0 n)) as [vs| |]; simpl; [|reflexivity|reflexivity].
  destruct (f n); reflexivity.
Qed.

Section Guards.

Variable d : CDriver.

Lemma adjoint_residuals_guard_ok :
  GetFluidProblem (main_config d) = true ->
  GetDiscrete_Adjoint (main_config d) = true ->
  GetKind_DiscreteAdjoint (main_config d) = RESIDUALS ->
  adjoint_residuals_guard d = Ok tt.
Proof.
  intros Hf Ha Hk. unfold adjoint_residuals_guard. rewrite Hf, Ha, Hk. reflexivity.
Qed.

Lemma adjoint_residuals_guard_cases :
  adjoint_residuals_guard d = Ok tt \/ exists msg, adjoint_residuals_guard d = Error msg.
Proof.
  unfold adjoint_residuals_guard.
  destruct (GetFluidProblem (main_config d)), (GetDiscrete_Adjoint (main_config d)); simpl; eauto.
  destruct (bool_decide _); simpl; eauto.
Qed.

(** The shape shared by the residual-based adjoint getters: guard, bounds
    check, then the values. *)
Lemma guarded_out_of_range {T : Type} (iPoint : nat) (k : outcome T) :
  (GetNumberVertices d <= iPoint)%nat ->
  exists msg,
    (_ ← adjoint_residuals_guard d;
     _ ← error_if (GetNumberVertices d <=? iPoint)%nat "Vertex index exceeds mesh size.";
     k) = Error msg.
Proof.
  intros Hi. destruct adjoint_residuals_guard_cases as [-> | [msg ->]]; simpl; [|eauto].
  rewrite (proj2 (Nat.leb_le _ _) Hi). simpl. eauto.
Qed.

Lemma guarded_in_range {T : Type} (iPoint : nat) (k : outcome T) :
  (iPoint < GetNumberVertices d)%nat ->
  GetFluidProblem (main_config d) = true ->
  GetDiscrete_Adjoint (main_config d) = true ->
  GetKind_DiscreteAdjoint (main_config d) = RESIDUALS ->
  (_ ← adjoint_residuals_guard d;
   _ ← error_if (GetNumberVertices d <=? iPoint)%nat "Vertex index exceeds mesh size.";
   k) = k.
Proof.
  intros Hi Hf Ha Hk. rewrite adjoint_residuals_guard_ok by assumption. simpl.
  rewrite (proj2 (Nat.leb_gt _ _) Hi). reflexivity.
Qed.

Lemma flow_out_of_range {T : Type} (iPoint : nat) (k : outcome T) :
  (GetNumberVertices d <= iPoint)%nat ->
  exists msg,
    (_ ← error_if (negb (GetFluidProblem (main_config d))) "Flow solver is not defined!";
     _ ← error_if (GetNumberVertices d <=? iPoint)%nat "Vertex index exceeds mesh size.";
     k) = Error msg.
Proof.
  intros Hi. destruct (GetFluidProblem (main_config d)); simpl; [|eauto].
  rewrite (proj2 (Nat.leb_le _ _) Hi). simpl. eauto.
Qed.

Lemma flow_in_range {T : Type} (iPoint : nat) (k : outcome T) :
  (iPoint < GetNumberVertices d)%nat ->
  GetFluidProblem (main_config d) = true ->
  (_ ← error_if (negb (GetFluidProblem (main_config d))) "Flow solver is not defined!";
   _ ← error_if (GetNumberVertices d <=? iPoint)%nat "Vertex index exceeds mesh size.";
   k) = k.
Proof.
  intros Hi Hf. rewrite Hf. simpl. rewrite (proj2 (Nat.leb_gt _ _) Hi). reflexivity.
Qed.

End Guards.

(** A missing fluid problem, discrete adjoint or residual-based formulation
    stops the guard of the sensitivity getters. *)
Lemma adjoint_residuals_guard_fails (d : CDriver) :
  GetFluidProblem (main_config d) = false
  \/ GetDiscrete_Adjoint (main_config d) = false
  \/ GetKind_DiscreteAdjoint (main_config d) <> RESIDUALS ->
  exists msg, adjoint_residuals_guard d = Error msg.
Proof.
  unfold adjoint_residuals_guard. intros [Hf | [Ha | Hk]].
  - rewrite Hf. simpl. eauto.
  - rewrite Ha, orb_true_r. simpl. eauto.
  - destruct (GetFluidProblem (main_config d)), (GetDiscrete_Adjoint (main_config d));
      simpl; eauto.
    rewrite bool_decide_false by exact Hk. simpl. eauto.
Qed.

(** C4, as the source has it.  A per-point accessor called with a point
    index at or beyond the number of vertices stops with an error and
    returns no value.  With an index in range it returns the solver's data
    for that point once its solver guards hold: a configured fluid problem
    for the flow accessors (the entry itself for the laminar and eddy
    viscosity, [Cp * (mu / Pr)] for the thermal conductivity, the [nDim]
    heat-flux components, zero unless the regime is compressible), and in
    addition a discrete adjoint in residual-based formulation for the
    sensitivity getters.  When those guards do not hold the call stops with
    an error instead, whatever the index: "Flow solver is not defined!" for
    the flow accessors without a fluid problem, and an error for every
    sensitivity getter when the fluid problem, the discrete adjoint or its
    residual-based formulation is missing.  Nothing is stated about
    [GetSpeedOfSound] with an index in range. *)
Theorem per_point_accessors_bounds (d : CDriver) (iPoint : nat) :
  ((GetNumberVertices d <= iPoint)%nat ->
     (exists msg, GetSpeedOfSound d iPoint = Error msg) /\
     (exists msg, GetLaminarViscosities d iPoint = Error msg) /\
     (exists msg, GetEddyViscosities d iPoint = Error msg) /\
     (exists msg, GetThermalConductivities d iPoint = Error msg) /\
     (exists msg, GetHeatFluxes d iPoint = Error msg) /\
     (exists msg, GetCoordinatesCoordinatesSensitivities d iPoint = Error msg) /\
     (exists msg, GetObjectiveStatesSensitivities d iPoint = Error msg) /\
     (exists msg, GetResidualsStatesSensitivities d iPoint = Error msg) /\
     (exists msg, GetForcesStatesSensitivities d iPoint = Error msg) /\
     (exists msg, GetObjectiveCoordinatesSensitivities d iPoint = Error msg) /\
     (exists msg, GetResidualsCoordinatesSensitivities d iPoint = Error msg) /\
     (exists msg, GetForcesCoordinatesSensitivities d iPoint = Error msg)) /\
  ((iPoint < GetNumberVertices d)%nat ->
   GetFluidProblem (main_config d) = true ->
     GetLaminarViscosities d iPoint = Ok (GetLaminarViscosity (FLOW_SOL d) iPoint) /\
     GetEddyViscosities d iPoint = Ok (GetEddyViscosity (FLOW_SOL d) iPoint) /\
     GetThermalConductivities d iPoint =
       Ok ((GetGamma (main_config d) / (GetGamma (main_config d) - 1)
            * GetGas_ConstantND (main_config d))
           * (GetLaminarViscosity (FLOW_SOL d) iPoint / GetPrandtl_Lam (main_config d))) /\
     GetHeatFluxes d iPoint =
       Ok (if bool_decide (GetKind_Regime (main_config d) = COMPRESSIBLE) then
             map (fun iDim =>
                    - ((GetGamma (main_config d) / (GetGamma (main_config d) - 1)
                        * GetGas_ConstantND (main_config d))
                       * (GetLaminarViscosity (FLOW_SOL d) iPoint
                          / GetPrandtl_Lam (main_config d)))
                    * GetGradient_Primitive (FLOW_SOL d) iPoint 0 iDim)
                 (seq 0 (nDim d))
           else replicate (nDim d) 0) /\
     (GetDiscrete_Adjoint (main_config d) = true ->
      GetKind_DiscreteAdjoint (main_config d) = RESIDUALS ->
        GetCoordinatesCoordinatesSensitivities d iPoint =
          Ok (map (GetProd_dCoordinates_dCoordinates (ADJFLOW_SOL d) iPoint) (seq 0 (nDim d))) /\
        GetObjectiveStatesSensitivities d iPoint =
          Ok (map (GetSens_dObjective_dStates (ADJFLOW_SOL d) iPoint)
                (seq 0 (GetnVar (FLOW_SOL d)))) /\
        GetResidualsStatesSensitivities d iPoint =
          Ok (map (GetProd_dResiduals_dStates (ADJFLOW_SOL d) iPoint)
                (seq 0 (GetnVar (FLOW_SOL d)))) /\
        GetForcesStatesSensitivities d iPoint =
          Ok (map (GetProd_dTractions_dStates (ADJFLOW_SOL d) iPoint)
                (seq 0 (GetnVar (FLOW_SOL d)))) /\
        GetObjectiveCoordinatesSensitivities d iPoint =
          Ok (map (GetSens_dObjective_dCoordinates (ADJFLOW_SOL d) iPoint) (seq 0 (nDim d))) /\
        GetResidualsCoordinatesSensitivities d iPoint =
          Ok (map (GetProd_dResiduals_dCoordinates (ADJFLOW_SOL d) iPoint) (seq 0 (nDim d))) /\
        GetForcesCoordinatesSensitivities d iPoint =
          Ok (map (GetProd_dTractions_dCoordinates (ADJFLOW_SOL d) iPoint) (seq 0 (nDim d))))) /\
  (GetFluidProblem (main_config d) = false ->
     GetLaminarViscosities d iPoint = Error "Flow solver is not defined!" /\
     GetEddyViscosities d iPoint = Error "Flow solver is not defined!" /\
     GetThermalConductivities d iPoint = Error "Flow solver is not defined!" /\
     GetHeatFluxes d iPoint = Error "Flow solver is not defined!") /\
  (GetFluidProblem (main_config d) = false
   \/ GetDiscrete_Adjoint (main_config d) = false
   \/ GetKind_DiscreteAdjoint (main_config d) <> RESIDUALS ->
     (exists msg, GetCoordinatesCoordinatesSensitivities d iPoint = Error msg) /\
     (exists msg, GetObjectiveStatesSensitivities d iPoint = Error msg) /\
     (exists msg, GetResidualsStatesSensitivities d iPoint = Error msg) /\
     (exists msg, GetForcesStatesSensitivities d iPoint = Error msg) /\
     (exists msg, GetObjectiveCoordinatesSensitivities d iPoint = Error msg) /\
     (exists msg, GetResidualsCoordinatesSensitivities d iPoint = Error msg) /\
     (exists msg, GetForcesCoordinatesSensitivities d iPoint = Error msg)).
Proof.
  split; [|split; [|split]].
  - intros Hi.
    repeat match goal with |- _ /\ _ => split end;
      try (apply guarded_out_of_range; exact Hi);
      try (apply flow_out_of_range; exact Hi).
    unfold GetSpeedOfSound.
    destruct (GetFluidProblem (main_config d)); simpl; [eauto|].
    rewrite (proj2 (Nat.leb_le _ _) Hi). simpl. eauto.
  - intros Hi Hf.
    repeat match goal with |- _ /\ _ => split end.
    + unfold GetLaminarViscosities. now rewrite flow_in_range.
    + unfold GetEddyViscosities. now rewrite flow_in_range.
    + unfold GetThermalConductivities. rewrite flow_in_range by assumption.
      cbv zeta. replace 1.0 with 1 by lra. reflexivity.
    + unfold GetHeatFluxes. rewrite flow_in_range by assumption. cbv zeta.
      destruct (bool_decide (GetKind_Regime (main_config d) = COMPRESSIBLE)); simpl.
      * f_equal. replace 1.0 with 1 by lra.
        apply (fill_replicate (nDim d)
                 (fun iDim =>
                    - ((GetGamma (main_config d) / (GetGamma (main_config d) - 1)
                        * GetGas_ConstantND (main_config d))
                       * (GetLaminarViscosity (FLOW_SOL d) iPoint
                          / GetPrandtl_Lam (main_config d)))
                    * GetGradient_Primitive (FLOW_SOL d) iPoint 0 iDim) 0.0).
      * f_equal. f_equal. lra.
    + intros Ha Hk.
      assert (Hn : GetNumberStateVariables d = Ok (GetnVar (FLOW_SOL d)))
        by (unfold GetNumberStateVariables; now rewrite Hf).
      repeat match goal with |- _ /\ _ => split end.
      * unfold GetCoordinatesCoordinatesSensitivities.
        rewrite guarded_in_range by assumption. now rewrite fill_values_map.
      * unfold GetObjectiveStatesSensitivities.
        rewrite guarded_in_range, Hn by assumption. simpl. now rewrite fill_values_map.
      * unfold GetResidualsStatesSensitivities.
        rewrite guarded_in_range, Hn by assumption. simpl. now rewrite fill_values_map.
      * unfold GetForcesStatesSensitivities.
        rewrite guarded_in_range, Hn by assumption. simpl. now rewrite fill_values_map.
      * unfold GetObjectiveCoordinatesSensitivities.
        rewrite guarded_in_range by assumption. now rewrite fill_values_map.
      * unfold GetResidualsCoordinatesSensitivities.
        rewrite guarded_in_range by assumption. now rewrite fill_values_map.
      * unfold GetForcesCoordinatesSensitivities.
        rewrite guarded_in_range by assumption. now rewrite fill_values_map.
- intros Hf.
    unfold GetLaminarViscosities, GetEddyViscosities, GetThermalConductivities, GetHeatFluxes.
    rewrite Hf. repeat split.
  - intros Hg.
    destruct (adjoint_residuals_guard_fails d Hg) as [msg Hmsg].
    unfold GetCoordinatesCoordinatesSensitivities, GetObjectiveStatesSensitivities,
      GetResidualsStatesSensitivities, GetForcesStatesSensitivities,
      GetObjectiveCoordinatesSensitivities, GetResidualsCoordinatesSensitivities,
      GetForcesCoordinatesSensitivities.
    rewrite Hmsg. cbn [mbind outcome_bind].
    repeat match goal with |- _ /\ _ => split end; exists msg; reflexivity.
Qed.

Lemma per_point_accessors_bounds_witness :
  (exists msg, GetLaminarViscosities (sample_driver true true) 3 = Error msg) /\
  GetLaminarViscosities (sample_driver true true) 1 = Ok 1 /\
  GetObjectiveStatesSensitivities (sample_driver true true) 1 = Ok [2; 2; 2; 2] /\
  GetLaminarViscosities (sample_driver false false) 1 = Error "Flow solver is not defined!" /\
  (exists msg, GetObjectiveStatesSensitivities (sample_driver true false) 1 = Error msg).
Proof.
  destruct (per_point_accessors_bounds (sample_driver true true) 3) as (Hout & _).
  destruct (per_point_accessors_bounds (sample_driver true true) 1) as (_ & Hin & _).
  destruct (per_point_accessors_bounds (sample_driver false false) 1) as (_ & _ & Hflow & _).
  destruct (per_point_accessors_bounds (sample_driver true false) 1) as (_ & _ & _ & Hguard).
  destruct Hout as (_ & Hlam & _); [simpl; lia|].
  destruct Hin as (Hlam1 & _ & _ & _ & Hadj); [simpl; lia | reflexivity |].
  destruct Hadj as (_ & Hobj & _); [reflexivity | reflexivity |].
  destruct Hflow as (Hlam0 & _); [reflexivity|].
  destruct Hguard as (_ & Hobj0 & _); [right; left; reflexivity|].
  split; [exact Hlam | split; [exact Hlam1 | split; [exact Hobj | split; [exact Hlam0 | exact Hobj0]]]].
Defined.

(** C4, as stated, fails: with no fluid problem configured, an index in
    range does not give back the solver's entry. *)
Lemma per_point_accessors_in_range_counterexample :
  (0 < GetNumberVertices (sample_driver false false))%nat /\
  GetLaminarViscosities (sample_driver false false) 0
  <> Ok (GetLaminarViscosity (FLOW_SOL (sample_driver false false)) 0).
Proof. split; [simpl; lia | discriminate]. Qed.

(** *** The fluid-problem guard *)

Lemma GetLaminarViscosities_guard (d : CDriver) (iPoint : nat) :
  GetLaminarViscosities d iPoint = Error "Flow solver is not defined!"
  <-> GetFluidProblem (main_config d) = false.
Proof.
  unfold GetLaminarViscosities.
  destruct (GetFluidProblem (main_config d)); simpl; [|tauto].
  destruct (GetNumberVertices d <=? iPoint)%nat; simpl; split; discriminate.
Qed.

Lemma GetSpeedOfSound_guard (d : CDriver) (iPoint : nat) :
  GetSpeedOfSound d iPoint = Error "Flow solver is not defined!"
  <-> GetFluidProblem (main_config d) = true.
Proof.
  unfold GetSpeedOfSound.
  destruct (GetFluidProblem (main_config d)); simpl; [tauto|].
  destruct (GetNumberVertices d <=? iPoint)%nat; simpl; split; discriminate.
Qed.

(** C5 at a failing input: with a fluid problem configured and the index 1
    in range, [GetSpeedOfSound] stops with "Flow solver is not defined!",
    while [GetLaminarViscosities], called the same way, returns its entry. *)
Theorem GetSpeedOfSound_rejects_configured_fluid :
  GetFluidProblem (main_config (sample_driver true false)) = true /\
  (1 < GetNumberVertices (sample_driver true false))%nat /\
  GetSpeedOfSound (sample_driver true false) 1 = Error "Flow solver is not defined!" /\
  GetLaminarViscosities (sample_driver true false) 1 = Ok 1.
Proof. repeat split. simpl. lia. Qed.

(** *** Whole-marker getters *)

Lemma GetMarkerLaminarViscosities_all_spec (d : CDriver) (iMarker : nat) :
  GetMarkerLaminarViscosities_all d iMarker
  = marker_values_spec d (GetMarkerLaminarViscosities d) iMarker.
Proof.
  unfold GetMarkerLaminarViscosities_all, marker_values_spec.
  destruct (GetNumberMarkerVertices d iMarker); simpl; [|reflexivity|reflexivity].
  apply push_back_all_collect.
Qed.

Lemma GetMarkerEddyViscosities_all_laminar (d : CDriver) (iMarker : nat) :
  GetMarkerEddyViscosities_all d iMarker
  = marker_values_spec d (GetMarkerLaminarViscosities d) iMarker.
Proof. apply GetMarkerLaminarViscosities_all_spec. Qed.

Lemma GetMarkerSpeedOfSound_all_points (d : CDriver) (iMarker : nat) :
  GetMarkerSpeedOfSound_all d iMarker
  = marker_values_spec d (fun _ iVertex => GetSpeedOfSound d iVertex) iMarker.
Proof.
  unfold GetMarkerSpeedOfSound_all, marker_values_spec.
  destruct (GetNumberMarkerVertices d iMarker); simpl; [|reflexivity|reflexivity].
  apply push_back_all_collect.
Qed.

(** C6 at failing inputs: the whole-marker eddy-viscosity getter returns
    the laminar viscosities (1, 1) where its per-element getter returns the
    eddy viscosities (2, 2); the whole-marker speed-of-sound getter reads
    the points 0 and 1 (340, 341) where its per-element getter reads the
    marker's points 1 and 2 (341, 342). *)
Theorem marker_getters_differ_from_per_element :
  GetMarkerEddyViscosities_all (sample_driver true false) 0 = Ok [1; 1] /\
  marker_values_spec (sample_driver true false)
    (GetMarkerEddyViscosities (sample_driver true false)) 0 = Ok [2; 2] /\
  GetMarkerSpeedOfSound_all (sample_driver false false) 0 = Ok [340; 341] /\
  marker_values_spec (sample_driver false false)
    (GetMarkerSpeedOfSound (sample_driver false false)) 0 = Ok [341; 342].
Proof. repeat split. Qed.

(** *** Adjoint forces *)

(** C9 at a failing input: for the vertex 1 of a two-dimensional marker and
    two values, the element-wise setter reads position 2 of its argument,
    past the end; for the vertex 0 it stores [values[iDim]]. *)
Theorem SetMarkerAdjointForces_reads_past_end :
  SetMarkerAdjointForces (sample_driver true true) 0 1 [10; 20] = OutOfBounds 2 2 /\
  SetMarkerAdjointForces (sample_driver true true) 0 0 [10; 20]
  = Ok [ {| store_iMarker := 0; store_iVertex := 0; store_iDim := 0; store_val := 10 |};
         {| store_iMarker := 0; store_iVertex := 0; store_iDim := 1; store_val := 20 |} ].
Proof. split; reflexivity. Qed.

End PythonWrapperTheory.

(** ** Further properties of the fluid model *)

Module FluidCanteraMore.
Import FluidCantera FluidCanteraInvariant FluidCanteraTheory.

(** Evaluation of a goal on the sample mixture. *)
Ltac eval_sample :=
  unfold MassToMoleFractions; simpl; unfold get; simpl; try lra; try lia.

Lemma sum_upto_weighted_bounds (n : nat) (c y : nat -> R) (lo hi : R) :
  (forall i, (i < n)%nat -> lo <= c i <= hi) ->
  (forall i, (i < n)%nat -> 0 <= y i) ->
  lo * sum_upto n y <= sum_upto n (fun i => c i * y i) <= hi * sum_upto n y.
Proof.
  induction n as [|n IH]; intros Hc Hy; simpl; [lra|].
  destruct IH as [IHlo IHhi]; [intros i Hi; apply Hc; lia | intros i Hi; apply Hy; lia|].
  pose proof (Hc n ltac:(lia)) as [Hlo Hhi]. pose proof (Hy n ltac:(lia)) as Hyn.
  split; nra.
Qed.

(** The mean specific heat is a weighted average: with non-negative mass
    fractions that sum to 1 it lies between the smallest and the largest
    of the species' specific heats. *)
Theorem ComputeMeanSpecificHeatCp_between (val_scalars : list R) (s : CFluidCantera)
    (lo hi : R) :
  let n := n_species_mixture s in
  (forall i, (i < n)%nat -> lo <= get (specificHeat s) i <= hi) ->
  (forall i, (i < n)%nat -> 0 <= get (massFractions s) i) ->
  sum_upto n (get (massFractions s)) = 1 ->
  lo <= ComputeMeanSpecificHeatCp val_scalars s <= hi.
Proof.
  intros n Hc Hy Hsum. unfold ComputeMeanSpecificHeatCp. fold n.
  rewrite (sum_upto_acc n (fun i => get (specificHeat s) i * get (massFractions s) i)).
  pose proof (sum_upto_weighted_bounds n (get (specificHeat s)) (get (massFractions s))
                lo hi Hc Hy) as H.
  rewrite Hsum in H. lra.
Qed.

Lemma ComputeMeanSpecificHeatCp_between_witness :
  1 <= ComputeMeanSpecificHeatCp [1 / 4] (MassToMoleFractions [1 / 4] (sample_fluid true false))
    <= 1.
Proof.
  assert (H : forall i, (i < 2)%nat -> i = 0%nat \/ i = 1%nat) by (intros; lia).
  apply (ComputeMeanSpecificHeatCp_between [1 / 4]
           (MassToMoleFractions [1 / 4] (sample_fluid true false)) 1 1).
  - intros i Hi. destruct (H i Hi) as [-> | ->]; eval_sample.
  - intros i Hi. destruct (H i Hi) as [-> | ->]; eval_sample.
  - eval_sample.
Defined.

(** *** Composition after [MassToMoleFractions] *)

Lemma sum_upto_term_le (n : nat) (f : nat -> R) (i : nat) :
  (forall j, (j < n)%nat -> 0 <= f j) -> (i < n)%nat -> f i <= sum_upto n f.
Proof.
  induction n as [|n IH]; intros Hf Hi; [lia|]. simpl.
  assert (0 <= sum_upto n f) by (apply sum_upto_nonneg; intros j Hj; apply Hf; lia).
  assert (0 <= f n) by (apply Hf; lia).
  destruct (decide (i = n)) as [->|Hne]; [lra|].
  assert (f i <= sum_upto n f) by (apply IH; [intros j Hj; apply Hf; lia | lia]). lra.
Qed.

(** What [MassToMoleFractions] stores, for an object of at least one
    species whose arrays hold [n] entries. *)
Lemma MassToMoleFractions_stored (val_scalars : list R) (s : CFluidCantera) :
  let n := n_species_mixture s in
  let s' := MassToMoleFractions val_scalars s in
  let Y := get (massFractions s') in
  let S := sum_upto n (fun j => Y j / get (molarMasses s) j) in
  (1 <= n)%nat ->
  (n <= length (massFractions s))%nat ->
  (n <= length (moleFractions s))%nat ->
  n_species_mixture s' = n /\ molarMasses s' = molarMasses s /\
  GasConstant_Ref s' = GasConstant_Ref s /\
  (forall i, (i < n - 1)%nat -> Y i = get val_scalars i) /\
  Y (n - 1)%nat = 1 - sum_upto (n - 1) (get val_scalars) /\
  sum_upto n Y = 1 /\
  (forall i, (i < n)%nat -> get (moleFractions s') i = Y i / get (molarMasses s) i / S).
Proof.
  intros n s' Y S Hn Hmf Hxf. subst S Y s'. rewrite MassToMoleFractions_eq.
  cbn [massFractions moleFractions molarMasses n_species_mixture GasConstant_Ref
       set_moleFractions set_massFractions].
  fold n.
  set (mf := <[(n - 1)%nat := 1 - sum_upto (n - 1) (get val_scalars)]>
               (fill (n - 1) (get val_scalars) (massFractions s))).
  assert (Hhead : forall i, (i < n - 1)%nat -> get mf i = get val_scalars i).
  { intros i Hi. unfold mf. rewrite get_insert_ne by lia. apply get_fill_lt; lia. }
  assert (Hlast : get mf (n - 1) = 1 - sum_upto (n - 1) (get val_scalars)).
  { unfold mf. apply get_insert_eq. rewrite length_fill. lia. }
  repeat split; auto.
  - replace n with (Datatypes.S (n - 1)) at 1 by lia. simpl.
    rewrite (sum_upto_ext _ _ (get val_scalars)) by exact Hhead.
    rewrite Hlast. lra.
  - intros i Hi. apply get_fill_lt; lia.
Qed.

(** The sum [sum_j Y_j / M_j] of a normalised composition is positive. *)
Lemma mixture_sum_pos (n : nat) (Y M : nat -> R) :
  (forall i, (i < n)%nat -> 0 <= Y i) ->
  (forall i, (i < n)%nat -> 0 < M i) ->
  sum_upto n Y = 1 ->
  0 < sum_upto n (fun j => Y j / M j).
Proof.
  intros HY HM Hsum.
  assert (Hterm : forall i, (i < n)%nat -> 0 <= Y i / M i)
    by (intros i Hi; apply Rle_mult_inv_pos; auto).
  destruct (Rle_lt_or_eq_dec _ _ (sum_upto_nonneg n _ Hterm)) as [Hpos|Hzero]; [exact Hpos|].
  exfalso.
  assert (Hall : forall i, (i < n)%nat -> Y i = 0).
  { intros i Hi.
    pose proof (sum_upto_zero_inv n _ Hterm (eq_sym Hzero) i Hi) as Hz.
    pose proof (HM i Hi) as HMi.
    replace (Y i) with (Y i / M i * M i) by (field; lra). rewrite Hz. lra. }
  rewrite (sum_upto_ext _ _ (fun _ => 0)) in Hsum by exact Hall.
  rewrite sum_upto_const_zero in Hsum. lra.
Qed.

(** With equal molar masses the conversion is the identity: every mole
    fraction equals the mass fraction of the same species. *)
Theorem MassToMoleFractions_equal_molar_masses (val_scalars : list R) (s : CFluidCantera)
    (M : R) :
  let n := n_species_mixture s in
  (1 <= n)%nat ->
  (n <= length (massFractions s))%nat ->
  (n <= length (moleFractions s))%nat ->
  M <> 0 ->
  (forall i, (i < n)%nat -> get (molarMasses s) i = M) ->
  let s' := MassToMoleFractions val_scalars s in
  forall i, (i < n)%nat -> get (moleFractions s') i = get (massFractions s') i.
Proof.
  intros n Hn Hmf Hxf HM HMM s' i Hi.
  destruct (MassToMoleFractions_stored val_scalars s Hn Hmf Hxf)
    as (_ & _ & _ & _ & _ & Hsum & Hmole).
  fold n in Hsum, Hmole. fold s' in Hsum, Hmole.
  rewrite Hmole by exact Hi.
  rewrite (sum_upto_ext n _ (fun j => get (massFractions s') j * / M))
    by (intros j Hj; rewrite HMM by exact Hj; reflexivity).
  rewrite sum_upto_scale, Hsum, HMM by exact Hi. field. exact HM.
Qed.

Lemma MassToMoleFractions_equal_molar_masses_witness :
  get (moleFractions (MassToMoleFractions [1 / 4] (sample_fluid true false))) 0
  = get (massFractions (MassToMoleFractions [1 / 4] (sample_fluid true false))) 0.
Proof.
  assert (H : forall i, (i < 2)%nat -> i = 0%nat \/ i = 1%nat) by (intros; lia).
  apply (MassToMoleFractions_equal_molar_masses [1 / 4] (sample_fluid true false) 2).
  - simpl; lia.
  - simpl; lia.
  - simpl; lia.
  - lra.
  - intros i Hi. destruct (H i Hi) as [-> | ->]; reflexivity.
  - simpl; lia.
Defined.

(** Every mole fraction [MassToMoleFractions] stores lies between 0 and 1,
    for non-negative input mass fractions of sum at most 1 and positive
    molar masses. *)
Theorem MassToMoleFractions_mole_fraction_range (val_scalars : list R) (s : CFluidCantera) :
  let n := n_species_mixture s in
  (1 <= n)%nat ->
  (n <= length (massFractions s))%nat ->
  (n <= length (moleFractions s))%nat ->
  (forall i, (i < n - 1)%nat -> 0 <= get val_scalars i) ->
  sum_upto (n - 1) (get val_scalars) <= 1 ->
  (forall i, (i < n)%nat -> 0 < get (molarMasses s) i) ->
  let s' := MassToMoleFractions val_scalars s in
  forall i, (i < n)%nat -> 0 <= get (moleFractions s') i <= 1.
Proof.
  intros n Hn Hmf Hxf Hpos Hle HM s' i Hi.
  destruct (MassToMoleFractions_stored val_scalars s Hn Hmf Hxf)
    as (_ & _ & _ & Hhead & Hlast & Hsum & Hmole).
  fold n in Hhead, Hlast, Hsum, Hmole. fold s' in Hhead, Hlast, Hsum, Hmole.
  assert (HY : forall j, (j < n)%nat -> 0 <= get (massFractions s') j).
  { intros j Hj. destruct (decide (j = n - 1)%nat) as [->|Hne].
    - rewrite Hlast. lra.
    - rewrite Hhead by lia. apply Hpos. lia. }
  pose proof (mixture_sum_pos n _ _ HY HM Hsum) as HS.
  assert (Hterm : forall j, (j < n)%nat ->
            0 <= get (massFractions s') j / get (molarMasses s) j)
    by (intros j Hj; apply Rle_mult_inv_pos; auto).
  pose proof (sum_upto_term_le n _ i Hterm Hi) as Hle_i. cbv beta in Hle_i.
  pose proof (Hterm i Hi) as H0.
  rewrite Hmole by exact Hi.
  set (S := sum_upto n (fun j => get (massFractions s') j / get (molarMasses s) j)) in *.
  set (a := get (massFractions s') i / get (molarMasses s) i) in *.
  split.
  - apply Rle_mult_inv_pos; assumption.
  - apply (Rmult_le_reg_r S); [exact HS|].
    unfold Rdiv. rewrite Rmult_assoc, Rinv_l by lra. lra.
Qed.

Lemma MassToMoleFractions_mole_fraction_range_witness :
  0 <= get (moleFractions (MassToMoleFractions [1 / 4] (sample_fluid true false))) 1 <= 1.
Proof.
  assert (H : forall i, (i < 2)%nat -> i = 0%nat \/ i = 1%nat) by (intros; lia).
  apply (MassToMoleFractions_mole_fraction_range [1 / 4] (sample_fluid true false)).
  - simpl; lia.
  - simpl; lia.
  - simpl; lia.
  - intros i Hi. assert (i = 0%nat) as -> by (simpl in Hi; lia). unfold get; simpl; lra.
  - unfold get; simpl; lra.
  - intros i Hi. destruct (H i Hi) as [-> | ->]; unfold get; simpl; lra.
  - simpl; lia.
Defined.

(** The gas constant computed right after the conversion is the universal
    constant over the reference constant times the mean molar mass in
    kg/mol, and that mean is the harmonic one, [1 / sum_j (Y_j / M_j)]. *)
Theorem ComputeGasConstant_harmonic_mean (UNIVERSAL_GAS_CONSTANT : R)
    (val_scalars : list R) (s : CFluidCantera) :
  let n := n_species_mixture s in
  (1 <= n)%nat ->
  (n <= length (massFractions s))%nat ->
  (n <= length (moleFractions s))%nat ->
  (forall i, (i < n - 1)%nat -> 0 <= get val_scalars i) ->
  sum_upto (n - 1) (get val_scalars) <= 1 ->
  (forall i, (i < n)%nat -> 0 < get (molarMasses s) i) ->
  let s' := MassToMoleFractions val_scalars s in
  let S := sum_upto n (fun j => get (massFractions s') j / get (molarMasses s) j) in
  let r := ComputeGasConstant UNIVERSAL_GAS_CONSTANT s' in
  snd r = UNIVERSAL_GAS_CONSTANT / (GasConstant_Ref s * (1 / S / 1000)) /\
  Gas_Constant (fst r) = snd r.
Proof.
  intros n Hn Hmf Hxf Hpos Hle HM s' S r.
  destruct (MassToMoleFractions_stored val_scalars s Hn Hmf Hxf)
    as (Hn' & HMM & Href & Hhead & Hlast & Hsum & Hmole).
  fold n in Hn', Hhead, Hlast, Hsum, Hmole. fold s' in Hn', HMM, Href, Hhead, Hlast, Hsum, Hmole.
  fold S in Hmole.
  assert (HY : forall j, (j < n)%nat -> 0 <= get (massFractions s') j).
  { intros j Hj. destruct (decide (j = n - 1)%nat) as [->|Hne].
    - rewrite Hlast. lra.
    - rewrite Hhead by lia. apply Hpos. lia. }
  pose proof (mixture_sum_pos n _ _ HY HM Hsum) as HS. fold S in HS.
  subst r. unfold ComputeGasConstant. cbn [fst snd Gas_Constant set_Gas_Constant].
  split; [|reflexivity].
  rewrite Hn', HMM, Href.
  rewrite (sum_upto_acc n (fun i => get (moleFractions s') i * get (molarMasses s) i / 1000)).
  rewrite (sum_upto_ext n _ (fun i => get (massFractions s') i * (/ S / 1000))).
  - rewrite sum_upto_scale, Hsum. f_equal. f_equal. field. lra.
  - intros i Hi. rewrite Hmole by exact Hi. pose proof (HM i Hi). field. lra.
Qed.

Lemma ComputeGasConstant_harmonic_mean_witness :
  snd (ComputeGasConstant 8.3144598 (MassToMoleFractions [1 / 4] (sample_fluid true false)))
  = 8.3144598
    / (1 * (1 / sum_upto 2
                   (fun j => get (massFractions
                                    (MassToMoleFractions [1 / 4] (sample_fluid true false))) j
                             / get [2; 2] j) / 1000)).
Proof.
  assert (H : forall i, (i < 2)%nat -> i = 0%nat \/ i = 1%nat) by (intros; lia).
  apply (ComputeGasConstant_harmonic_mean 8.3144598 [1 / 4] (sample_fluid true false)).
  - simpl; lia.
  - simpl; lia.
  - simpl; lia.
  - intros i Hi. assert (i = 0%nat) as -> by (simpl in Hi; lia). unfold get; simpl; lra.
  - unfold get; simpl; lra.
  - intros i Hi. destruct (H i Hi) as [-> | ->]; unfold get; simpl; lra.
Defined.

(** *** The Davidson rule on identical species *)

Lemma for_upto_acc_from (n : nat) (f : nat -> R) (a : R) :
  for_upto n (fun j acc => acc + f j) a = a + sum_upto n f.
Proof. induction n as [|n IH]; simpl; [lra | rewrite IH; lra]. Qed.

Lemma davidson_mixture_identical (ARRAYSIZE n : nat) (x lv MM : list R) (mu M : R) :
  (n <= ARRAYSIZE)%nat ->
  0 < mu -> 0 < M ->
  (forall i, (i < n)%nat -> get lv i = mu) ->
  (forall i, (i < n)%nat -> get MM i = M) ->
  sum_upto n (get x) = 1 ->
  let mixtureFractions :=
    for_upto n
      (fun j mixtureFractions =>
         <[j := (get x j * sqrt (get MM j))
                / for_upto n (fun i d => d + get x i * sqrt (get MM i)) 0]> mixtureFractions)
      (replicate ARRAYSIZE 0) in
  1.0 / for_upto n
          (fun i fluidity =>
             for_upto n
               (fun j fluidity =>
                  fluidity
                  + ((get mixtureFractions i * get mixtureFractions j)
                     / (sqrt (get lv i) * sqrt (get lv j)))
                    * pow ((2 * sqrt (get MM i) * sqrt (get MM j)) / (get MM i + get MM j))
                        0.375)
               fluidity)
          0 = mu.
Proof.
  intros Hn Hmu HM Hlv HMM Hx mixtureFractions.
  assert (HsM : 0 < sqrt M) by (apply sqrt_lt_R0; exact HM).
  assert (Hsmu : sqrt mu * sqrt mu = mu) by (apply sqrt_sqrt; lra).
  assert (HsMM : sqrt M * sqrt M = M) by (apply sqrt_sqrt; lra).
  assert (Hden : for_upto n (fun i d => d + get x i * sqrt (get MM i)) 0 = sqrt M).
  { rewrite (sum_upto_acc n (fun i => get x i * sqrt (get MM i))).
    rewrite (sum_upto_ext n _ (fun i => get x i * sqrt M))
      by (intros i Hi; rewrite HMM by exact Hi; reflexivity).
    rewrite sum_upto_scale, Hx. lra. }
  assert (Hmix : forall j, (j < n)%nat -> get mixtureFractions j = get x j).
  { intros j Hj. subst mixtureFractions. rewrite Hden.
    pose proof (get_fill_lt n (fun j => get x j * sqrt (get MM j) / sqrt M)
                  (replicate ARRAYSIZE 0) j Hj) as Hg.
    unfold fill in Hg. rewrite Hg by (rewrite length_replicate; lia).
    rewrite HMM by exact Hj. field. lra. }
  assert (Hterm : forall i j, (i < n)%nat -> (j < n)%nat ->
            ((get mixtureFractions i * get mixtureFractions j)
             / (sqrt (get lv i) * sqrt (get lv j)))
            * pow ((2 * sqrt (get MM i) * sqrt (get MM j)) / (get MM i + get MM j)) 0.375
            = get x i * get x j / mu).
  { intros i j Hi Hj.
    rewrite !Hmix, !Hlv, !HMM by assumption. rewrite Hsmu.
    replace (2 * sqrt M * sqrt M / (M + M)) with 1 by (rewrite Rmult_assoc, HsMM; field; lra).
    rewrite pow_one. lra. }
  assert (Hfl : for_upto n
                  (fun i fluidity =>
                     for_upto n
                       (fun j fluidity =>
                          fluidity
                          + ((get mixtureFractions i * get mixtureFractions j)
                             / (sqrt (get lv i) * sqrt (get lv j)))
                            * pow ((2 * sqrt (get MM i) * sqrt (get MM j))
                                   / (get MM i + get MM j)) 0.375)
                       fluidity)
                  0 = 1 / mu).
  { transitivity (sum_upto n (get x) / mu); [|rewrite Hx; reflexivity].
    apply (for_upto_ind (fun k fl => (k <= n)%nat -> fl = sum_upto k (get x) / mu));
      [intros _; simpl; lra | | lia].
    intros k fl Hk IH _. rewrite IH by lia. simpl.
    transitivity (sum_upto k (get x) / mu + get x k / mu * sum_upto n (get x));
      [|rewrite Hx; lra].
    apply (for_upto_ind (fun m acc =>
             (m <= n)%nat ->
             acc = sum_upto k (get x) / mu + get x k / mu * sum_upto m (get x)));
      [intros _; simpl; lra | | lia].
    intros m acc Hm IHm _. rewrite IHm by lia. rewrite Hterm by lia. simpl. lra. }
  rewrite Hfl. replace 1.0 with 1 by lra. field. lra.
Qed.

(** When all species have the same positive molar mass and every viscosity
    model yields the same positive viscosity, and the stored mole fractions
    sum to 1, [DavidsonViscosity] returns that viscosity. *)
Theorem DavidsonViscosity_identical_species (ARRAYSIZE : nat) (val_scalars : list R)
    (s : CFluidCantera) (mu M : R) :
  let n := n_species_mixture s in
  (n <= ARRAYSIZE)%nat ->
  0 < mu -> 0 < M ->
  (n <= length (laminarViscosity s))%nat ->
  (forall i, (i < n)%nat -> get (molarMasses s) i = M) ->
  (forall i, (i < n)%nat ->
     exists m, LaminarViscosityPointers s !! i = Some (Some m) /\
               m (Temperature (base s)) (Density (base s)) = mu) ->
  sum_upto n (get (moleFractions s)) = 1 ->
  snd (DavidsonViscosity ARRAYSIZE val_scalars s) = mu.
Proof.
  intros n Hn Hmu HM Hlen HMM Hvisc Hx.
  pose proof (DavidsonViscosity_state ARRAYSIZE val_scalars s) as Hst.
  unfold DavidsonViscosity in *. cbn [fst snd] in *. rewrite Hst.
  cbn [n_species_mixture moleFractions laminarViscosity molarMasses set_laminarViscosity].
  apply (davidson_mixture_identical ARRAYSIZE n (moleFractions s) _ (molarMasses s) mu M);
    auto.
  intros i Hi. rewrite get_fill_lt by (fold n; lia).
  destruct (Hvisc i Hi) as (m & Hm & Hval). unfold viscosity_of. now rewrite Hm.
Qed.

Lemma DavidsonViscosity_identical_species_witness :
  snd (DavidsonViscosity 2 [1 / 4] (sample_fluid false true)) = 3.
Proof.
  assert (H : forall i, (i < 2)%nat -> i = 0%nat \/ i = 1%nat) by (intros; lia).
  apply (DavidsonViscosity_identical_species 2 [1 / 4] (sample_fluid false true) 3 2).
  - simpl; lia.
  - lra.
  - lra.
  - simpl; lia.
  - intros i Hi. destruct (H i Hi) as [-> | ->]; reflexivity.
  - intros i Hi. destruct (H i Hi) as [-> | ->]; eexists; split; reflexivity.
  - unfold get; simpl; lra.
Defined.

(** *** What [SetTDState_T] keeps *)

Lemma array_kept_refl (n : nat) (a : list R) : array_kept n a a.
Proof. split; reflexivity. Qed.

Lemma array_kept_trans (n : nat) (a b c : list R) :
  array_kept n a b -> array_kept n b c -> array_kept n a c.
Proof.
  intros [Hl1 H1] [Hl2 H2]. split; [congruence|].
  intros i Hi. rewrite H2, H1 by exact Hi. reflexivity.
Qed.

Lemma array_kept_fill (n m : nat) (g : nat -> R) (a : list R) :
  (m <= n)%nat -> array_kept n a (fill m g a).
Proof.
  intros Hm. split; [apply length_fill|].
  intros i Hi. apply lookup_fill_ge. lia.
Qed.

Lemma array_kept_insert (n i : nat) (v : R) (a : list R) :
  (i < n)%nat -> array_kept n a (<[i := v]> a).
Proof.
  intros Hi. split; [apply length_insert|].
  intros j Hj. apply list_lookup_insert_ne. lia.
Qed.

Create HintDb kept.

#[local] Hint Resolve array_kept_refl array_kept_fill array_kept_insert : kept.

Ltac fields :=
  cbn [base n_species_mixture Gas_Constant Gamma Pressure_Thermodynamic GasConstant_Ref
       Prandtl_Number wilke davidson molarMasses specificHeat massFractions moleFractions
       laminarViscosity laminarThermalConductivity massDiffusivity LaminarViscosityPointers
       ThermalConductivityPointers MassDiffusivityPointers with_base set_Gas_Constant
       set_molarMasses set_specificHeat set_massFractions set_moleFractions
       set_laminarViscosity set_laminarThermalConductivity set_massDiffusivity
       set_LaminarViscosityPointers set_ThermalConductivityPointers
       set_MassDiffusivityPointers Temperature Density Cp Cv Mu Kt set_Temperature
       set_Density set_Cp set_Cv set_Mu set_Kt].

Ltac split_all := repeat match goal with |- _ /\ _ => split end.

Lemma kept_refl (s : CFluidCantera) : kept s s.
Proof. unfold kept. split_all; auto with kept. Qed.

Lemma kept_trans (s1 s2 s3 : CFluidCantera) : kept s1 s2 -> kept s2 s3 -> kept s1 s3.
Proof.
  unfold kept.
  intros (Hn & H1 & H2 & H3 & H4 & H5 & H6 & H7 & H8 & H9 & H10 & H11
          & A1 & A2 & A3 & A4 & A5)
         (Hn' & H1' & H2' & H3' & H4' & H5' & H6' & H7' & H8' & H9' & H10' & H11'
          & A1' & A2' & A3' & A4' & A5').
  rewrite Hn in A1', A2', A3', A4', A5'.
  split_all; try congruence; eauto using array_kept_trans.
Qed.

Lemma MassToMoleFractions_kept (val_scalars : list R) (s : CFluidCantera) :
  (1 <= n_species_mixture s)%nat -> kept s (MassToMoleFractions val_scalars s).
Proof.
  intros Hn. rewrite MassToMoleFractions_eq. unfold kept.
  cbn [n_species_mixture Gamma Pressure_Thermodynamic GasConstant_Ref Prandtl_Number wilke
       davidson molarMasses specificHeat LaminarViscosityPointers ThermalConductivityPointers
       MassDiffusivityPointers massFractions moleFractions laminarViscosity
       laminarThermalConductivity massDiffusivity set_moleFractions set_massFractions].
  split_all; auto with kept.
  apply array_kept_trans with (fill (n_species_mixture s - 1) (get val_scalars) (massFractions s)).
  - apply array_kept_fill. lia.
  - apply array_kept_insert. lia.
Qed.

Lemma SetTDState_T_viscosity_eq (ARRAYSIZE : nat) (val_scalars : list R) (s : CFluidCantera) :
  let lv := fill (n_species_mixture s)
              (fun i => viscosity_of (LaminarViscosityPointers s) i
                          (Temperature (base s)) (Density (base s)))
              (laminarViscosity s) in
  SetTDState_T_viscosity ARRAYSIZE val_scalars s =
  if wilke s then
    with_base (set_Mu (snd (WilkeViscosity val_scalars s))) (set_laminarViscosity lv s)
  else if davidson s then
    with_base (set_Mu (snd (DavidsonViscosity ARRAYSIZE val_scalars s)))
      (set_laminarViscosity lv s)
  else s.
Proof.
  cbv zeta. unfold SetTDState_T_viscosity.
  destruct (wilke s); [|destruct (davidson s)]; [| |reflexivity].
  - pose proof (WilkeViscosity_state val_scalars s) as H.
    destruct (WilkeViscosity val_scalars s) as [s1 mu]. cbn in *. now rewrite H.
  - pose proof (DavidsonViscosity_state ARRAYSIZE val_scalars s) as H.
    destruct (DavidsonViscosity ARRAYSIZE val_scalars s) as [s1 mu]. cbn in *. now rewrite H.
Qed.

Lemma SetTDState_T_thermo_kept (UNIVERSAL_GAS_CONSTANT val_temperature : R)
    (val_scalars : list R) (s : CFluidCantera) :
  (1 <= n_species_mixture s)%nat ->
  kept s (SetTDState_T_thermo UNIVERSAL_GAS_CONSTANT val_temperature val_scalars s).
Proof.
  intros Hn. apply kept_trans with (MassToMoleFractions val_scalars s);
    [apply MassToMoleFractions_kept; exact Hn|].
  rewrite SetTDState_T_thermo_eq. unfold kept. fields. split_all; auto with kept.
Qed.

Lemma SetTDState_T_viscosity_kept (ARRAYSIZE : nat) (val_scalars : list R)
    (s : CFluidCantera) :
  kept s (SetTDState_T_viscosity ARRAYSIZE val_scalars s).
Proof.
  rewrite SetTDState_T_viscosity_eq.
  destruct (wilke s) eqn:Hw; [|destruct (davidson s) eqn:Hd]; [| |apply kept_refl];
    unfold kept; fields; rewrite ?Hw, ?Hd; split_all; auto with kept.
Qed.

Lemma SetTDState_T_transport_kept (val_scalars : list R) (s : CFluidCantera) :
  kept s (ComputeMassDiffusivity
            (with_base (set_Kt (snd (WilkeConductivity val_scalars s)))
               (fst (WilkeConductivity val_scalars s)))).
Proof.
  rewrite ComputeMassDiffusivity_eq, WilkeConductivity_state.
  unfold kept. fields. split_all; auto with kept.
Qed.

Lemma SetTDState_T_kept (ARRAYSIZE : nat) (UNIVERSAL_GAS_CONSTANT val_temperature : R)
    (val_scalars : list R) (s : CFluidCantera) :
  (1 <= n_species_mixture s)%nat ->
  kept s (fst (SetTDState_T ARRAYSIZE UNIVERSAL_GAS_CONSTANT val_temperature val_scalars s)).
Proof.
  intros Hn. rewrite SetTDState_T_fst.
  eapply kept_trans; [apply SetTDState_T_thermo_kept; exact Hn|].
  eapply kept_trans; [apply SetTDState_T_viscosity_kept|].
  apply SetTDState_T_transport_kept.
Qed.


Lemma SetTDState_T_calls_cons (ARRAYSIZE : nat) (UNIVERSAL_GAS_CONSTANT : R)
    (val_temperature : R) (val_scalars : list R) (calls : list (R * list R))
    (s : CFluidCantera) :
  SetTDState_T_calls ARRAYSIZE UNIVERSAL_GAS_CONSTANT s ((val_temperature, val_scalars) :: calls)
  = SetTDState_T_calls ARRAYSIZE UNIVERSAL_GAS_CONSTANT
      (fst (SetTDState_T ARRAYSIZE UNIVERSAL_GAS_CONSTANT val_temperature val_scalars s)) calls.
Proof. cbn [SetTDState_T_calls]. reflexivity. Qed.

(** However many times [SetTDState_T] is called, the species count, the
    constants and flags set by the constructor, the molar masses, specific
    heats and property models stay as they were, no array changes size, and
    no array entry at or beyond [n_species_mixture] is written. *)
Theorem SetTDState_T_calls_kept (ARRAYSIZE : nat) (UNIVERSAL_GAS_CONSTANT : R)
    (calls : list (R * list R)) (s : CFluidCantera) :
  (1 <= n_species_mixture s)%nat ->
  kept s (SetTDState_T_calls ARRAYSIZE UNIVERSAL_GAS_CONSTANT s calls).
Proof.
  revert s. induction calls as [|[val_temperature val_scalars] calls IH]; intros s Hn.
  - apply kept_refl.
  - rewrite SetTDState_T_calls_cons.
    pose proof (SetTDState_T_kept ARRAYSIZE UNIVERSAL_GAS_CONSTANT val_temperature
                  val_scalars s Hn) as Hstep.
    generalize dependent (fst (SetTDState_T ARRAYSIZE UNIVERSAL_GAS_CONSTANT val_temperature
                  val_scalars s)).
    intros s1 Hstep.
    apply kept_trans with s1; [exact Hstep|].
    apply IH. destruct Hstep as (Hn1 & _). rewrite Hn1. exact Hn.
Qed.
Lemma SetTDState_T_calls_kept_witness :
  kept (sample_fluid true false)
    (SetTDState_T_calls 2 8.3144598 (sample_fluid true false) [(500, [1 / 4]); (600, [1 / 2])]).
Proof.
  apply (SetTDState_T_calls_kept 2 8.3144598 [(500, [1 / 4]); (600, [1 / 2])]
           (sample_fluid true false)).
  simpl. lia.
Defined.

Lemma kept_well_formed (ARRAYSIZE : nat) (s s' : CFluidCantera) :
  well_formed ARRAYSIZE s -> kept s s' -> well_formed ARRAYSIZE s'.
Proof.
  unfold well_formed, kept.
  intros (Hn & L1 & L2 & L3 & L4 & L5 & L6 & L7 & Hptr)
         (Hn' & _ & _ & _ & _ & _ & _ & HM & Hcp & P1 & P2 & P3
          & [A1 _] & [A2 _] & [A3 _] & [A4 _] & [A5 _]).
  rewrite Hn', HM, Hcp, P1, P2, P3, A1, A2, A3, A4, A5.
  split_all; auto; lia.
Qed.

(** The size invariant holds for every object the constructor yields and
    is kept by every later [SetTDState_T] call: at any time the arrays hold
    [ARRAYSIZE] entries, the species count is between 1 and [ARRAYSIZE], and
    the first [n_species_mixture] model slots are filled. *)
Theorem well_formed_invariant (ARRAYSIZE : nat) (UNIVERSAL_GAS_CONSTANT : R)
    (MakeLaminarViscosityModel : CConfig -> nat -> CViscosityModel)
    (MakeThermalConductivityModel : CConfig -> nat -> CConductivityModel)
    (MakeMassDiffusivityModel : CConfig -> nat -> CDiffusivityModel)
    (val_Cp val_gas_constant value_pressure_operating : R) (config : CConfig)
    (s : CFluidCantera) (calls : list (R * list R)) :
  CFluidCantera_ctor ARRAYSIZE MakeLaminarViscosityModel MakeThermalConductivityModel
    MakeMassDiffusivityModel val_Cp val_gas_constant value_pressure_operating config = Ok s ->
  well_formed ARRAYSIZE (SetTDState_T_calls ARRAYSIZE UNIVERSAL_GAS_CONSTANT s calls).
Proof.
  intros Hs.
  assert (Hwf : well_formed ARRAYSIZE s).
  { destruct (decide (ARRAYSIZE < GetnSpecies config + 1)%nat) as [Hbig|Hfit].
    - rewrite CFluidCantera_ctor_too_many in Hs by exact Hbig. discriminate.
    - rewrite CFluidCantera_ctor_fits in Hs by lia. injection Hs as <-.
      unfold well_formed. fields. unfold initialised. fields.
      rewrite !length_fill, !length_replicate.
      split_all; try reflexivity; try lia.
      intros i Hi. rewrite !lookup_fill_lt by (rewrite ?length_replicate; lia).
      split_all; eauto. }
  apply kept_well_formed with s; [exact Hwf|].
  apply SetTDState_T_calls_kept. destruct Hwf as ([Hn _] & _). exact Hn.
Qed.

Lemma well_formed_invariant_witness :
  exists s,
    CFluidCantera_ctor 16 (fun _ _ _ _ => 3) (fun _ _ _ _ _ _ _ _ _ => 5)
      (fun _ _ _ _ _ _ => 11) 1 1 101325 sample_config = Ok s /\
    well_formed 16 (SetTDState_T_calls 16 8.3144598 s [(500, [1 / 4]); (600, [1 / 2])]).
Proof.
  eexists. split.
  - apply CFluidCantera_ctor_fits. simpl. lia.
  - apply (well_formed_invariant 16 8.3144598 (fun _ _ _ _ => 3) (fun _ _ _ _ _ _ _ _ _ => 5)
             (fun _ _ _ _ _ _ => 11) 1 1 101325 sample_config).
    apply CFluidCantera_ctor_fits. simpl. lia.
Defined.

(** *** The thermodynamic state [SetTDState_T] leaves *)

Lemma transport_part_values (val_scalars : list R) (s : CFluidCantera) :
  let s' := ComputeMassDiffusivity
              (with_base (set_Kt (snd (WilkeConductivity val_scalars s)))
                 (fst (WilkeConductivity val_scalars s))) in
  Gas_Constant s' = Gas_Constant s /\
  Pressure_Thermodynamic s' = Pressure_Thermodynamic s /\
  Temperature (base s') = Temperature (base s) /\
  Density (base s') = Density (base s) /\
  Cp (base s') = Cp (base s) /\
  Cv (base s') = Cv (base s).
Proof.
  cbv zeta. rewrite ComputeMassDiffusivity_eq, WilkeConductivity_state.
  generalize (snd (WilkeConductivity val_scalars s)). intros kt.
  fields. split_all; reflexivity.
Qed.

Lemma viscosity_part_values (ARRAYSIZE : nat) (val_scalars : list R) (s : CFluidCantera) :
  let s' := SetTDState_T_viscosity ARRAYSIZE val_scalars s in
  Gas_Constant s' = Gas_Constant s /\
  Pressure_Thermodynamic s' = Pressure_Thermodynamic s /\
  Temperature (base s') = Temperature (base s) /\
  Density (base s') = Density (base s) /\
  Cp (base s') = Cp (base s) /\
  Cv (base s') = Cv (base s).
Proof.
  cbv zeta. rewrite SetTDState_T_viscosity_eq.
  generalize (snd (WilkeViscosity val_scalars s)). intros muW.
  generalize (snd (DavidsonViscosity ARRAYSIZE val_scalars s)). intros muD.
  destruct (wilke s); [|destruct (davidson s)]; fields; split_all; reflexivity.
Qed.

Lemma thermo_part_values (UNIVERSAL_GAS_CONSTANT val_temperature : R)
    (val_scalars : list R) (s : CFluidCantera) :
  let s0 := MassToMoleFractions val_scalars s in
  let Rgas := snd (ComputeGasConstant UNIVERSAL_GAS_CONSTANT s0) in
  let s' := SetTDState_T_thermo UNIVERSAL_GAS_CONSTANT val_temperature val_scalars s in
  Gas_Constant s' = Rgas /\
  Pressure_Thermodynamic s' = Pressure_Thermodynamic s /\
  Temperature (base s') = val_temperature /\
  Density (base s') = Pressure_Thermodynamic s / (val_temperature * Rgas) /\
  Cp (base s') = ComputeMeanSpecificHeatCp val_scalars s0 /\
  Cv (base s') = ComputeMeanSpecificHeatCp val_scalars s0 - Rgas.
Proof.
  cbv zeta. rewrite SetTDState_T_thermo_eq.
  assert (HP : Pressure_Thermodynamic (MassToMoleFractions val_scalars s)
               = Pressure_Thermodynamic s)
    by (rewrite MassToMoleFractions_eq; reflexivity).
  generalize dependent (MassToMoleFractions val_scalars s). intros s0 HP.
  generalize (snd (ComputeGasConstant UNIVERSAL_GAS_CONSTANT s0)). intros Rgas.
  generalize (ComputeMeanSpecificHeatCp val_scalars s0). intros cp.
  fields. split_all; auto.
Qed.

Lemma SetTDState_T_thermo_values (ARRAYSIZE : nat) (UNIVERSAL_GAS_CONSTANT val_temperature : R)
    (val_scalars : list R) (s : CFluidCantera) :
  let s0 := MassToMoleFractions val_scalars s in
  let Rgas := snd (ComputeGasConstant UNIVERSAL_GAS_CONSTANT s0) in
  let s' := fst (SetTDState_T ARRAYSIZE UNIVERSAL_GAS_CONSTANT val_temperature val_scalars s) in
  Gas_Constant s' = Rgas /\
  Pressure_Thermodynamic s' = Pressure_Thermodynamic s /\
  Temperature (base s') = val_temperature /\
  Density (base s') = Pressure_Thermodynamic s / (val_temperature * Rgas) /\
  Cp (base s') = ComputeMeanSpecificHeatCp val_scalars s0 /\
  Cv (base s') = ComputeMeanSpecificHeatCp val_scalars s0 - Rgas.
Proof.
  cbv zeta. rewrite SetTDState_T_fst.
  destruct (transport_part_values val_scalars
              (SetTDState_T_viscosity ARRAYSIZE val_scalars
                 (SetTDState_T_thermo UNIVERSAL_GAS_CONSTANT val_temperature val_scalars s)))
    as (-> & -> & -> & -> & -> & ->).
  destruct (viscosity_part_values ARRAYSIZE val_scalars
              (SetTDState_T_thermo UNIVERSAL_GAS_CONSTANT val_temperature val_scalars s))
    as (-> & -> & -> & -> & -> & ->).
  apply thermo_part_values.
Qed.

(** After every call the stored state obeys the ideal-gas law
    [Density * Temperature * Gas_Constant = Pressure_Thermodynamic] (as long
    as [Temperature * Gas_Constant] is not zero) and Mayer's relation
    [Cp - Cv = Gas_Constant], at the temperature that was passed in. *)
Theorem SetTDState_T_ideal_gas (ARRAYSIZE : nat) (UNIVERSAL_GAS_CONSTANT val_temperature : R)
    (val_scalars : list R) (s : CFluidCantera) :
  let s' := fst (SetTDState_T ARRAYSIZE UNIVERSAL_GAS_CONSTANT val_temperature val_scalars s) in
  val_temperature * Gas_Constant s' <> 0 ->
  Temperature (base s') = val_temperature /\
  Density (base s') * (Temperature (base s') * Gas_Constant s') = Pressure_Thermodynamic s' /\
  Cp (base s') - Cv (base s') = Gas_Constant s'.
Proof.
  cbv zeta.
  destruct (SetTDState_T_thermo_values ARRAYSIZE UNIVERSAL_GAS_CONSTANT val_temperature
              val_scalars s) as (HR & HP & HT & HD & HCp & HCv).
  rewrite HR, HP, HT, HD, HCp, HCv.
  generalize (snd (ComputeGasConstant UNIVERSAL_GAS_CONSTANT
                     (MassToMoleFractions val_scalars s))).
  generalize (ComputeMeanSpecificHeatCp val_scalars (MassToMoleFractions val_scalars s)).
  intros cp Rgas Hnz.
  split_all; [reflexivity | | lra].
  unfold Rdiv. rewrite Rmult_assoc, Rinv_l by exact Hnz. lra.
Qed.

Lemma SetTDState_T_ideal_gas_witness :
  Density (base (fst (SetTDState_T 2 8.3144598 500 [1 / 4] (sample_fluid true false))))
  * (Temperature (base (fst (SetTDState_T 2 8.3144598 500 [1 / 4] (sample_fluid true false))))
     * Gas_Constant (fst (SetTDState_T 2 8.3144598 500 [1 / 4] (sample_fluid true false))))
  = Pressure_Thermodynamic (fst (SetTDState_T 2 8.3144598 500 [1 / 4] (sample_fluid true false))).
Proof.
  apply (SetTDState_T_ideal_gas 2 8.3144598 500 [1 / 4] (sample_fluid true false)).
  destruct (SetTDState_T_thermo_values 2 8.3144598 500 [1 / 4] (sample_fluid true false))
    as (-> & _).
  unfold ComputeGasConstant, MassToMoleFractions. simpl. unfold get. simpl.
  lra.
Defined.

End FluidCanteraMore.

(** ** Further properties of the driver's accessors *)

Module PythonWrapperRestTheory.
Import PythonWrapper PythonWrapperRest PythonWrapperTheory.

Ltac split_conj := repeat match goal with |- _ /\ _ => split end.

Lemma push_back_all_S {T : Type} (n : nat) (f : nat -> outcome T) :
  push_back_all (S n) f = vs ← push_back_all n f; v ← f n; Ok (vs ++ [v]).
Proof. reflexivity. Qed.

Lemma push_back_all_ok {T : Type} (n : nat) (f : nat -> outcome T) (g : nat -> T) :
  (forall i, (i < n)%nat -> f i = Ok (g i)) ->
  push_back_all n f = Ok (map g (seq 0 n)).
Proof.
  induction n as [|n IH]; intros Hf; [reflexivity|].
  rewrite push_back_all_S, IH by (intros i Hi; apply Hf; lia).
  rewrite (Hf n) by lia. rewrite seq_S, map_app. reflexivity.
Qed.

Lemma push_back_all_first_error {T : Type} (n : nat) (f : nat -> outcome T) (msg : string) :
  (0 < n)%nat -> f 0%nat = Error msg -> push_back_all n f = Error msg.
Proof.
  intros Hn H0. induction n as [|n IH]; [lia|].
  rewrite push_back_all_S. destruct n as [|n].
  - cbn. rewrite H0. reflexivity.
  - rewrite IH by lia. reflexivity.
Qed.

(** With a fluid problem configured, the whole-mesh getters of the laminar
    viscosity, the eddy viscosity and the thermal conductivity return one
    value per mesh point, in point order: the solver's entry, resp.
    [Cp * (mu / Pr)] with the point's laminar viscosity. *)
Theorem whole_mesh_getters_values (d : CDriver) :
  GetFluidProblem (main_config d) = true ->
  GetLaminarViscosities_all d
  = Ok (map (GetLaminarViscosity (FLOW_SOL d)) (seq 0 (GetNumberVertices d))) /\
  GetEddyViscosities_all d
  = Ok (map (GetEddyViscosity (FLOW_SOL d)) (seq 0 (GetNumberVertices d))) /\
  GetThermalConductivities_all d
  = Ok (map (fun iPoint =>
               (GetGamma (main_config d) / (GetGamma (main_config d) - 1)
                * GetGas_ConstantND (main_config d))
               * (GetLaminarViscosity (FLOW_SOL d) iPoint / GetPrandtl_Lam (main_config d)))
          (seq 0 (GetNumberVertices d))).
Proof.
  intros Hf. split_conj.
  - apply push_back_all_ok. intros i Hi.
    unfold GetLaminarViscosities. now rewrite flow_in_range.
  - apply push_back_all_ok. intros i Hi.
    unfold GetEddyViscosities. now rewrite flow_in_range.
  - apply push_back_all_ok. intros i Hi.
    unfold GetThermalConductivities. rewrite flow_in_range by assumption.
    cbv zeta. replace 1.0 with 1 by lra. reflexivity.
Qed.

Lemma whole_mesh_getters_values_witness :
  GetLaminarViscosities_all (sample_driver true false) = Ok [1; 1; 1] /\
  GetEddyViscosities_all (sample_driver true false) = Ok [2; 2; 2].
Proof.
  destruct (whole_mesh_getters_values (sample_driver true false)) as (Hlam & Heddy & _).
  - reflexivity.
  - split; [exact Hlam | exact Heddy].
Defined.

(** Without a fluid problem the whole-mesh flow getters stop with "Flow
    solver is not defined!" as soon as the mesh has a point; on an empty
    mesh no guard is reached and they return the empty list. *)
Theorem whole_mesh_getters_without_solver (d : CDriver) :
  GetFluidProblem (main_config d) = false ->
  GetLaminarViscosities_all d
  = (if (GetNumberVertices d =? 0)%nat then Ok [] else Error "Flow solver is not defined!") /\
  GetEddyViscosities_all d
  = (if (GetNumberVertices d =? 0)%nat then Ok [] else Error "Flow solver is not defined!") /\
  GetThermalConductivities_all d
  = (if (GetNumberVertices d =? 0)%nat then Ok [] else Error "Flow solver is not defined!") /\
  GetHeatFluxes_all d
  = (if (GetNumberVertices d =? 0)%nat then Ok [] else Error "Flow solver is not defined!").
Proof.
  intros Hf.
  unfold GetLaminarViscosities_all, GetEddyViscosities_all, GetThermalConductivities_all,
    GetHeatFluxes_all.
  destruct (GetNumberVertices d) as [|n] eqn:Hn; [split_conj; reflexivity|].
  cbn [Nat.eqb].
  split_conj; apply push_back_all_first_error; try lia.
  - unfold GetLaminarViscosities. now rewrite Hf.
  - unfold GetEddyViscosities. now rewrite Hf.
  - unfold GetThermalConductivities. now rewrite Hf.
  - unfold GetHeatFluxes. now rewrite Hf.
Qed.

Lemma whole_mesh_getters_without_solver_witness :
  GetLaminarViscosities_all (sample_driver false false) = Error "Flow solver is not defined!".
Proof.
  apply (whole_mesh_getters_without_solver (sample_driver false false)). reflexivity.
Defined.

(** With the residual-based discrete adjoint configured, the whole-mesh
    sensitivity getters return one row per mesh point, in point order: the
    [nVar] objective sensitivities with respect to the states, resp. the
    [nDim] residual sensitivities with respect to the coordinates. *)
Theorem whole_mesh_sensitivities_rows (d : CDriver) :
  GetFluidProblem (main_config d) = true ->
  GetDiscrete_Adjoint (main_config d) = true ->
  GetKind_DiscreteAdjoint (main_config d) = RESIDUALS ->
  GetObjectiveStatesSensitivities_all d
  = Ok (map (fun iPoint =>
               map (GetSens_dObjective_dStates (ADJFLOW_SOL d) iPoint)
                 (seq 0 (GetnVar (FLOW_SOL d))))
          (seq 0 (GetNumberVertices d))) /\
  GetResidualsCoordinatesSensitivities_all d
  = Ok (map (fun iPoint =>
               map (GetProd_dResiduals_dCoordinates (ADJFLOW_SOL d) iPoint) (seq 0 (nDim d)))
          (seq 0 (GetNumberVertices d))).
Proof.
  intros Hf Ha Hk. split.
  - apply push_back_all_ok. intros i Hi.
    unfold GetObjectiveStatesSensitivities, GetNumberStateVariables.
    rewrite guarded_in_range by assumption. rewrite Hf.
    cbn [negb error_if mbind outcome_bind]. now rewrite fill_values_map.
  - apply push_back_all_ok. intros i Hi.
    unfold GetResidualsCoordinatesSensitivities.
    rewrite guarded_in_range by assumption. now rewrite fill_values_map.
Qed.

Lemma whole_mesh_sensitivities_rows_witness :
  GetResidualsCoordinatesSensitivities_all (sample_driver true true)
  = Ok [[6; 6]; [6; 6]; [6; 6]].
Proof.
  destruct (whole_mesh_sensitivities_rows (sample_driver true true)) as (_ & H);
    [reflexivity | reflexivity | reflexivity | exact H].
Defined.

(** A per-vertex marker getter agrees with the per-point getter at the mesh
    point of the vertex, whenever that point is a point of the mesh: same
    value, same error. *)
Theorem marker_getters_agree_with_point_getters (d : CDriver) (iMarker iVertex iPoint : nat) :
  GetMarkerVertexIndices d iMarker iVertex = Ok iPoint ->
  (iPoint < GetNumberVertices d)%nat ->
  GetMarkerLaminarViscosities d iMarker iVertex = GetLaminarViscosities d iPoint /\
  GetMarkerEddyViscosities d iMarker iVertex = GetEddyViscosities d iPoint /\
  GetMarkerThermalConductivities d iMarker iVertex = GetThermalConductivities d iPoint /\
  GetMarkerHeatFluxes d iMarker iVertex = GetHeatFluxes d iPoint /\
  GetMarkerSpeedOfSound d iMarker iVertex = GetSpeedOfSound d iPoint.
Proof.
  intros Hv Hp.
  unfold GetMarkerLaminarViscosities, GetLaminarViscosities, GetMarkerEddyViscosities,
    GetEddyViscosities, GetMarkerThermalConductivities, GetThermalConductivities,
    GetMarkerHeatFluxes, GetHeatFluxes, GetMarkerSpeedOfSound, GetSpeedOfSound.
  rewrite Hv, (proj2 (Nat.leb_gt _ _) Hp).
  destruct (GetFluidProblem (main_config d)); split_conj; reflexivity.
Qed.

Lemma marker_getters_agree_with_point_getters_witness :
  GetMarkerLaminarViscosities (sample_driver true false) 0 1
  = GetLaminarViscosities (sample_driver true false) 2.
Proof.
  apply (marker_getters_agree_with_point_getters (sample_driver true false) 0 1 2).
  - reflexivity.
  - simpl. lia.
Defined.

(** In the compressible regime the heat flux at a point is Fourier's law
    with the conductivity the sibling accessor returns:
    [q_i = - k * dT/dx_i] for each of the [nDim] directions.  In any other
    regime all components are zero. *)
Theorem GetHeatFluxes_fourier (d : CDriver) (iPoint : nat) (k : R) :
  GetThermalConductivities d iPoint = Ok k ->
  GetHeatFluxes d iPoint
  = Ok (if bool_decide (GetKind_Regime (main_config d) = COMPRESSIBLE) then
          map (fun iDim => - k * GetGradient_Primitive (FLOW_SOL d) iPoint 0 iDim)
            (seq 0 (nDim d))
        else replicate (nDim d) 0).
Proof.
  unfold GetThermalConductivities, GetHeatFluxes.
  destruct (GetFluidProblem (main_config d)); cbn; [|discriminate].
  destruct (GetNumberVertices d <=? iPoint)%nat; cbn; [discriminate|].
  intros [= <-].
  destruct (bool_decide (GetKind_Regime (main_config d) = COMPRESSIBLE)); cbn [negb].
  - f_equal.
    apply (fill_replicate (nDim d)
             (fun iDim =>
                - ((GetGamma (main_config d) / (GetGamma (main_config d) - 1.0)
                    * GetGas_ConstantND (main_config d))
                   * (GetLaminarViscosity (FLOW_SOL d) iPoint / GetPrandtl_Lam (main_config d)))
                * GetGradient_Primitive (FLOW_SOL d) iPoint 0 iDim) 0.0).
  - f_equal. f_equal. lra.
Qed.

Lemma GetHeatFluxes_fourier_witness :
  GetHeatFluxes (sample_driver true false) 1 = Ok [- 2 * 3; - 2 * 3].
Proof.
  assert (H : GetThermalConductivities (sample_driver true false) 1 = Ok 2).
  { unfold GetThermalConductivities. cbn. f_equal. lra. }
  exact (GetHeatFluxes_fourier (sample_driver true false) 1 2 H).
Defined.

(** *** No value without a solver and a valid index *)

Lemma error_if_ok_inv (cond : bool) (msg : string) {T : Type} (k : outcome T) (v : T) :
  (_ ← error_if cond msg; k) = Ok v -> cond = false /\ k = Ok v.
Proof. destruct cond; cbn; [discriminate | auto]. Qed.

Lemma adjoint_residuals_guard_ok_inv (d : CDriver) {T : Type} (k : outcome T) (v : T) :
  (_ ← adjoint_residuals_guard d; k) = Ok v ->
  GetFluidProblem (main_config d) = true /\
  GetDiscrete_Adjoint (main_config d) = true /\
  GetKind_DiscreteAdjoint (main_config d) = RESIDUALS /\
  k = Ok v.
Proof.
  unfold adjoint_residuals_guard.
  destruct (GetFluidProblem (main_config d)), (GetDiscrete_Adjoint (main_config d));
    cbn; try discriminate.
  case_bool_decide; cbn; [auto | discriminate].
Qed.

(** A per-point accessor that returns a value was called with an index
    inside the mesh and with its solver configured: a fluid problem for the
    flow accessors, and a residual-based discrete adjoint as well for the
    sensitivity getters.  It never reads outside the mesh. *)
Theorem per_point_value_implies_guards (d : CDriver) (iPoint : nat) :
  (forall v, GetLaminarViscosities d iPoint = Ok v \/ GetEddyViscosities d iPoint = Ok v
             \/ GetThermalConductivities d iPoint = Ok v ->
     (iPoint < GetNumberVertices d)%nat /\ GetFluidProblem (main_config d) = true) /\
  (forall v, GetHeatFluxes d iPoint = Ok v ->
     (iPoint < GetNumberVertices d)%nat /\ GetFluidProblem (main_config d) = true) /\
  (forall v, GetCoordinatesCoordinatesSensitivities d iPoint = Ok v
             \/ GetObjectiveStatesSensitivities d iPoint = Ok v
             \/ GetResidualsStatesSensitivities d iPoint = Ok v
             \/ GetForcesStatesSensitivities d iPoint = Ok v
             \/ GetObjectiveCoordinatesSensitivities d iPoint = Ok v
             \/ GetResidualsCoordinatesSensitivities d iPoint = Ok v
             \/ GetForcesCoordinatesSensitivities d iPoint = Ok v ->
     (iPoint < GetNumberVertices d)%nat /\
     GetFluidProblem (main_config d) = true /\
     GetDiscrete_Adjoint (main_config d) = true /\
     GetKind_DiscreteAdjoint (main_config d) = RESIDUALS).
Proof.
  split_conj.
  - intros v H.
    unfold GetLaminarViscosities, GetEddyViscosities, GetThermalConductivities in H.
    destruct H as [H | [H | H]];
      apply error_if_ok_inv in H as [Hf H]; apply error_if_ok_inv in H as [Hb _];
      apply Nat.leb_gt in Hb; split; [exact Hb | | exact Hb | | exact Hb | ];
      destruct (GetFluidProblem (main_config d)); auto; discriminate.
  - intros v H. unfold GetHeatFluxes in H.
    apply error_if_ok_inv in H as [Hf H]. apply error_if_ok_inv in H as [Hb _].
    apply Nat.leb_gt in Hb. split; [exact Hb|].
    destruct (GetFluidProblem (main_config d)); auto; discriminate.
  - intros v H.
    unfold GetCoordinatesCoordinatesSensitivities, GetObjectiveStatesSensitivities,
      GetResidualsStatesSensitivities, GetForcesStatesSensitivities,
      GetObjectiveCoordinatesSensitivities, GetResidualsCoordinatesSensitivities,
      GetForcesCoordinatesSensitivities in H.
    repeat destruct H as [H | H];
      apply adjoint_residuals_guard_ok_inv in H as (Hf & Ha & Hk & H);
      apply error_if_ok_inv in H as [Hb _]; apply Nat.leb_gt in Hb; auto.
Qed.

Lemma per_point_value_implies_guards_witness :
  GetObjectiveStatesSensitivities (sample_driver true true) 1 = Ok [2; 2; 2; 2] /\
  (1 < GetNumberVertices (sample_driver true true))%nat /\
  GetDiscrete_Adjoint (main_config (sample_driver true true)) = true.
Proof.
  assert (Hv : GetObjectiveStatesSensitivities (sample_driver true true) 1 = Ok [2; 2; 2; 2])
    by reflexivity.
  destruct (per_point_value_implies_guards (sample_driver true true) 1) as (_ & _ & Hadj).
  destruct (Hadj [2; 2; 2; 2]) as (Hb & _ & Ha & _); [auto 10|].
  split; [exact Hv | split; [exact Hb | exact Ha]].
Defined.

(** *** Whole-marker getters that use their own per-vertex getter *)

(** The whole-marker getters of the laminar viscosity, the thermal
    conductivity and the normal heat flux return the values of their own
    per-vertex getter over the marker's vertices, in order. *)
Theorem marker_getters_refine_spec (d : CDriver) (GetNormal : nat -> nat -> nat -> R)
    (Norm : nat -> (nat -> R) -> R) (iMarker : nat) :
  GetMarkerLaminarViscosities_all d iMarker
  = marker_values_spec d (GetMarkerLaminarViscosities d) iMarker /\
  GetMarkerThermalConductivities_all d iMarker
  = marker_values_spec d (GetMarkerThermalConductivities d) iMarker /\
  GetMarkerNormalHeatFluxes_all d GetNormal Norm iMarker
  = marker_values_spec d (GetMarkerNormalHeatFluxes d GetNormal Norm) iMarker.
Proof.
  unfold GetMarkerLaminarViscosities_all, GetMarkerThermalConductivities_all,
    GetMarkerNormalHeatFluxes_all, marker_values_spec.
  destruct (GetNumberMarkerVertices d iMarker); cbn; split_conj;
    try reflexivity; apply push_back_all_collect.
Qed.

(** Outside the compressible regime the normal heat flux at a marker vertex
    is zero, whatever the normal. *)
Theorem GetMarkerNormalHeatFluxes_zero (d : CDriver) (GetNormal : nat -> nat -> nat -> R)
    (Norm : nat -> (nat -> R) -> R) (iMarker iVertex iPoint : nat) :
  GetFluidProblem (main_config d) = true ->
  GetMarkerVertexIndices d iMarker iVertex = Ok iPoint ->
  GetKind_Regime (main_config d) <> COMPRESSIBLE ->
  GetMarkerNormalHeatFluxes d GetNormal Norm iMarker iVertex = Ok 0.
Proof.
  intros Hf Hv Hr.
  unfold GetMarkerNormalHeatFluxes, GetMarkerHeatFluxes.
  rewrite Hf, Hv. cbn [negb error_if mbind outcome_bind].
  rewrite bool_decide_eq_false_2 by exact Hr. cbn [negb mbind outcome_bind].
  generalize (Norm (nDim d) (GetNormal iMarker iVertex)). intros Area.
  assert (Hloop : forall n, (n <= nDim d)%nat ->
            for_upto_m n
              (fun iDim projected =>
                 v ← read (replicate (nDim d) 0.0) iDim;
                 Ok (projected + v * (GetNormal iMarker iVertex iDim / Area)))
              0.0 = Ok 0).
  { induction n as [|n IH]; intros Hn; cbn [for_upto_m].
    - f_equal. lra.
    - rewrite IH by lia. cbn [mbind outcome_bind]. unfold read.
      rewrite lookup_replicate_2 by lia. cbn [mbind outcome_bind]. f_equal. lra. }
  apply Hloop. lia.
Qed.

Lemma GetMarkerNormalHeatFluxes_zero_witness :
  GetMarkerNormalHeatFluxes
    {| main_config :=
         {| GetFluidProblem := true; GetDiscrete_Adjoint := false;
            GetKind_DiscreteAdjoint := RESIDUALS; GetKind_Regime := OTHER_REGIME 0;
            GetPrandtl_Lam := 1; GetGas_ConstantND := 1; GetGamma := 2 |};
       nDim := nDim (sample_driver true false);
       GetNumberVertices := GetNumberVertices (sample_driver true false);
       GetNumberMarkerVertices := GetNumberMarkerVertices (sample_driver true false);
       GetMarkerVertexIndices := GetMarkerVertexIndices (sample_driver true false);
       FLOW_SOL := FLOW_SOL (sample_driver true false);
       ADJFLOW_SOL := ADJFLOW_SOL (sample_driver true false) |}
    (fun _ _ _ => 1) (fun _ _ => 1) 0 1 = Ok 0.
Proof.
  apply GetMarkerNormalHeatFluxes_zero with (iPoint := 2%nat).
  - reflexivity.
  - reflexivity.
  - discriminate.
Defined.

(** *** Setters *)

Lemma for_upto_m_ok {S : Type} (n : nat) (body : nat -> S -> outcome S)
    (step : nat -> S -> S) (s : S) :
  (forall k acc, (k < n)%nat -> body k acc = Ok (step k acc)) ->
  for_upto_m n body s = Ok (for_upto n step s).
Proof.
  induction n as [|n IH]; intros Hbody; [reflexivity|].
  cbn [for_upto_m for_upto]. rewrite IH by (intros k acc Hk; apply Hbody; lia).
  cbn [mbind outcome_bind]. apply Hbody. lia.
Qed.

Lemma for_upto_app_map {T : Type} (n : nat) (g : nat -> T) (acc : list T) :
  for_upto n (fun i acc => acc ++ [g i]) acc = acc ++ map g (seq 0 n).
Proof.
  induction n as [|n IH]; cbn [for_upto].
  - now rewrite app_nil_r.
  - rewrite IH, seq_S, map_app, app_assoc. reflexivity.
Qed.

(** Given one value per vertex of the marker, the whole-marker heat-flux
    setter stores value [k] at vertex [k], for every vertex in order, and
    reads nothing else; with any other number of values it stops with
    "Invalid number of marker vertices!" before storing anything. *)
Theorem SetMarkerNormalHeatFluxes_all_stores (d : CDriver) (iMarker nVertex : nat)
    (values : list R) :
  GetFluidProblem (main_config d) = true ->
  GetNumberMarkerVertices d iMarker = Ok nVertex ->
  SetMarkerNormalHeatFluxes_all d iMarker values
  = if (length values =? nVertex)%nat then
      Ok (map (fun iVertex => {| flux_iMarker := iMarker; flux_iVertex := iVertex;
                                 flux_val := get values iVertex |})
            (seq 0 nVertex))
    else Error "Invalid number of marker vertices!".
Proof.
  intros Hf Hn. unfold SetMarkerNormalHeatFluxes_all. rewrite Hn.
  cbn [mbind outcome_bind].
  destruct (length values =? nVertex)%nat eqn:Hlen; cbn [negb error_if mbind outcome_bind];
    [|reflexivity].
  apply Nat.eqb_eq in Hlen.
  rewrite (for_upto_m_ok nVertex _
             (fun iVertex stores =>
                stores ++ [ {| flux_iMarker := iMarker; flux_iVertex := iVertex;
                               flux_val := get values iVertex |} ])).
  - rewrite for_upto_app_map. reflexivity.
  - intros k acc Hk. unfold read, get, SetMarkerNormalHeatFluxes.
    destruct (lookup_lt_is_Some_2 values k ltac:(lia)) as [v Hv]. rewrite Hv, Hf, Hn.
    cbn [negb error_if mbind outcome_bind default].
    rewrite (proj2 (Nat.leb_gt _ _) Hk). reflexivity.
Qed.

Lemma SetMarkerNormalHeatFluxes_all_stores_witness :
  SetMarkerNormalHeatFluxes_all (sample_driver true false) 0 [10; 20]
  = Ok [ {| flux_iMarker := 0; flux_iVertex := 0; flux_val := 10 |};
         {| flux_iMarker := 0; flux_iVertex := 1; flux_val := 20 |} ].
Proof.
  exact (SetMarkerNormalHeatFluxes_all_stores (sample_driver true false) 0 2 [10; 20]
           eq_refl eq_refl).
Defined.

Lemma wrap64_small (x : nat) : (N.of_nat x < 2 ^ 64)%N -> wrap64 x = x.
Proof.
  intros Hx. unfold wrap64. rewrite N.mod_small by exact Hx. apply Nat2N.id.
Qed.

Lemma of_nat_lt_le (x y : nat) (b : N) : (x <= y)%nat -> (N.of_nat y < b)%N -> (N.of_nat x < b)%N.
Proof. intros Hxy Hy. apply N.le_lt_trans with (N.of_nat y); [lia | exact Hy]. Qed.

(** The rows a nested loop appends, row after row. *)
Lemma rows_length {T : Type} (nVar : nat) (g : nat -> nat -> T) (nPoint : nat) :
  length (for_upto nPoint (fun iPoint stores => stores ++ map (g iPoint) (seq 0 nVar)) [])
  = (nPoint * nVar)%nat.
Proof.
  induction nPoint as [|n IH]; [reflexivity|].
  cbn [for_upto]. rewrite length_app, length_map, length_seq, IH. lia.
Qed.

Lemma rows_lookup {T : Type} (nVar : nat) (g : nat -> nat -> T) (nPoint iPoint iVar : nat) :
  (iPoint < nPoint)%nat -> (iVar < nVar)%nat ->
  for_upto nPoint (fun iPoint stores => stores ++ map (g iPoint) (seq 0 nVar)) []
    !! (iPoint * nVar + iVar)%nat
  = Some (g iPoint iVar).
Proof.
  induction nPoint as [|n IH]; intros Hp Hv; [lia|].
  cbn [for_upto].
  destruct (decide (iPoint = n)) as [->|Hne].
  - rewrite lookup_app_r by (rewrite rows_length; lia). rewrite rows_length.
    replace (n * nVar + iVar - n * nVar)%nat with iVar by lia.
    rewrite list_lookup_fmap, lookup_seq_lt by exact Hv. reflexivity.
  - rewrite lookup_app_l.
    + apply IH; [lia | exact Hv].
    + rewrite rows_length. assert (iPoint + 1 <= n)%nat as Hle by lia.
      apply (Nat.mul_le_mono_r _ _ nVar) in Hle. lia.
Qed.

(** With the residual-based discrete adjoint configured and exactly
    [nPoint * nVar] values (a product that fits [unsigned long]),
    [SetAdjointSourceTerm] reads every position of its argument once and in
    bounds, and hands the value at position [iPoint * nVar + iVar] to the
    solver as the source term of variable [iVar] at point [iPoint]. *)
Theorem SetAdjointSourceTerm_row_major (d : CDriver) (values : list R) :
  let nPoint := GetNumberVertices d in
  let nVar := GetnVar (FLOW_SOL d) in
  GetFluidProblem (main_config d) = true ->
  GetDiscrete_Adjoint (main_config d) = true ->
  GetKind_DiscreteAdjoint (main_config d) = RESIDUALS ->
  (N.of_nat (nPoint * nVar) < 2 ^ 64)%N ->
  length values = (nPoint * nVar)%nat ->
  exists stores,
    SetAdjointSourceTerm d values = Ok stores /\
    length stores = length values /\
    forall iPoint iVar, (iPoint < nPoint)%nat -> (iVar < nVar)%nat ->
      exists v, values !! (iPoint * nVar + iVar)%nat = Some v /\
                stores !! (iPoint * nVar + iVar)%nat
                = Some {| source_iPoint := iPoint; source_iVar := iVar; source_val := v |}.
Proof.
  intros nPoint nVar Hf Ha Hk Hfit Hlen.
  assert (Hidx : forall iPoint iVar, (iPoint < nPoint)%nat -> (iVar < nVar)%nat ->
            (iPoint * nVar + iVar < nPoint * nVar)%nat).
  { intros iPoint iVar Hp Hv. assert (iPoint + 1 <= nPoint)%nat as Hle by lia.
    apply (Nat.mul_le_mono_r _ _ nVar) in Hle. lia. }
  exists (for_upto nPoint
            (fun iPoint stores =>
               stores ++ map (fun iVar => {| source_iPoint := iPoint; source_iVar := iVar;
                                             source_val := get values (iPoint * nVar + iVar) |})
                           (seq 0 nVar))
            []).
  split_conj.
  - unfold SetAdjointSourceTerm, GetNumberStateVariables. rewrite Hf, Ha, Hk.
    cbn [negb orb error_if mbind outcome_bind]. rewrite bool_decide_eq_true_2 by reflexivity.
    cbn [negb error_if mbind outcome_bind]. fold nPoint. fold nVar.
    rewrite wrap64_small by exact Hfit.
    rewrite (proj2 (Nat.eqb_eq _ _) Hlen). cbn [negb error_if mbind outcome_bind].
    apply for_upto_m_ok. intros iPoint acc Hp.
    rewrite (for_upto_m_ok nVar _
               (fun iVar stores =>
                  stores ++ [ {| source_iPoint := iPoint; source_iVar := iVar;
                                 source_val := get values (iPoint * nVar + iVar) |} ])).
    + rewrite for_upto_app_map. reflexivity.
    + intros iVar acc' Hv. pose proof (Hidx iPoint iVar Hp Hv) as Hlt.
      rewrite wrap64_small by (apply of_nat_lt_le with (nPoint * nVar)%nat; [lia | exact Hfit]).
      unfold read, get.
      destruct (lookup_lt_is_Some_2 values (iPoint * nVar + iVar) ltac:(lia)) as [v Hv'].
      rewrite Hv'. reflexivity.
  - rewrite (rows_length nVar
               (fun iPoint iVar => {| source_iPoint := iPoint; source_iVar := iVar;
                                      source_val := get values (iPoint * nVar + iVar) |})).
    symmetry. exact Hlen.
  - intros iPoint iVar Hp Hv. pose proof (Hidx iPoint iVar Hp Hv) as Hlt.
    destruct (lookup_lt_is_Some_2 values (iPoint * nVar + iVar) ltac:(lia)) as [v Hv'].
    exists v. split; [exact Hv'|].
    rewrite (rows_lookup nVar
               (fun iPoint iVar => {| source_iPoint := iPoint; source_iVar := iVar;
                                      source_val := get values (iPoint * nVar + iVar) |}))
      by assumption.
    unfold get. rewrite Hv'. reflexivity.
Qed.

Lemma SetAdjointSourceTerm_row_major_witness :
  exists stores,
    SetAdjointSourceTerm (sample_driver true true) [1; 2; 3; 4; 5; 6; 7; 8; 9; 10; 11; 12]
    = Ok stores /\
    stores !! 6%nat = Some {| source_iPoint := 1; source_iVar := 2; source_val := 7 |}.
Proof.
  destruct (SetAdjointSourceTerm_row_major (sample_driver true true)
              [1; 2; 3; 4; 5; 6; 7; 8; 9; 10; 11; 12])
    as (stores & Hok & _ & Hat);
    [reflexivity | reflexivity | reflexivity | reflexivity | reflexivity |].
  exists stores. split; [exact Hok|].
  destruct (Hat 1%nat 2%nat) as (v & Hv & Hs); [simpl; lia | simpl; lia |].
  cbn in Hv. injection Hv as <-. exact Hs.
Defined.

(** *** Nonequilibrium mass fractions *)

(** When the partial densities of the species at a point add up to its
    (non-zero) density, the nonequilibrium mass fractions returned for that
    point are [rho_s / rho], one per species, and sum to 1. *)
Theorem GetNonequilibriumMassFractions_sum (d : CDriver) (nemo : NEMOData) (iPoint : nat) :
  let nSpecies := GetnSpecies nemo in
  GetNEMOProblem nemo = true ->
  (iPoint < GetNumberVertices d)%nat ->
  GetDensity nemo iPoint <> 0 ->
  sum_upto nSpecies (GetSolution nemo iPoint) = GetDensity nemo iPoint ->
  exists values,
    GetNonequilibriumMassFractions d nemo iPoint = Ok values /\
    length values = nSpecies /\
    (forall iSpecies, (iSpecies < nSpecies)%nat ->
       values !! iSpecies = Some (GetSolution nemo iPoint iSpecies / GetDensity nemo iPoint)) /\
    sum_upto nSpecies (get values) = 1.
Proof.
  intros nSpecies Hn Hp Hrho Hsum.
  exists (map (fun iSpecies => GetSolution nemo iPoint iSpecies / GetDensity nemo iPoint)
            (seq 0 nSpecies)).
  assert (Hlook : forall iSpecies, (iSpecies < nSpecies)%nat ->
            map (fun iSpecies => GetSolution nemo iPoint iSpecies / GetDensity nemo iPoint)
              (seq 0 nSpecies) !! iSpecies
            = Some (GetSolution nemo iPoint iSpecies / GetDensity nemo iPoint)).
  { intros i Hi. rewrite list_lookup_fmap, lookup_seq_lt by exact Hi. reflexivity. }
  split_conj.
  - unfold GetNonequilibriumMassFractions, GetNumberNonequilibriumSpecies.
    rewrite Hn, (proj2 (Nat.leb_gt _ _) Hp). cbn [negb error_if mbind outcome_bind].
    cbv zeta. fold nSpecies.
    rewrite (for_upto_app_map nSpecies
               (fun iSpecies => GetSolution nemo iPoint iSpecies / GetDensity nemo iPoint) []).
    reflexivity.
  - rewrite length_map, length_seq. reflexivity.
  - exact Hlook.
  - rewrite (sum_upto_ext nSpecies _
               (fun i => GetSolution nemo iPoint i * / GetDensity nemo iPoint)).
    + rewrite sum_upto_scale, Hsum. apply Rinv_r. exact Hrho.
    + intros i Hi. unfold get. rewrite Hlook by exact Hi. reflexivity.
Qed.

Lemma GetNonequilibriumMassFractions_sum_witness :
  exists values,
    GetNonequilibriumMassFractions (sample_driver true false) sample_nemo 1 = Ok values /\
    sum_upto 3 (get values) = 1.
Proof.
  destruct (GetNonequilibriumMassFractions_sum (sample_driver true false) sample_nemo 1)
    as (values & Hok & _ & _ & Hsum).
  - reflexivity.
  - simpl. lia.
  - simpl. lra.
  - simpl. lra.
  - exists values. split; [exact Hok | exact Hsum].
Defined.

(** The nonequilibrium whole-mesh getters test their guard before they
    look at the mesh: without a nonequilibrium problem they stop with
    "Nonequilibrium flow solver is not defined!" even on an empty mesh, and
    with one they return one entry per mesh point, in point order. *)
Theorem nonequilibrium_whole_mesh_getters (d : CDriver) (nemo : NEMOData) :
  (GetNEMOProblem nemo = false ->
     GetNonequilibriumMassFractions_all d nemo
     = Error "Nonequilibrium flow solver is not defined!" /\
     GetVibrationalTemperatures d nemo = Error "Nonequilibrium flow solver is not defined!") /\
  (GetNEMOProblem nemo = true ->
     GetNonequilibriumMassFractions_all d nemo
     = Ok (map (fun iPoint =>
                  map (fun iSpecies => GetSolution nemo iPoint iSpecies / GetDensity nemo iPoint)
                    (seq 0 (GetnSpecies nemo)))
             (seq 0 (GetNumberVertices d))) /\
     GetVibrationalTemperatures d nemo
     = Ok (map (GetTemperature_ve nemo) (seq 0 (GetNumberVertices d)))).
Proof.
  unfold GetNonequilibriumMassFractions_all, GetVibrationalTemperatures.
  split; intros Hn; rewrite Hn; cbn [negb error_if mbind outcome_bind]; split;
    try reflexivity.
  - apply push_back_all_ok. intros i Hi.
    unfold GetNonequilibriumMassFractions, GetNumberNonequilibriumSpecies.
    rewrite Hn, (proj2 (Nat.leb_gt _ _) Hi). cbn [negb error_if mbind outcome_bind].
    cbv zeta.
    rewrite (for_upto_app_map (GetnSpecies nemo)
               (fun iSpecies => GetSolution nemo i iSpecies / GetDensity nemo i) []).
    reflexivity.
  - cbv zeta. now rewrite fill_values_map.
Qed.

Lemma nonequilibrium_whole_mesh_getters_witness :
  GetVibrationalTemperatures (sample_driver true false) sample_nemo = Ok [300; 300; 300].
Proof.
  destruct (nonequilibrium_whole_mesh_getters (sample_driver true false) sample_nemo)
    as (_ & H).
  destruct H as (_ & H); [reflexivity | exact H].
Defined.

(** *** Inlet direction and far field *)

(** For every vertex of the marker, in vertex order, [SetInletAngle] hands
    the solver the component 0, [cos (alpha * PI_NUMBER / 180)], and then
    the component 1, [sin (alpha * PI_NUMBER / 180)], of the flow direction:
    a vector of unit length in the x-y plane.  Two values per vertex are
    stored and nothing else. *)
Theorem SetInletAngle_unit_direction (PI_NUMBER : R) (nVertex : list nat)
    (iMarker n : nat) (alpha : R) :
  nVertex !! iMarker = Some n ->
  exists stores,
    SetInletAngle PI_NUMBER nVertex iMarker alpha = Ok stores /\
    length stores = (n * 2)%nat /\
    forall iVertex, (iVertex < n)%nat ->
      stores !! (iVertex * 2 + 0)%nat
      = Some {| dir_iMarker := iMarker; dir_iVertex := iVertex; dir_iDim := 0;
                dir_val := cos (alpha * PI_NUMBER / 180) |} /\
      stores !! (iVertex * 2 + 1)%nat
      = Some {| dir_iMarker := iMarker; dir_iVertex := iVertex; dir_iDim := 1;
                dir_val := sin (alpha * PI_NUMBER / 180) |} /\
      cos (alpha * PI_NUMBER / 180) * cos (alpha * PI_NUMBER / 180)
      + sin (alpha * PI_NUMBER / 180) * sin (alpha * PI_NUMBER / 180) = 1.
Proof.
  intros Hn.
  set (a := alpha * PI_NUMBER / 180).
  set (g := fun iVertex iDim =>
              {| dir_iMarker := iMarker; dir_iVertex := iVertex; dir_iDim := iDim;
                 dir_val := match iDim with O => cos a | _ => sin a end |}).
  exists (for_upto n (fun iVertex stores => stores ++ map (g iVertex) (seq 0 2)) []).
  split_conj.
  - unfold SetInletAngle. rewrite Hn. cbv zeta.
    replace (alpha * PI_NUMBER / 180.0) with a by (subst a; lra). reflexivity.
  - apply rows_length.
  - intros iVertex Hv. split_conj.
    + rewrite (rows_lookup 2 g n iVertex 0) by lia. reflexivity.
    + rewrite (rows_lookup 2 g n iVertex 1) by lia. reflexivity.
    + pose proof (sin2_cos2 a) as H. unfold Rsqr in H. lra.
Qed.

Lemma SetInletAngle_unit_direction_witness :
  exists stores,
    SetInletAngle PI [2%nat; 5%nat] 1 90 = Ok stores /\
    length stores = 10%nat /\
    stores !! 8%nat
    = Some {| dir_iMarker := 1; dir_iVertex := 4; dir_iDim := 0; dir_val := 0 |} /\
    stores !! 9%nat
    = Some {| dir_iMarker := 1; dir_iVertex := 4; dir_iDim := 1; dir_val := 1 |}.
Proof.
  destruct (SetInletAngle_unit_direction PI [2%nat; 5%nat] 1 5 90)
    as (stores & Hok & Hlen & Hdir).
  - reflexivity.
  - destruct (Hdir 4%nat) as (Hc & Hs & _); [lia|].
    replace (90 * PI / 180) with (PI / 2) in Hc, Hs by lra.
    rewrite cos_PI2 in Hc. rewrite sin_PI2 in Hs.
    exists stores. split_conj; [exact Hok | exact Hlen | exact Hc | exact Hs].
Defined.

(** In two dimensions [UpdateFarfield] sets a free-stream velocity whose
    squared magnitude is [Mach^2 * Gamma * R * T / Velocity_Ref^2], the
    squared Mach number times the squared speed of sound in reference units,
    whatever the angle of attack; the entries from the third on are left as
    they were. *)
Theorem UpdateFarfield_speed_2d (PI_NUMBER : R) (d : CDriver) (far : FarfieldConfig)
    (Velocity_FreeStreamND : list R) :
  nDim d = 2%nat ->
  (2 <= length Velocity_FreeStreamND)%nat ->
  0 <= GetGamma (main_config d) * GetGas_Constant far * GetTemperature_FreeStream far ->
  let vel := UpdateFarfield d PI_NUMBER far Velocity_FreeStreamND in
  get vel 0 * get vel 0 + get vel 1 * get vel 1
  = GetMach far * GetMach far
    * (GetGamma (main_config d) * GetGas_Constant far * GetTemperature_FreeStream far)
    * (/ GetVelocity_Ref far * / GetVelocity_Ref far) /\
  length vel = length Velocity_FreeStreamND /\
  forall i, (2 <= i)%nat -> vel !! i = Velocity_FreeStreamND !! i.
Proof.
  intros Hdim Hlen Hpos vel. subst vel. unfold UpdateFarfield. rewrite Hdim.
  cbn [Nat.eqb]. cbv zeta.
  set (Alpha := GetAoA far * PI_NUMBER / 180.0).
  set (a2 := GetGamma (main_config d) * GetGas_Constant far * GetTemperature_FreeStream far) in *.
  pose proof (sqrt_sqrt a2 Hpos) as Hss.
  pose proof (sin2_cos2 Alpha) as Hsc. unfold Rsqr in Hsc.
  split_conj.
  - rewrite get_insert_ne by lia. rewrite !get_insert_eq by (rewrite ?length_insert; lia).
    unfold Rdiv.
    transitivity (GetMach far * GetMach far * (sqrt a2 * sqrt a2)
                  * (/ GetVelocity_Ref far * / GetVelocity_Ref far)
                  * (sin Alpha * sin Alpha + cos Alpha * cos Alpha)); [ring|].
    rewrite Hss, Hsc. ring.
  - rewrite !length_insert. reflexivity.
  - intros i Hi. rewrite !list_lookup_insert_ne by lia. reflexivity.
Qed.

Lemma UpdateFarfield_speed_2d_witness :
  get (UpdateFarfield (sample_driver true false) PI sample_farfield [0; 0; 0]) 0
  * get (UpdateFarfield (sample_driver true false) PI sample_farfield [0; 0; 0]) 0
  + get (UpdateFarfield (sample_driver true false) PI sample_farfield [0; 0; 0]) 1
    * get (UpdateFarfield (sample_driver true false) PI sample_farfield [0; 0; 0]) 1
  = 2 * 2 * (2 * 1 * 8) * (/ 1 * / 1).
Proof.
  apply (UpdateFarfield_speed_2d PI (sample_driver true false) sample_farfield [0; 0; 0]).
  - reflexivity.
  - simpl. lia.
  - simpl. lra.
Defined.

End PythonWrapperRestTheory.
